(** * Recipe pipeline: a shallow embedding of [scripts/pipeline.py] and
    [scripts/telegram_handler.py], with the properties of the orchestration
    contract stated and settled against it.

    Python [str] values are modelled as [string]; a character of the model is
    a code point in U+0000..U+00FF, and the character classes below follow
    what CPython's [str] methods answer on that range. *)

From Stdlib Require Import String Ascii List ZArith Lia Bool Arith DecimalString Sorted.
Import ListNotations.

Local Open Scope string_scope.

(* ------------------------------------------------------------------ *)
(** ** Python string primitives *)

Module PyStr.

Definition code (c : ascii) : nat := nat_of_ascii c.

Definition between (lo hi n : nat) : bool := (lo <=? n)%nat && (n <=? hi)%nat.

(** [c.isspace()]: TAB..CR, FS..US, SPACE, NEL and NBSP. *)
Definition isspace (c : ascii) : bool :=
  let n := code c in
  between 9 13 n || between 28 32 n || (n =? 133)%nat || (n =? 160)%nat.

(** [c.isalnum()]: letters, decimal digits, and the superscript digits and
    vulgar fractions that [isdigit]/[isnumeric] accept. *)
Definition isalnum (c : ascii) : bool :=
  let n := code c in
  between 48 57 n || between 65 90 n || between 97 122 n
  || (n =? 170)%nat || (n =? 178)%nat || (n =? 179)%nat || (n =? 181)%nat
  || (n =? 185)%nat || (n =? 186)%nat || between 188 190 n
  || between 192 214 n || between 216 246 n || between 248 255 n.

Definition isupper (c : ascii) : bool :=
  let n := code c in
  between 65 90 n || between 192 214 n || between 216 222 n.

Definition lower_char (c : ascii) : ascii :=
  if isupper c then ascii_of_nat (code c + 32) else c.

Fixpoint map_chars (f : ascii -> ascii) (s : string) : string :=
  match s with
  | EmptyString => EmptyString
  | String c r => String (f c) (map_chars f r)
  end.

Fixpoint filter_chars (p : ascii -> bool) (s : string) : string :=
  match s with
  | EmptyString => EmptyString
  | String c r => if p c then String c (filter_chars p r) else filter_chars p r
  end.

Fixpoint all_chars (p : ascii -> bool) (s : string) : bool :=
  match s with
  | EmptyString => true
  | String c r => p c && all_chars p r
  end.

(** [s.lower()] *)
Definition lower (s : string) : string := map_chars lower_char s.

(** [s.replace(a, b)] for one-character [a] and [b]. *)
Definition replace_char (a b : ascii) (s : string) : string :=
  map_chars (fun c => if Ascii.eqb c a then b else c) s.

Definition is_empty (s : string) : bool :=
  match s with EmptyString => true | _ => false end.

(** Dropping the longest suffix, resp. prefix, made of characters in [p]. *)
Fixpoint rstrip_by (p : ascii -> bool) (s : string) : string :=
  match s with
  | EmptyString => EmptyString
  | String c r =>
      let r' := rstrip_by p r in
      if p c && is_empty r' then EmptyString else String c r'
  end.

Fixpoint lstrip_by (p : ascii -> bool) (s : string) : string :=
  match s with
  | EmptyString => EmptyString
  | String c r => if p c then lstrip_by p r else s
  end.

(** [s.strip()] *)
Definition strip (s : string) : string := rstrip_by isspace (lstrip_by isspace s).

Definition is_slash (c : ascii) : bool := Ascii.eqb c "/"%char.

(** [s.rstrip('/')] *)
Definition rstrip_slash (s : string) : string := rstrip_by is_slash s.

(** [sub in s] *)
Fixpoint contains (sub s : string) : bool :=
  match s with
  | EmptyString => prefix sub EmptyString
  | String _ r => prefix sub s || contains sub r
  end.

(** [s.startswith(p)] *)
Definition startswith (p s : string) : bool := prefix p s.

Fixpoint drop (n : nat) (s : string) : string :=
  match n, s with
  | O, _ => s
  | S _, EmptyString => EmptyString
  | S m, String _ r => drop m r
  end.

(** [s[-n:] if len(s) > n else s] *)
Definition last_chars (n : nat) (s : string) : string :=
  if (n <? String.length s)%nat then drop (String.length s - n) s else s.

(** [s.replace(old, new)] for a non-empty [old]: left to right, without
    overlap; [skip] counts the characters of a match still to be consumed. *)
Fixpoint replace_from (old new : string) (skip : nat) (s : string) : string :=
  match s with
  | EmptyString => EmptyString
  | String c r =>
      match skip with
      | S k => replace_from old new k r
      | O =>
          if prefix old s
          then new ++ replace_from old new (String.length old - 1) r
          else String c (replace_from old new 0 r)
      end
  end.

Definition replace (old new s : string) : string := replace_from old new 0 s.

(** [s.split('\n')] *)
Fixpoint split_lines (s : string) : list string :=
  match s with
  | EmptyString => [EmptyString]
  | String c r =>
      if Ascii.eqb c "010"%char then EmptyString :: split_lines r
      else match split_lines r with
           | [] => [String c EmptyString]
           | l :: ls => String c l :: ls
           end
  end.

(** [s[:n]] *)
Fixpoint take (n : nat) (s : string) : string :=
  match n, s with
  | S m, String c r => String c (take m r)
  | _, _ => EmptyString
  end.

(** [str(n)] for an integer. *)
Definition of_Z (n : Z) : string := NilZero.string_of_int (Z.to_int n).

(** [s.encode()]: UTF-8. *)
Fixpoint encode (s : string) : list Z :=
  match s with
  | EmptyString => []
  | String c r =>
      let n := Z.of_nat (code c) in
      if (n <? 128)%Z then n :: encode r
      else Z.lor 192 (Z.shiftr n 6) :: Z.lor 128 (Z.land n 63) :: encode r
  end.

End PyStr.

(* ------------------------------------------------------------------ *)
(** ** [hashlib.md5] (RFC 1321), on bytes held as [Z] *)

Module MD5.

Local Open Scope Z_scope.

Definition mask32 : Z := 4294967295.

Definition add32 (x y : Z) : Z := Z.land (x + y) mask32.

Definition not32 (x : Z) : Z := Z.lxor x mask32.

Definition rotl32 (x : Z) (c : Z) : Z :=
  Z.land (Z.lor (Z.shiftl x c) (Z.shiftr x (32 - c))) mask32.

(** floor(2^32 * |sin(i + 1)|), i = 0..63 *)
Definition K : list Z :=
  [3614090360; 3905402710; 606105819; 3250441966; 4118548399; 1200080426;
   2821735955; 4249261313; 1770035416; 2336552879; 4294925233; 2304563134;
   1804603682; 4254626195; 2792965006; 1236535329; 4129170786; 3225465664;
   643717713; 3921069994; 3593408605; 38016083; 3634488961; 3889429448;
   568446438; 3275163606; 4107603335; 1163531501; 2850285829; 4243563512;
   1735328473; 2368359562; 4294588738; 2272392833; 1839030562; 4259657740;
   2763975236; 1272893353; 4139469664; 3200236656; 681279174; 3936430074;
   3572445317; 76029189; 3654602809; 3873151461; 530742520; 3299628645;
   4096336452; 1126891415; 2878612391; 4237533241; 1700485571; 2399980690;
   4293915773; 2240044497; 1873313359; 4264355552; 2734768916; 1309151649;
   4149444226; 3174756917; 718787259; 3951481745].

Definition shifts : list Z :=
  [7; 12; 17; 22; 7; 12; 17; 22; 7; 12; 17; 22; 7; 12; 17; 22;
   5; 9; 14; 20; 5; 9; 14; 20; 5; 9; 14; 20; 5; 9; 14; 20;
   4; 11; 16; 23; 4; 11; 16; 23; 4; 11; 16; 23; 4; 11; 16; 23;
   6; 10; 15; 21; 6; 10; 15; 21; 6; 10; 15; 21; 6; 10; 15; 21].

(** Message padding: a 1 bit, zeros up to 56 mod 64, then the bit length
    as a 64-bit little-endian integer. *)
Definition le_bytes (n : nat) (x : Z) : list Z :=
  map (fun i => Z.land (Z.shiftr x (8 * Z.of_nat i)) 255) (seq 0 n).

Definition pad (msg : list Z) : list Z :=
  let len := Z.of_nat (List.length msg) in
  let zeros := Z.to_nat ((55 - len) mod 64) in
  msg ++ [128] ++ repeat 0 zeros ++ le_bytes 8 (Z.land (8 * len) (2 ^ 64 - 1)).

Fixpoint word_le (bs : list Z) : Z :=
  match bs with
  | [] => 0
  | b :: r => b + 256 * word_le r
  end.

(** The sixteen 32-bit little-endian words of a 64-byte block. *)
Definition words (block : list Z) : list Z :=
  map (fun i => word_le (firstn 4 (skipn (4 * i) block))) (seq 0 16).

Definition round_step (M : list Z) (st : Z * Z * Z * Z) (i : nat) : Z * Z * Z * Z :=
  let '(A, B, C, D) := st in
  let zi := Z.of_nat i in
  let '(F, g) :=
    if zi <? 16 then (Z.lor (Z.land B C) (Z.land (not32 B) D), zi)
    else if zi <? 32 then (Z.lor (Z.land D B) (Z.land (not32 D) C), (5 * zi + 1) mod 16)
    else if zi <? 48 then (Z.lxor (Z.lxor B C) D, (3 * zi + 5) mod 16)
    else (Z.lxor C (Z.lor B (not32 D)), (7 * zi) mod 16) in
  let F' := add32 (add32 (add32 F A) (nth i K 0)) (nth (Z.to_nat g) M 0) in
  (D, add32 B (rotl32 F' (nth i shifts 0)), B, C).

Definition process_block (h : Z * Z * Z * Z) (block : list Z) : Z * Z * Z * Z :=
  let '(a0, b0, c0, d0) := h in
  let '(A, B, C, D) := fold_left (round_step (words block)) (seq 0 64) h in
  (add32 a0 A, add32 b0 B, add32 c0 C, add32 d0 D).

Fixpoint blocks (n : nat) (bs : list Z) : list (list Z) :=
  match n with
  | O => []
  | S m => firstn 64 bs :: blocks m (skipn 64 bs)
  end.

Definition init : Z * Z * Z * Z := (1732584193, 4023233417, 2562383102, 271733878).

(** The sixteen digest bytes. *)
Definition digest (msg : list Z) : list Z :=
  let p := pad msg in
  let '(a, b, c, d) := fold_left process_block (blocks (List.length p / 64) p) init in
  le_bytes 4 a ++ le_bytes 4 b ++ le_bytes 4 c ++ le_bytes 4 d.

(** [int(hexdigest(), 16)]: the digest bytes read as one big-endian number. *)
Definition digest_int (msg : list Z) : Z :=
  fold_left (fun acc b => 256 * acc + b) (digest msg) 0.

End MD5.

(* ------------------------------------------------------------------ *)
(** ** [scripts/pipeline.py] *)

Module Pipeline.

(** *** Data model (the JSON shapes the script reads and writes) *)

Record source := mkSource {
  url : string;
  platform : string;
  creator : string }.

Record metadata := mkMetadata {
  time : string;
  difficulty : string;
  tags : list string }.

Record ingredient := mkIngredient {
  item : string;
  amount : option string;
  prep : option string;
  note : option string }.

Record color_scheme := mkColors {
  primary : string;
  secondary : string;
  accent : string;
  gradient : string }.

Record recipe := mkRecipe {
  title : string;
  r_source : source;
  r_metadata : metadata;
  ingredients : list ingredient;
  instructions : list string;
  notes : string;
  colors : option color_scheme;
  thumbnail : option string }.

(** An entry of [data/recipes.json]. *)
Record index_entry := mkEntry {
  e_title : string;
  e_source : source;
  e_metadata : metadata;
  e_colors : option color_scheme;
  e_thumbnail : option string }.

Definition index := list index_entry.

(** *** [generate_color_scheme] *)

Definition hash_val (title : string) : Z := MD5.digest_int (PyStr.encode title).

Definition hue_of (title : string) : Z := (hash_val title mod 360)%Z.

Definition hsl (h : Z) (sat_light : string) : string :=
  "hsl(" ++ PyStr.of_Z h ++ sat_light.

Definition generate_color_scheme (title : string) : color_scheme :=
  let hue := hue_of title in
  {| primary := hsl hue ", 80%, 55%)";
     secondary := hsl ((hue + 30) mod 360) ", 70%, 60%)";
     accent := hsl ((hue + 180) mod 360) ", 75%, 50%)";
     gradient := "linear-gradient(135deg, " ++ hsl hue ", 80%, 55%)" ++ ", "
                 ++ hsl ((hue + 40) mod 360) ", 70%, 60%)" ++ ")" |}.

(** *** The slug of [save_to_github] (lines 224-225) *)

Definition slug_char (c : ascii) : bool := PyStr.isalnum c || Ascii.eqb c "-"%char.

Definition slug_of (title : string) : string :=
  let slug :=
    PyStr.replace_char "/"%char "-"%char
      (PyStr.replace_char " "%char "-"%char (PyStr.lower title)) in
  PyStr.filter_chars slug_char slug.

(** *** Platform detection of [extract_recipe] (lines 146-154) *)

Definition detect_platform (source_url : string) : string :=
  if PyStr.contains "tiktok" source_url then "tiktok"
  else if PyStr.contains "instagram" source_url then "instagram"
  else if PyStr.contains "youtube" source_url then "youtube"
  else "unknown".

(** *** External collaborators

    Each call out of the process is answered by the [world]; the script's
    own behaviour is what it does with the answers. *)

(** Reply of the Cobalt API to one POST: the request raises (network error,
    timeout, a body that is not a JSON object), or a JSON object comes back. *)
Inductive cobalt_reply :=
| CobaltRaises (msg : string)
| CobaltJson (status : option string) (media_url : option string) (filename : option string).

(** A finished [subprocess.run]: exit status, error text, and the size of
    the file the tool was asked to produce, when it left one. *)
Record proc_reply := mkProc {
  returncode : Z;
  stderr : string;
  produced : option Z }.

(** whisper-cli: exit status, error text, the [.txt] file when readable. *)
Record whisper_reply := mkWhisper {
  w_returncode : Z;
  w_stderr : string;
  w_transcript : option string }.

(** Gemini: the request or the decoding raises, or the text decodes to the
    empty object, or to a recipe object.  A recipe object here carries every
    field the publish step reads (title, source with its URL, metadata); an
    object that lacks one of them, on which [save_to_github] raises
    [KeyError] at line 224, 247 or 251-252, is not among the replies. *)
Inductive gemini_reply :=
| GeminiRaises
| GeminiEmpty
| GeminiRecipe (r : recipe).

Inductive git_reply :=
| GitDone (code : Z) (out err : string)
| GitTimeout.

Record world := mkWorld {
  cobalt : nat -> cobalt_reply;            (* reply to the n-th POST of the run *)
  retrieve : string -> string + Z;         (* urlretrieve: raises, or size written *)
  ffmpeg_audio : proc_reply;
  ffmpeg_thumb : proc_reply;
  whisper : whisper_reply;
  gemini : string -> string -> string -> gemini_reply; (* transcription, url, platform *)
  git : string -> git_reply;
  mkdtemp : string }.

Record environ := mkEnviron {
  GEMINI_API_KEY : option string;
  GOOGLE_API_KEY : option string }.

(** *** Observable effects *)

(** Lines the script prints. *)
Inductive notice :=
| CommandFailed (cmd : string) | CommandError (err : string)
| Downloading | CobaltError (status media filename : option string)
| Retrying (k max : Z) | Downloaded (filename : string) (mb : Z)
| AttemptFailed (k : Z) (msg : string) | WaitingForWake | FailedAfter (max : Z)
| ExtractingAudio | FfmpegError (err : string) | AudioExtracted (kb : Z)
| ExtractingThumbnail | ThumbnailFailed (err : string) | ThumbnailDone (kb : Z)
| Transcribing | WhisperError (err : string) | Transcribed (chars : nat)
| ExtractingRecipe | Extracted (title : string)
| Saving | Committed (slug : string)
| Usage | AlreadyExists (title : string) | SiteLink | MissingKey
| Banner | UrlLine (url : string) | Blank
| FailedDownload | FailedAudio | FailedTranscribe | FailedExtract
| Done | RecipeLine (title : string) | SiteLine (url : string).

Inductive event :=
| Print (n : notice)
| CobaltPost (url api_key : string)
| Sleep (seconds : Z)
| UrlRetrieve (media_url path : string)
| FfmpegAudio (video audio : string)
| FfmpegThumb (video thumb : string)
| Whisper (audio : string)
| Gemini (transcription url platform api_key : string)
| CopyFile (src dst : string)
| WriteRecipe (path : string) (r : recipe)
| WriteIndex (entries : index)
| Chdir (dir : string)
| Git (cmd : string)
| Mkdtemp (dir : string)
| Rmtree (dir : string).

(** What a run can touch: the index file ([None] when it cannot be opened
    or decoded), the paths known to exist, and the effects so far, oldest
    first. *)
Record state := mkState {
  index_file : option index;
  files : list string;
  trace : list event }.

Definition emit (e : event) (st : state) : state :=
  {| index_file := index_file st; files := files st; trace := trace st ++ [e] |}.

Definition say (n : notice) (st : state) : state := emit (Print n) st.

Definition add_file (p : string) (st : state) : state :=
  {| index_file := index_file st; files := p :: files st; trace := trace st |}.

Definition set_index (ix : index) (st : state) : state :=
  {| index_file := Some ix; files := files st; trace := trace st |}.

Definition path_exists (p : string) (st : state) : bool :=
  existsb (String.eqb p) (files st).

Definition remove_tree (dir : string) (st : state) : state :=
  {| index_file := index_file st;
     files := filter (fun p => negb (prefix (dir ++ "/") p)) (files st);
     trace := trace st |}.

(** Uncaught exceptions, by the place that raises them. *)
Inductive exn :=
| IndexUnreadable | AudioMissing | ThumbnailMissing | TranscriptUnreadable
| GeminiFailed | CommandTimeout.

Inductive res (A : Type) :=
| Val (a : A)
| Exc (e : exn).
Arguments Val {A} a.
Arguments Exc {A} e.

Definition path_join (dir name : string) : string := dir ++ "/" ++ name.

Definition repo_dir : string := "/home/jonathan/clawd/recipes".

Definition index_path : string := path_join (path_join repo_dir "data") "recipes.json".

Definition site_url : string := "https://jonahenk.github.io/recipes/".

(** *** [run_command] *)

Definition run_command (w : world) (cmd : string) (st : state) : res (option string) * state :=
  let st := emit (Git cmd) st in
  match git w cmd with
  | GitTimeout => (Exc CommandTimeout, st)
  | GitDone code out err =>
      if negb (code =? 0)%Z
      then (Val None, say (CommandError err) (say (CommandFailed cmd) st))
      else (Val (Some (PyStr.strip out)), st)
  end.

(** *** [download_video] *)

(** The [except Exception] handler of one attempt; [None] means the loop
    goes on to the next attempt. *)
Definition attempt_failed (attempt max_retries : nat) (msg : string) (st : state)
  : option (option string) * state :=
  let st := say (AttemptFailed (Z.of_nat attempt + 1) (PyStr.take 100 msg)) st in
  if (Z.of_nat attempt <? Z.of_nat max_retries - 1)%Z
  then (None, emit (Sleep 5) (say WaitingForWake st))
  else (Some None, say (FailedAfter (Z.of_nat max_retries)) st).

(** The body of the [for] loop for one value of [attempt]. *)
Definition download_attempt (w : world) (url api_key work_dir : string)
    (max_retries attempt : nat) (st : state) : option (option string) * state :=
  let st := emit (CobaltPost url api_key) st in
  match cobalt w attempt with
  | CobaltRaises msg => attempt_failed attempt max_retries msg st
  | CobaltJson status media filename =>
      if negb (match status with Some s => String.eqb s "tunnel" | None => false end)
      then
        let st := say (CobaltError status media filename) st in
        if (Z.of_nat attempt <? Z.of_nat max_retries - 1)%Z
        then (None, emit (Sleep 5)
                      (say (Retrying (Z.of_nat attempt + 1) (Z.of_nat max_retries)) st))
        else (Some None, st)
      else
        match media with
        | None => attempt_failed attempt max_retries "'url'" st
        | Some video_url =>
            let video_path := path_join work_dir "video.mp4" in
            let st := emit (UrlRetrieve video_url video_path) st in
            match retrieve w video_url with
            | inl msg => attempt_failed attempt max_retries msg st
            | inr size =>
                let st := add_file video_path st in
                let name := match filename with Some f => f | None => "video.mp4" end in
                (Some (Some video_path),
                 say (Downloaded name (size / 1024 / 1024)%Z) st)
            end
        end
  end.

(** [for attempt in range(max_retries)], with [todo] iterations left. *)
Fixpoint download_loop (w : world) (url api_key work_dir : string)
    (max_retries attempt todo : nat) (st : state) : option string * state :=
  match todo with
  | O => (None, st)
  | S todo' =>
      match download_attempt w url api_key work_dir max_retries attempt st with
      | (Some result, st') => (result, st')
      | (None, st') =>
          download_loop w url api_key work_dir max_retries (S attempt) todo' st'
      end
  end.

Definition download_video (w : world) (url api_key work_dir : string)
    (max_retries : nat) (st : state) : option string * state :=
  download_loop w url api_key work_dir max_retries 0 max_retries (say Downloading st).

(** *** [extract_audio], [extract_thumbnail], [transcribe] *)

Definition extract_audio (w : world) (video_path work_dir : string) (st : state)
  : res (option string) * state :=
  let st := say ExtractingAudio st in
  let audio_path := path_join work_dir "audio.wav" in
  let st := emit (FfmpegAudio video_path audio_path) st in
  let result := ffmpeg_audio w in
  if negb (returncode result =? 0)%Z
  then (Val None, say (FfmpegError (stderr result)) st)
  else
    match produced result with
    | None => (Exc AudioMissing, st)
    | Some size =>
        (Val (Some audio_path), say (AudioExtracted (size / 1024)%Z) (add_file audio_path st))
    end.

Definition extract_thumbnail (w : world) (video_path work_dir : string) (st : state)
  : res (option string) * state :=
  let st := say ExtractingThumbnail st in
  let thumb_path := path_join work_dir "thumbnail.jpg" in
  let st := emit (FfmpegThumb video_path thumb_path) st in
  let result := ffmpeg_thumb w in
  if negb (returncode result =? 0)%Z
  then (Val None, say (ThumbnailFailed (PyStr.take 100 (stderr result))) st)
  else
    match produced result with
    | None => (Exc ThumbnailMissing, st)
    | Some size =>
        (Val (Some thumb_path), say (ThumbnailDone (size / 1024)%Z) (add_file thumb_path st))
    end.

Definition transcribe (w : world) (audio_path : string) (st : state)
  : res (option string) * state :=
  let st := say Transcribing st in
  let st := emit (Whisper audio_path) st in
  let result := whisper w in
  if negb (w_returncode result =? 0)%Z
  then (Val None, say (WhisperError (w_stderr result)) st)
  else
    match w_transcript result with
    | None => (Exc TranscriptUnreadable, st)
    | Some text =>
        let transcription := PyStr.strip text in
        (Val (Some transcription), say (Transcribed (String.length transcription)) st)
    end.

(** *** [extract_recipe]

    The prompt is the fixed template filled with the transcription, the
    source URL and the detected platform; the request is recorded by these
    three values.  [None] stands for the empty object, which is falsy. *)
Definition extract_recipe (w : world) (transcription source_url api_key : string)
    (st : state) : res (option recipe) * state :=
  let st := say ExtractingRecipe st in
  let platform := detect_platform source_url in
  let st := emit (Gemini transcription source_url platform api_key) st in
  match gemini w transcription source_url platform with
  | GeminiRaises => (Exc GeminiFailed, st)
  | GeminiEmpty => (Val None, say (Extracted "Unknown") st)
  | GeminiRecipe recipe => (Val (Some recipe), say (Extracted (title recipe)) st)
  end.

(** *** [save_to_github]

    The function updates the caller's [recipe] dict in place (colours,
    thumbnail); the updated record is returned next to the site URL, so that
    [main] goes on with the object the caller holds afterwards. *)

Definition set_colors (c : color_scheme) (r : recipe) : recipe :=
  {| title := title r; r_source := r_source r; r_metadata := r_metadata r;
     ingredients := ingredients r; instructions := instructions r;
     notes := notes r; colors := Some c; thumbnail := thumbnail r |}.

Definition set_thumbnail (t : string) (r : recipe) : recipe :=
  {| title := title r; r_source := r_source r; r_metadata := r_metadata r;
     ingredients := ingredients r; instructions := instructions r;
     notes := notes r; colors := colors r; thumbnail := Some t |}.

(** [recipe.get('thumbnail')], as a truth value. *)
Definition truthy (o : option string) : bool :=
  match o with
  | Some t => negb (PyStr.is_empty t)
  | None => false
  end.

(** The list comprehension of line 247. *)
Definition existing_entries (ix : index) (r : recipe) : index :=
  filter (fun e => String.eqb (url (e_source e)) (url (r_source r))) ix.

Definition index_entry_of (r : recipe) : index_entry :=
  {| e_title := title r;
     e_source := r_source r;
     e_metadata := r_metadata r;
     e_colors := colors r;
     e_thumbnail := if truthy (thumbnail r) then thumbnail r else None |}.

Definition dquote : string := String "034"%char EmptyString.

Definition commit_command (r : recipe) : string :=
  "git commit -m " ++ dquote ++ "Add recipe: " ++ title r ++ dquote.

(** The three [run_command] calls; a failed command only prints. *)
Fixpoint run_commands (w : world) (cmds : list string) (st : state) : res unit * state :=
  match cmds with
  | [] => (Val tt, st)
  | cmd :: rest =>
      match run_command w cmd st with
      | (Exc e, st') => (Exc e, st')
      | (Val _, st') => run_commands w rest st'
      end
  end.

Definition save_to_github (w : world) (recipe : recipe) (transcription : string)
    (thumbnail_path : option string) (st : state)
  : res (string * Pipeline.recipe) * state :=
  let st := say Saving st in
  let slug := slug_of (title recipe) in
  let recipe := set_colors (generate_color_scheme (title recipe)) recipe in
  let '(recipe, st) :=
    match thumbnail_path with
    | Some p =>
        if path_exists p st
        then
          let thumb_dest := path_join (path_join repo_dir "recipes") (slug ++ ".jpg") in
          (set_thumbnail ("recipes/" ++ slug ++ ".jpg") recipe,
           add_file thumb_dest (emit (CopyFile p thumb_dest) st))
        else (recipe, st)
    | None => (recipe, st)
    end in
  let recipe_path := path_join (path_join repo_dir "recipes") (slug ++ ".json") in
  let st := add_file recipe_path (emit (WriteRecipe recipe_path recipe) st) in
  match index_file st with
  | None => (Exc IndexUnreadable, st)
  | Some ix =>
      let st :=
        match existing_entries ix recipe with
        | [] =>
            let ix' := (ix ++ [index_entry_of recipe])%list in
            set_index ix' (emit (WriteIndex ix') st)
        | _ :: _ => st
        end in
      let st := emit (Chdir repo_dir) st in
      match run_commands w ["git add -A"; commit_command recipe; "git push origin main"] st with
      | (Exc e, st) => (Exc e, st)
      | (Val _, st) => (Val (site_url, recipe), say (Committed slug) st)
      end
  end.

(** *** [main] *)

Inductive outcome :=
| UsageExit                       (* sys.exit(1), no argument *)
| CredentialExit                  (* sys.exit(1), no API key *)
| Returned (r : option recipe)    (* main() returns *)
| Uncaught (e : exn).             (* traceback *)

Definition exit_status (o : outcome) : Z :=
  match o with
  | UsageExit | CredentialExit | Uncaught _ => 1
  | Returned _ => 0
  end.

(** [a or b] on optional strings. *)
Definition py_or (a b : option string) : option string :=
  if truthy a then a else b.

Definition normalize (u : string) : string := PyStr.rstrip_slash u.

(** The entry the loop of lines 286-290 stops at, if any. *)
Definition find_existing (ix : index) (normalized_url : string) : option index_entry :=
  find (fun existing => String.eqb (normalize (url (e_source existing))) normalized_url) ix.

Definition cobalt_key : string := "DVmbGlgwzCGBbYtnBQnoRiRDXFGChVlc".

(** The body of the [try] block, lines 303-342. *)
Definition run_stages (w : world) (video_url gemini_key work_dir : string) (st : state)
  : outcome * state :=
  let st := say Blank (say (UrlLine video_url) (say Banner st)) in
  match download_video w video_url cobalt_key work_dir 3 st with
  | (None, st) => (Returned None, say FailedDownload st)
  | (Some video_path, st) =>
  match extract_audio w video_path work_dir st with
  | (Exc e, st) => (Uncaught e, st)
  | (Val None, st) => (Returned None, say FailedAudio st)
  | (Val (Some audio_path), st) =>
  match extract_thumbnail w video_path work_dir st with
  | (Exc e, st) => (Uncaught e, st)
  | (Val thumbnail_path, st) =>
  match transcribe w audio_path st with
  | (Exc e, st) => (Uncaught e, st)
  | (Val None, st) => (Returned None, say FailedTranscribe st)
  | (Val (Some transcription), st) =>
  if PyStr.is_empty transcription then (Returned None, say FailedTranscribe st) else
  match extract_recipe w transcription video_url gemini_key st with
  | (Exc e, st) => (Uncaught e, st)
  | (Val None, st) => (Returned None, say FailedExtract st)
  | (Val (Some recipe), st) =>
  match save_to_github w recipe transcription thumbnail_path st with
  | (Exc e, st) => (Uncaught e, st)
  | (Val (site, recipe), st) =>
      (Returned (Some recipe),
       say (SiteLine site) (say (RecipeLine (title recipe)) (say Done (say Blank st))))
  end end end end end end.

Definition main (w : world) (env : environ) (argv : list string) (st : state)
  : outcome * state :=
  match argv with
  | [] | [_] => (UsageExit, say Usage st)
  | _ :: arg :: _ =>
      let video_url := PyStr.strip arg in
      match index_file st with
      | None => (Uncaught IndexUnreadable, st)
      | Some ix =>
          let normalized_url := normalize video_url in
          match find_existing ix normalized_url with
          | Some existing =>
              (Returned None, say SiteLink (say (AlreadyExists (e_title existing)) st))
          | None =>
              match py_or (GEMINI_API_KEY env) (GOOGLE_API_KEY env) with
              | None => (CredentialExit, say MissingKey st)
              | Some gemini_key =>
                  if PyStr.is_empty gemini_key then (CredentialExit, say MissingKey st) else
                  let work_dir := mkdtemp w in
                  let st := emit (Mkdtemp work_dir) st in
                  let '(o, st) := run_stages w video_url gemini_key work_dir st in
                  (o, remove_tree work_dir (emit (Rmtree work_dir) st))
              end
          end
      end
  end.

End Pipeline.

(* ------------------------------------------------------------------ *)
(** ** [scripts/telegram_handler.py] *)

Module Handler.

(** What [subprocess.run] hands back: a completed process, or the
    [TimeoutExpired] it raises after 300 seconds. *)
Inductive run_reply :=
| Completed (returncode : Z) (stdout stderr : string)
| TimeoutExpired.

Inductive notice :=
| Usage
| Unsupported (supported : list string)
| Added (title : string)
| SiteLink
| Failed
| ErrorText (text : string).

Inductive event :=
| Print (n : notice)
| Run (argv : list string) (timeout : Z).

Definition valid_platforms : list string := ["tiktok"; "instagram"; "youtube"; "youtu.be"].

(** [any(p in url.lower() for p in valid_platforms)] *)
Definition supported (url : string) : bool :=
  existsb (fun p => PyStr.contains p (PyStr.lower url)) valid_platforms.

Definition pipeline : string := "/home/jonathan/clawd/recipes/scripts/pipeline.py".

(** The loop of lines 35-40: the first line that starts with [Recipe:]. *)
Fixpoint report (lines : list string) : list event :=
  match lines with
  | [] => []
  | line :: rest =>
      if PyStr.startswith "Recipe:" line
      then
        let title := PyStr.strip (PyStr.replace "Recipe:" "" line) in
        [Print (Added title); Print SiteLink]
      else report rest
  end.

(** [main]: the exit status of the process and what it did, oldest first. *)
Definition main (subprocess_run : list string -> run_reply) (argv : list string)
  : Z * list event :=
  match argv with
  | [] | [_] => (1%Z, [Print Usage])
  | _ :: url :: _ =>
      if negb (supported url)
      then (1%Z, [Print (Unsupported valid_platforms)])
      else
        let cmd := ["python3"; pipeline; url] in
        match subprocess_run cmd with
        | TimeoutExpired => (1%Z, [Run cmd 300%Z])
        | Completed returncode stdout stderr =>
            if (returncode =? 0)%Z
            then (0%Z, Run cmd 300%Z :: report (PyStr.split_lines stdout))
            else (0%Z, [Run cmd 300%Z; Print Failed;
                      Print (ErrorText (PyStr.last_chars 500 stderr))])
        end
  end.

End Handler.


(* ------------------------------------------------------------------ *)
(** ** The specification's wording, for comparison with the code *)

Module AsSpecified.

(** The slug as the specification words it: lower-case, spaces to hyphens,
    then every character that is neither alphanumeric nor a hyphen removed. *)
Definition slug (title : string) : string :=
  PyStr.filter_chars Pipeline.slug_char
    (PyStr.replace_char " "%char "-"%char (PyStr.lower title)).

(** Platform matching as the specification words it: on the URL with its
    letter case ignored. *)
Definition mentions (needle url : string) : bool :=
  PyStr.contains needle (PyStr.lower url).

End AsSpecified.

(* ------------------------------------------------------------------ *)
(** ** Reading a run: the vocabulary of the statements below *)

Module Observe.

Import Pipeline.

(** Everything a run does other than printing. *)
Definition is_effect (e : event) : bool :=
  match e with
  | Print _ => false
  | _ => true
  end.

Definition effects (t : list event) : list event := filter is_effect t.

(** The index entries recorded for a URL, compared as [main] compares. *)
Definition entries_for (u : string) (ix : index) : index :=
  filter (fun e => String.eqb (normalize (url (e_source e))) (normalize u)) ix.

(** The record most recently written to a recipe file. *)
Definition last_written (t : list event) : option recipe :=
  fold_left (fun acc e => match e with WriteRecipe _ r => Some r | _ => acc end) t None.

(** The colours a publish step stores in the recipe file. *)
Definition published_colors (w : world) (r : recipe) (transcription : string)
    (thumbnail_path : option string) (st : state) : option color_scheme :=
  match last_written (trace (snd (save_to_github w r transcription thumbnail_path st))) with
  | Some written => colors written
  | None => None
  end.

(** A Cobalt reply whose status is anything but [tunnel]. *)
Definition non_tunnel (r : cobalt_reply) : bool :=
  match r with
  | CobaltRaises _ => false
  | CobaltJson (Some s) _ _ => negb (String.eqb s "tunnel")
  | CobaltJson None _ _ => true
  end.

(** [n] requests with a five-second pause between consecutive ones. *)
Fixpoint retry_schedule (url api_key : string) (n : nat) : list event :=
  match n with
  | O => []
  | S O => [CobaltPost url api_key]
  | S m => CobaltPost url api_key :: Sleep 5 :: retry_schedule url api_key m
  end.

(** Space and slash both become a hyphen in a slug. *)
Definition hyphenate (c : ascii) : ascii :=
  if (Ascii.eqb c " " || Ascii.eqb c "/")%char then "-"%char else c.

End Observe.

(* ------------------------------------------------------------------ *)
(** ** A concrete scenario: the end-to-end example of the specification *)

Module Scenario.

Import Pipeline.

Definition soup : recipe :=
  {| title := "Test Soup";
     r_source := {| url := "https://tiktok.com/x"; platform := "tiktok"; creator := "@chef" |};
     r_metadata := {| time := "20 minutes"; difficulty := "easy"; tags := ["soup"] |};
     ingredients := [{| item := "water"; amount := Some "1L"; prep := None; note := None |}];
     instructions := ["boil water"];
     notes := "";
     colors := None;
     thumbnail := None |}.

(** Every collaborator answers; the video is too short for a thumbnail. *)
Definition ready : world :=
  {| cobalt := fun _ => CobaltJson (Some "tunnel") (Some "https://cdn.example/v.mp4") (Some "v.mp4");
     retrieve := fun _ => inr 3145728%Z;
     ffmpeg_audio := mkProc 0 "" (Some 65536%Z);
     ffmpeg_thumb := mkProc 1 "Output file is empty" None;
     whisper := mkWhisper 0 "" (Some "boil water
");
     gemini := fun _ _ _ => GeminiRecipe soup;
     git := fun _ => GitDone 0 "" "";
     mkdtemp := "/tmp/recipe-k3x9" |}.

(** The download backend never wakes up. *)
Definition asleep : world :=
  {| cobalt := fun _ => CobaltJson (Some "error") None None;
     retrieve := retrieve ready;
     ffmpeg_audio := ffmpeg_audio ready;
     ffmpeg_thumb := ffmpeg_thumb ready;
     whisper := whisper ready;
     gemini := gemini ready;
     git := git ready;
     mkdtemp := mkdtemp ready |}.

Definition with_key : environ := {| GEMINI_API_KEY := Some "key"; GOOGLE_API_KEY := None |}.

Definition no_key : environ := {| GEMINI_API_KEY := None; GOOGLE_API_KEY := None |}.

Definition fresh_site : state := {| index_file := Some []; files := []; trace := [] |}.

(** The site once the soup has been published. *)
Definition soup_site : state :=
  snd (main ready with_key ["pipeline.py"; "https://tiktok.com/x"] fresh_site).

(** The same recipe, as returned for the URL written with a trailing slash. *)
Definition soup_slash : recipe :=
  {| title := title soup;
     r_source := {| url := "https://tiktok.com/x/"; platform := "tiktok"; creator := "@chef" |};
     r_metadata := r_metadata soup;
     ingredients := ingredients soup;
     instructions := instructions soup;
     notes := notes soup;
     colors := None;
     thumbnail := None |}.

(** The entry the publish step files for the soup. *)
Definition soup_entry : index_entry :=
  index_entry_of (set_colors (generate_color_scheme (title soup)) soup).

(** As [ready], with a language model that answers with the slash-ended
    URL whatever link was submitted. *)
Definition rewriting : world :=
  {| cobalt := cobalt ready;
     retrieve := retrieve ready;
     ffmpeg_audio := ffmpeg_audio ready;
     ffmpeg_thumb := ffmpeg_thumb ready;
     whisper := whisper ready;
     gemini := fun _ _ _ => GeminiRecipe soup_slash;
     git := git ready;
     mkdtemp := mkdtemp ready |}.

End Scenario.

(* ------------------------------------------------------------------ *)
(** ** The anatomy of a run: stages, counters and shapes of output *)

Module Anatomy.

Import Pipeline.

(** The part of [main] an effect belongs to; printing belongs to none. *)
Inductive stage :=
| Setup | Download | Audio | Thumbnail | Transcription | Extraction | Publish | Cleanup.

Definition rank (s : stage) : nat :=
  match s with
  | Setup => 0 | Download => 1 | Audio => 2 | Thumbnail => 3
  | Transcription => 4 | Extraction => 5 | Publish => 6 | Cleanup => 7
  end.

Definition owner (e : event) : option stage :=
  match e with
  | Print _ => None
  | Mkdtemp _ => Some Setup
  | CobaltPost _ _ | Sleep _ | UrlRetrieve _ _ => Some Download
  | FfmpegAudio _ _ => Some Audio
  | FfmpegThumb _ _ => Some Thumbnail
  | Whisper _ => Some Transcription
  | Gemini _ _ _ _ => Some Extraction
  | CopyFile _ _ | WriteRecipe _ _ | WriteIndex _ | Chdir _ | Git _ => Some Publish
  | Rmtree _ => Some Cleanup
  end.

(** [e] is printing, or an effect of stage [s]. *)
Definition within (s : stage) (e : event) : bool :=
  match owner e with
  | None => true
  | Some s' => (rank s' =? rank s)%nat
  end.

(** The stage ranks of the effects of a trace, in order. *)
Definition ranks (t : list event) : list nat :=
  flat_map (fun e => match owner e with Some s => [rank s] | None => [] end) t.

Definition is_request (e : event) : bool :=
  match e with CobaltPost _ _ => true | _ => false end.

Definition is_sleep (e : event) : bool :=
  match e with Sleep _ => true | _ => false end.

Definition requests (t : list event) : nat := List.length (filter is_request t).

Definition sleeps (t : list event) : nat := List.length (filter is_sleep t).

(** An attempt that does not produce the video: the request raises, the
    status is not [tunnel], the reply carries no URL, or the fetch raises. *)
Definition attempt_fails (w : world) (attempt : nat) : bool :=
  match cobalt w attempt with
  | CobaltRaises _ => true
  | CobaltJson (Some s) media _ =>
      if String.eqb s "tunnel"
      then match media with
           | None => true
           | Some video_url =>
               match retrieve w video_url with inl _ => true | inr _ => false end
           end
      else true
  | CobaltJson None _ _ => true
  end.

(** The effects of the publish step on the repository. *)
Definition touches_repo (e : event) : bool :=
  match owner e with
  | Some Publish => true
  | _ => false
  end.

(** The ways a run ends without having called [save_to_github]: the exits
    of lines 273 and 297, [return None] (the duplicate of line 290 and the
    stages that report failure), and an exception raised by one of the
    stages before the publish step. *)
Definition ends_before_publish (o : outcome) : bool :=
  match o with
  | UsageExit | CredentialExit | Returned None => true
  | Uncaught AudioMissing | Uncaught ThumbnailMissing
  | Uncaught TranscriptUnreadable | Uncaught GeminiFailed => true
  | _ => false
  end.

(** The normalised source URLs of an index, in order. *)
Definition keys (ix : index) : list string :=
  map (fun e => normalize (url (e_source e))) ix.

(** A language model that answers with the URL it was given, up to
    trailing slashes. *)
Definition echoes (w : world) : Prop :=
  forall transcription source_url platform r,
    gemini w transcription source_url platform = GeminiRecipe r ->
    normalize (url (r_source r)) = normalize source_url.

(** A version-control backend whose commands end within the time limit. *)
Definition git_returns (w : world) : Prop :=
  forall cmd, git w cmd <> GitTimeout.

(** Line 339: [print(f"Recipe: {recipe['title']}")]. *)
Definition recipe_line (title : string) : string := "Recipe: " ++ title.

Definition newline : string := String "010"%char EmptyString.

(** The text printed for a list of lines. *)
Definition printed (lines : list string) : string := String.concat newline lines.

(** What a stage before publishing may do to the state: leave the index
    alone, keep the files there are, add files only under the work
    directory, and extend the trace by printing and by its own effects. *)
Definition frame (s : stage) (work_dir : string) (st st' : state) : Prop :=
  index_file st' = index_file st
  /\ (forall f, In f (files st') -> In f (files st) \/ prefix (work_dir ++ "/") f = true)
  /\ (forall f, In f (files st) -> In f (files st'))
  /\ exists t, trace st' = (trace st ++ t)%list /\ forallb (within s) t = true.

(** Printing and shell commands: what [run_command] does. *)
Definition command_event (e : event) : bool :=
  match e with
  | Print _ | Git _ => true
  | _ => false
  end.

(** What the publish step does once the recipe file is written. *)
Definition commit_event (e : event) : bool :=
  match e with
  | Print _ | WriteIndex _ | Chdir _ | Git _ => true
  | _ => false
  end.

(** The shell commands of a trace, in order. *)
Definition git_commands (t : list event) : list string :=
  flat_map (fun e => match e with Git cmd => [cmd] | _ => [] end) t.

(** The three commands of lines 264-266 for a recipe. *)
Definition publish_commands (r : recipe) : list string :=
  ["git add -A"; commit_command r; "git push origin main"].

Definition recipes_dir : string := path_join repo_dir "recipes".

(** Whether the publish step copies a thumbnail (line 231). *)
Definition copies (thumbnail_path : option string) (st : state) : bool :=
  match thumbnail_path with
  | Some p => path_exists p st
  | None => false
  end.

Definition thumb_dest (r : recipe) : string :=
  path_join recipes_dir (slug_of (title r) ++ ".jpg").

Definition recipe_path (r : recipe) : string :=
  path_join recipes_dir (slug_of (title r) ++ ".json").

(** The record the publish step writes for [r]. *)
Definition published (r : recipe) (thumbnail_path : option string) (st : state) : recipe :=
  let coloured := set_colors (generate_color_scheme (title r)) r in
  if copies thumbnail_path st
  then set_thumbnail ("recipes/" ++ slug_of (title r) ++ ".jpg") coloured
  else coloured.

(** The copy of the thumbnail, when there is one. *)
Definition copy_events (r : recipe) (thumbnail_path : option string) (st : state)
  : list event :=
  match thumbnail_path with
  | Some p => if path_exists p st then [CopyFile p (thumb_dest r)] else []
  | None => []
  end.

Definition copy_files (r : recipe) (thumbnail_path : option string) (st : state)
  : list string :=
  if copies thumbnail_path st then [thumb_dest r] else [].

(** The index after publishing [written] on top of [ix]. *)
Definition index_after (ix : index) (written : recipe) : index :=
  match existing_entries ix written with
  | [] => (ix ++ [index_entry_of written])%list
  | _ :: _ => ix
  end.

(** Every request to the language model in [t] is for [source_url], with
    its detected platform, the key [api_key] and a transcript that is not
    empty. *)
Definition asks (source_url api_key : string) (t : list event) : Prop :=
  forall transcription u label key,
    In (Gemini transcription u label key) t ->
    u = source_url /\ label = detect_platform source_url /\ key = api_key
    /\ transcription <> "".

(** The state [s] of a run that started in [st] and has gone through the
    stages up to rank [k], none of which is the publish step. *)
Definition reached (k : nat) (source_url api_key work_dir : string) (st s : state) : Prop :=
  index_file s = index_file st
  /\ (forall f, In f (files s) -> In f (files st) \/ prefix (work_dir ++ "/") f = true)
  /\ (forall f, In f (files st) -> In f (files s))
  /\ exists t,
      trace s = (trace st ++ t)%list
      /\ Sorted.StronglySorted le (ranks t)
      /\ Forall (fun r => 1 <= r <= k) (ranks t)
      /\ asks source_url api_key t.

Definition no_newline (c : ascii) : bool := negb (Ascii.eqb c "010"%char).

Definition no_space (c : ascii) : bool := negb (PyStr.isspace c).

(** One step of slug formation on a character. *)
Definition slug_step (c : ascii) : ascii := Observe.hyphenate (PyStr.lower_char c).

End Anatomy.

(* ------------------------------------------------------------------ *)
(** ** Further collaborators and sites for concrete runs *)

Module Worlds.

Import Pipeline.

(** As [Scenario.ready], with a repository whose every command fails. *)
Definition offline : world :=
  {| cobalt := cobalt Scenario.ready;
     retrieve := retrieve Scenario.ready;
     ffmpeg_audio := ffmpeg_audio Scenario.ready;
     ffmpeg_thumb := ffmpeg_thumb Scenario.ready;
     whisper := whisper Scenario.ready;
     gemini := gemini Scenario.ready;
     git := fun _ => GitDone 128 "" "fatal: unable to access the remote";
     mkdtemp := mkdtemp Scenario.ready |}.

(** As [Scenario.ready], with a push that hangs. *)
Definition hanging : world :=
  {| cobalt := cobalt Scenario.ready;
     retrieve := retrieve Scenario.ready;
     ffmpeg_audio := ffmpeg_audio Scenario.ready;
     ffmpeg_thumb := ffmpeg_thumb Scenario.ready;
     whisper := whisper Scenario.ready;
     gemini := gemini Scenario.ready;
     git := fun cmd => if String.eqb cmd "git push origin main"
                       then GitTimeout else GitDone 0 "" "";
     mkdtemp := mkdtemp Scenario.ready |}.

(** As [Scenario.ready], with a backend that wakes up for the third
    request and a thumbnail that can be taken. *)
Definition waking : world :=
  {| cobalt := fun n => match n with
                        | 0 => CobaltRaises "timed out"
                        | 1 => CobaltJson (Some "error") None None
                        | _ => cobalt Scenario.ready n
                        end;
     retrieve := retrieve Scenario.ready;
     ffmpeg_audio := ffmpeg_audio Scenario.ready;
     ffmpeg_thumb := mkProc 0 "" (Some 40960%Z);
     whisper := whisper Scenario.ready;
     gemini := gemini Scenario.ready;
     git := git Scenario.ready;
     mkdtemp := mkdtemp Scenario.ready |}.

(** As [Scenario.ready], with a transcript of white space only. *)
Definition silent : world :=
  {| cobalt := cobalt Scenario.ready;
     retrieve := retrieve Scenario.ready;
     ffmpeg_audio := ffmpeg_audio Scenario.ready;
     ffmpeg_thumb := ffmpeg_thumb Scenario.ready;
     whisper := mkWhisper 0 "" (Some "  ");
     gemini := gemini Scenario.ready;
     git := git Scenario.ready;
     mkdtemp := mkdtemp Scenario.ready |}.

(** The soup, filed under the URL [u]. *)
Definition soup_at (u : string) : recipe :=
  {| title := title Scenario.soup;
     r_source := {| url := u; platform := detect_platform u; creator := "@chef" |};
     r_metadata := r_metadata Scenario.soup;
     ingredients := ingredients Scenario.soup;
     instructions := instructions Scenario.soup;
     notes := notes Scenario.soup;
     colors := None;
     thumbnail := None |}.

(** As [waking], with a language model that files the recipe under the URL
    it was asked about. *)
Definition faithful : world :=
  {| cobalt := cobalt waking;
     retrieve := retrieve waking;
     ffmpeg_audio := ffmpeg_audio waking;
     ffmpeg_thumb := ffmpeg_thumb waking;
     whisper := whisper waking;
     gemini := fun _ u _ => GeminiRecipe (soup_at u);
     git := git waking;
     mkdtemp := mkdtemp waking |}.

(** As [Scenario.ready], with a video the transcoder cannot read. *)
Definition corrupt : world :=
  {| cobalt := cobalt Scenario.ready;
     retrieve := retrieve Scenario.ready;
     ffmpeg_audio := mkProc 1 "Invalid data found when processing input" None;
     ffmpeg_thumb := ffmpeg_thumb Scenario.ready;
     whisper := whisper Scenario.ready;
     gemini := gemini Scenario.ready;
     git := git Scenario.ready;
     mkdtemp := mkdtemp Scenario.ready |}.

(** A site whose index file cannot be read. *)
Definition broken_site : state := {| index_file := None; files := []; trace := [] |}.

(** A site where a thumbnail was extracted into the work directory. *)
Definition thumb_site : state :=
  {| index_file := Some [];
     files := ["/tmp/recipe-k3x9/thumbnail.jpg"];
     trace := [] |}.

Definition both_keys : environ :=
  {| GEMINI_API_KEY := Some ""; GOOGLE_API_KEY := Some "google-key" |}.



End Worlds.

(* ------------------------------------------------------------------ *)
(** * Properties *)

(** ** The model against known values *)

Example md5_of_empty :
  MD5.digest_int [] = 281949768489412648962353822266799178366%Z.
Proof. vm_compute. reflexivity. Qed.

Example md5_of_abc :
  MD5.digest_int (PyStr.encode "abc") = 191415658344158766168031473277922803570%Z.
Proof. vm_compute. reflexivity. Qed.

(** Eighty digits: two blocks once padded. *)
Example md5_of_digits :
  MD5.digest_int
    (PyStr.encode
       "12345678901234567890123456789012345678901234567890123456789012345678901234567890")
  = 116878371745249285768420430739153598074%Z.
Proof. vm_compute. reflexivity. Qed.

Example strip_example : PyStr.strip "  https://a/b/ " = "https://a/b/".
Proof. reflexivity. Qed.

Example rstrip_example : PyStr.rstrip_slash "https://a/b//" = "https://a/b".
Proof. reflexivity. Qed.

Example replace_example : PyStr.replace "Recipe:" "" "Recipe: Test Soup" = " Test Soup".
Proof. reflexivity. Qed.

Example last_chars_example : PyStr.last_chars 3 "abcdef" = "def".
Proof. reflexivity. Qed.

Example soup_colors :
  Pipeline.generate_color_scheme "Test Soup"
  = {| Pipeline.primary := "hsl(188, 80%, 55%)";
       Pipeline.secondary := "hsl(218, 70%, 60%)";
       Pipeline.accent := "hsl(8, 75%, 50%)";
       Pipeline.gradient :=
         "linear-gradient(135deg, hsl(188, 80%, 55%), hsl(228, 70%, 60%))" |}.
Proof. vm_compute. reflexivity. Qed.

(** The end-to-end scenario: one file [recipes/test-soup.json], one index
    entry keyed by the submitted URL. *)
Example soup_published :
  Pipeline.index_file Scenario.soup_site = Some [Scenario.soup_entry]
  /\ Pipeline.files Scenario.soup_site
     = ["/home/jonathan/clawd/recipes/recipes/test-soup.json"]
  /\ Pipeline.url (Pipeline.e_source Scenario.soup_entry) = "https://tiktok.com/x".
Proof. vm_compute. repeat split. Qed.

Example handler_reports_title :
  Handler.main
    (fun _ => Handler.Completed 0 (String.concat (String "010" "")
                                     ["=== Done! ==="; "Recipe: Test Soup"; "Site: x"]) "")
    ["recipe-handler"; "https://youtu.be/abc"]
  = (0%Z,
     [Handler.Run ["python3"; Handler.pipeline; "https://youtu.be/abc"] 300;
      Handler.Print (Handler.Added "Test Soup");
      Handler.Print Handler.SiteLink]).
Proof. vm_compute. reflexivity. Qed.

(** ** Strings *)

Section StringFacts.

Import PyStr.

Lemma append_empty_r (s : string) : s ++ "" = s.
Proof. induction s as [|c r IH]; simpl; congruence. Qed.

Lemma append_assoc (a b c : string) : (a ++ b) ++ c = a ++ b ++ c.
Proof. induction a as [|x a IH]; simpl; congruence. Qed.

Lemma prefix_split (p s : string) :
  prefix p s = true <-> exists rest, s = p ++ rest.
Proof.
  revert s; induction p as [|a p IH]; intros s; simpl.
  - destruct s; split; eauto.
  - destruct s as [|b s]; simpl.
    + split; [discriminate | intros [rest H]; discriminate].
    + destruct (ascii_dec a b) as [->|Hab].
      * rewrite IH. split; intros [rest H]; exists rest; congruence.
      * split; [discriminate | intros [rest H]; congruence].
Qed.

(** [sub in s] holds exactly when [s] decomposes around [sub]. *)
Lemma contains_split (sub s : string) :
  contains sub s = true <-> exists pre post, s = pre ++ sub ++ post.
Proof.
  induction s as [|c s IH]; cbn [contains].
  - rewrite prefix_split. split.
    + intros [rest H]. exists "", rest. exact H.
    + intros [pre [post H]]. destruct pre; simpl in H.
      * exists post. exact H.
      * discriminate.
  - rewrite orb_true_iff, IH, prefix_split. split.
    + intros [[rest H] | [pre [post H]]].
      * exists "", rest. exact H.
      * exists (String c pre), post. simpl. congruence.
    + intros [pre [post H]]. destruct pre as [|x pre]; simpl in H.
      * left. exists post. exact H.
      * right. exists pre, post. congruence.
Qed.

Lemma contains_false_split (sub s : string) :
  contains sub s = false <-> forall pre post, s <> pre ++ sub ++ post.
Proof.
  rewrite <- not_true_iff_false, contains_split. split.
  - intros H pre post E. apply H. eauto.
  - intros H [pre [post E]]. exact (H pre post E).
Qed.

Lemma lstrip_by_suffix (p : ascii -> bool) (s : string) :
  exists pre, s = pre ++ lstrip_by p s.
Proof.
  induction s as [|c s [pre IH]]; simpl.
  - exists "". reflexivity.
  - destruct (p c).
    + exists (String c pre). simpl. congruence.
    + exists "". reflexivity.
Qed.

Lemma rstrip_by_prefix (p : ascii -> bool) (s : string) :
  exists post, s = rstrip_by p s ++ post.
Proof.
  induction s as [|c s [post IH]]; simpl.
  - exists "". reflexivity.
  - destruct (p c && is_empty (rstrip_by p s)) eqn:E.
    + exists (String c s). reflexivity.
    + exists post. simpl. congruence.
Qed.

(** [s.strip()] is a slice of [s]. *)
Lemma strip_infix (s : string) : exists pre post, s = pre ++ strip s ++ post.
Proof.
  unfold strip.
  destruct (lstrip_by_suffix isspace s) as [pre Hpre].
  destruct (rstrip_by_prefix isspace (lstrip_by isspace s)) as [post Hpost].
  exists pre, post. rewrite <- Hpost. exact Hpre.
Qed.

Lemma contains_strip (sub s : string) :
  contains sub (strip s) = true -> contains sub s = true.
Proof.
  rewrite !contains_split. intros [a [b H]].
  destruct (strip_infix s) as [pre [post Hs]].
  exists (pre ++ a), (b ++ post).
  rewrite Hs, H, !append_assoc. reflexivity.
Qed.

Lemma map_chars_app (f : ascii -> ascii) (a b : string) :
  map_chars f (a ++ b) = map_chars f a ++ map_chars f b.
Proof. induction a as [|x a IH]; simpl; congruence. Qed.

Lemma contains_lower (sub s : string) :
  contains sub s = true -> contains (lower sub) (lower s) = true.
Proof.
  rewrite !contains_split. intros [a [b H]].
  exists (lower a), (lower b). subst s. unfold lower.
  rewrite !map_chars_app. reflexivity.
Qed.

Lemma contains_weaken (sub more s : string) :
  contains (sub ++ more) s = true -> contains sub s = true.
Proof.
  rewrite !contains_split. intros [a [b H]].
  exists a, (more ++ b). rewrite H, append_assoc. reflexivity.
Qed.

Lemma all_filter_chars (p : ascii -> bool) (s : string) :
  all_chars p (filter_chars p s) = true.
Proof.
  induction s as [|c s IH]; simpl; [reflexivity|].
  destruct (p c) eqn:E; simpl; [rewrite E|]; exact IH.
Qed.

Lemma filter_map_chars (p : ascii -> bool) (f g : ascii -> ascii) (s : string) :
  filter_chars p (map_chars f (map_chars g s))
  = filter_chars p (map_chars (fun c => f (g c)) s).
Proof. induction s as [|c s IH]; simpl; rewrite ?IH; reflexivity. Qed.

Lemma length_drop (n : nat) (s : string) :
  String.length (drop n s) = (String.length s - n)%nat.
Proof.
  revert s; induction n as [|n IH]; intros [|c s]; simpl; auto with arith.
Qed.

Lemma drop_suffix (n : nat) (s : string) : exists pre, s = pre ++ drop n s.
Proof.
  revert s; induction n as [|n IH]; intros s.
  - exists "". reflexivity.
  - destruct s as [|c s]; simpl.
    + exists "". reflexivity.
    + destruct (IH s) as [pre H]. exists (String c pre). simpl. congruence.
Qed.

(** [last_chars n s] is the suffix of [s] of length [min n (len s)]. *)
Lemma last_chars_spec (n : nat) (s : string) :
  (exists pre, s = pre ++ last_chars n s)
  /\ String.length (last_chars n s) = Nat.min n (String.length s).
Proof.
  unfold last_chars. destruct (n <? String.length s)%nat eqn:E.
  - apply Nat.ltb_lt in E. split; [apply drop_suffix|].
    rewrite length_drop. lia.
  - apply Nat.ltb_ge in E. split; [exists ""; reflexivity | lia].
Qed.

End StringFacts.

(** ** Slug generation *)

Ltac each_char c :=
  destruct c as [[] [] [] [] [] [] [] []]; vm_compute; reflexivity.

Lemma slug_char_step (c : ascii) :
  (if Ascii.eqb (if Ascii.eqb (PyStr.lower_char c) " " then "-" else PyStr.lower_char c) "/"
   then "-" else if Ascii.eqb (PyStr.lower_char c) " " then "-" else PyStr.lower_char c)%char
  = Observe.hyphenate (PyStr.lower_char c).
Proof. each_char c. Qed.

Lemma slug_of_pointwise (title : string) :
  Pipeline.slug_of title
  = PyStr.filter_chars Pipeline.slug_char
      (PyStr.map_chars (fun c => Observe.hyphenate (PyStr.lower_char c)) title).
Proof.
  unfold Pipeline.slug_of, PyStr.replace_char, PyStr.lower.
  induction title as [|c r IH]; [reflexivity|].
  cbn [PyStr.map_chars PyStr.filter_chars].
  rewrite slug_char_step, IH. reflexivity.
Qed.

Lemma specified_slug_pointwise (title : string) :
  AsSpecified.slug (PyStr.replace_char "/" "-" title)
  = PyStr.filter_chars Pipeline.slug_char
      (PyStr.map_chars (fun c => Observe.hyphenate (PyStr.lower_char c)) title).
Proof.
  unfold AsSpecified.slug, PyStr.replace_char, PyStr.lower.
  induction title as [|c r IH]; [reflexivity|].
  cbn [PyStr.map_chars PyStr.filter_chars]. rewrite IH.
  replace (if Ascii.eqb (PyStr.lower_char (if Ascii.eqb c "/" then "-" else c)) " "
           then "-" else PyStr.lower_char (if Ascii.eqb c "/" then "-" else c))%char
    with (Observe.hyphenate (PyStr.lower_char c)) by each_char c.
  reflexivity.
Qed.

Lemma all_filter_map (q p : ascii -> bool) (f : ascii -> ascii) (s : string) :
  (forall c, p (f c) = true -> q (f c) = true) ->
  PyStr.all_chars q (PyStr.filter_chars p (PyStr.map_chars f s)) = true.
Proof.
  intros H. induction s as [|c r IH]; simpl; [reflexivity|].
  destruct (p (f c)) eqn:E; simpl; [rewrite (H c E)|]; exact IH.
Qed.

Lemma slug_step_not_upper (c : ascii) :
  PyStr.isupper (Observe.hyphenate (PyStr.lower_char c)) = false.
Proof. each_char c. Qed.

(** C8, as worded, fails: a slash in the title becomes a hyphen in the code
    (line 224), while the described procedure removes it. *)
Lemma slug_slash_counterexample :
  Pipeline.slug_of "Mac/Cheese" = "mac-cheese"
  /\ AsSpecified.slug "Mac/Cheese" = "maccheese"
  /\ Pipeline.slug_of "Mac/Cheese" <> AsSpecified.slug "Mac/Cheese".
Proof. repeat split. vm_compute. discriminate. Qed.

(** C8 (amended): the slug is the title lower-cased, with spaces and also
    slashes replaced by hyphens, then with every character that is neither
    alphanumeric nor a hyphen removed; what remains holds only alphanumerics
    and hyphens and no upper-case letter, and "Spicy Garlic Noodles!" gives
    "spicy-garlic-noodles". *)
Theorem slug_generation :
  (forall title,
      Pipeline.slug_of title = AsSpecified.slug (PyStr.replace_char "/" "-" title))
  /\ (forall title, PyStr.all_chars Pipeline.slug_char (Pipeline.slug_of title) = true)
  /\ (forall title,
         PyStr.all_chars (fun c => negb (PyStr.isupper c)) (Pipeline.slug_of title) = true)
  /\ Pipeline.slug_of "Spicy Garlic Noodles!" = "spicy-garlic-noodles".
Proof.
  split; [|split; [|split]].
  - intros title. rewrite slug_of_pointwise, specified_slug_pointwise. reflexivity.
  - intros title. apply all_filter_chars.
  - intros title. rewrite slug_of_pointwise. apply all_filter_map.
    intros c _. rewrite slug_step_not_upper. reflexivity.
  - reflexivity.
Qed.

(** ** Platform detection *)

(** C3, as worded, fails: detection compares the URL as given, so a host
    written with capitals is not recognised. *)
Lemma platform_case_counterexample :
  AsSpecified.mentions "tiktok.com" "https://www.TikTok.com/@chef/video/1" = true
  /\ Pipeline.detect_platform "https://www.TikTok.com/@chef/video/1" = "unknown"
  /\ Pipeline.detect_platform "https://www.TikTok.com/@chef/video/1" <> "tiktok".
Proof. repeat split. vm_compute. discriminate. Qed.

(** C3 (amended): platform detection is case-sensitive substring matching:
    every URL containing [tiktok.com] in lower case is labelled [tiktok], and
    every URL containing none of the lower-case substrings [tiktok],
    [instagram], [youtube] (so also every URL containing none of them in any
    letter case) is labelled [unknown]. *)
Theorem platform_detection (source_url : string) :
  (PyStr.contains "tiktok.com" source_url = true ->
   Pipeline.detect_platform source_url = "tiktok")
  /\ (PyStr.contains "tiktok" source_url = false ->
      PyStr.contains "instagram" source_url = false ->
      PyStr.contains "youtube" source_url = false ->
      Pipeline.detect_platform source_url = "unknown")
  /\ (AsSpecified.mentions "tiktok" source_url = false ->
      AsSpecified.mentions "instagram" source_url = false ->
      AsSpecified.mentions "youtube" source_url = false ->
      Pipeline.detect_platform source_url = "unknown").
Proof.
  unfold Pipeline.detect_platform. split; [|split].
  - intros H. rewrite (contains_weaken "tiktok" ".com" source_url H). reflexivity.
  - intros -> -> ->. reflexivity.
  - unfold AsSpecified.mentions. intros H1 H2 H3.
    destruct (PyStr.contains "tiktok" source_url) eqn:E1.
    { apply contains_lower in E1. change (PyStr.lower "tiktok") with "tiktok" in E1.
      congruence. }
    destruct (PyStr.contains "instagram" source_url) eqn:E2.
    { apply contains_lower in E2. change (PyStr.lower "instagram") with "instagram" in E2.
      congruence. }
    destruct (PyStr.contains "youtube" source_url) eqn:E3.
    { apply contains_lower in E3. change (PyStr.lower "youtube") with "youtube" in E3.
      congruence. }
    reflexivity.
Qed.

Lemma platform_detection_witness :
  Pipeline.detect_platform "https://www.tiktok.com/@chef/video/1" = "tiktok"
  /\ Pipeline.detect_platform "https://example.com/watch/1" = "unknown".
Proof.
  split.
  - apply (proj1 (platform_detection "https://www.tiktok.com/@chef/video/1")).
    reflexivity.
  - apply (proj1 (proj2 (platform_detection "https://example.com/watch/1")));
      reflexivity.
Defined.

(** ** The dispatcher's allow-list against the runner's detection *)

Lemma detect_unknown (u : string) :
  PyStr.contains "tiktok" u = false ->
  PyStr.contains "instagram" u = false ->
  PyStr.contains "youtube" u = false ->
  Pipeline.detect_platform u = "unknown".
Proof. unfold Pipeline.detect_platform. intros -> -> ->. reflexivity. Qed.

Lemma not_contains_strip (sub s : string) :
  PyStr.contains sub s = false -> PyStr.contains sub (PyStr.strip s) = false.
Proof.
  intros H. destruct (PyStr.contains sub (PyStr.strip s)) eqn:E; [|reflexivity].
  apply contains_strip in E. congruence.
Qed.

Lemma supported_short_link (url : string) :
  PyStr.contains "youtu.be" url = true -> Handler.supported url = true.
Proof.
  intros H. apply contains_lower in H. unfold Handler.supported.
  apply existsb_exists. exists "youtu.be". split; [|exact H].
  right; right; right; left; reflexivity.
Qed.

(** C9, as worded, fails: a short link that mentions another platform
    elsewhere (here in a query parameter) is labelled with that platform. *)
Lemma short_link_counterexample :
  PyStr.contains "youtu.be" "https://youtu.be/dQw4w9WgXcQ?utm_source=instagram" = true
  /\ PyStr.contains "youtube" "https://youtu.be/dQw4w9WgXcQ?utm_source=instagram" = false
  /\ Handler.supported "https://youtu.be/dQw4w9WgXcQ?utm_source=instagram" = true
  /\ Pipeline.detect_platform "https://youtu.be/dQw4w9WgXcQ?utm_source=instagram"
     = "instagram"
  /\ Pipeline.detect_platform "https://youtu.be/dQw4w9WgXcQ?utm_source=instagram"
     <> "unknown".
Proof. repeat split. vm_compute. discriminate. Qed.

(** C9 (amended): every URL that contains [youtu.be] and none of [tiktok],
    [instagram], [youtube] passes the dispatcher's allow-list, which starts
    the pipeline on it, and the runner's platform detection, applied to the
    URL as the runner trims it, labels it [unknown]. *)
Theorem short_link_mismatch
    (subprocess_run : list string -> Handler.run_reply) (prog url : string)
    (rest : list string) :
  PyStr.contains "youtu.be" url = true ->
  PyStr.contains "youtube" url = false ->
  PyStr.contains "tiktok" url = false ->
  PyStr.contains "instagram" url = false ->
  Handler.supported url = true
  /\ (exists status later,
         Handler.main subprocess_run (prog :: url :: rest)
         = (status, Handler.Run ["python3"; Handler.pipeline; url] 300 :: later))
  /\ Pipeline.detect_platform (PyStr.strip url) = "unknown"
  /\ Pipeline.detect_platform url = "unknown".
Proof.
  intros Hbe Hyt Htt Hig.
  pose proof (supported_short_link url Hbe) as Hs.
  split; [exact Hs|]. split; [|split].
  - unfold Handler.main. rewrite Hs. cbn [negb].
    destruct (subprocess_run _) as [rc out err|].
    + destruct (rc =? 0)%Z; eauto.
    + eauto.
  - apply detect_unknown; apply not_contains_strip; assumption.
  - apply detect_unknown; assumption.
Qed.

Lemma short_link_mismatch_witness :
  Handler.supported "https://youtu.be/dQw4w9WgXcQ" = true
  /\ (exists status later,
         Handler.main (fun _ => Handler.Completed 0 "" "")
           ["recipe-handler"; "https://youtu.be/dQw4w9WgXcQ"]
         = (status,
            Handler.Run ["python3"; Handler.pipeline; "https://youtu.be/dQw4w9WgXcQ"] 300
            :: later))
  /\ Pipeline.detect_platform (PyStr.strip "https://youtu.be/dQw4w9WgXcQ") = "unknown"
  /\ Pipeline.detect_platform "https://youtu.be/dQw4w9WgXcQ" = "unknown".
Proof.
  apply (short_link_mismatch (fun _ => Handler.Completed 0 "" "")
           "recipe-handler" "https://youtu.be/dQw4w9WgXcQ" []); reflexivity.
Defined.

(** ** The dispatcher's exit status *)

(** C4, as worded, fails: when the runner exits non-zero the dispatcher
    prints the failure and then ends normally, with status 0. *)
Lemma handler_status_counterexample :
  Handler.supported "https://www.tiktok.com/@chef/video/1" = true
  /\ Handler.main (fun _ => Handler.Completed 1 "" "Traceback: boom")
       ["recipe-handler"; "https://www.tiktok.com/@chef/video/1"]
     = (0%Z,
        [Handler.Run
           ["python3"; Handler.pipeline; "https://www.tiktok.com/@chef/video/1"] 300;
         Handler.Print Handler.Failed;
         Handler.Print (Handler.ErrorText "Traceback: boom")])
  /\ fst (Handler.main (fun _ => Handler.Completed 1 "" "Traceback: boom")
            ["recipe-handler"; "https://www.tiktok.com/@chef/video/1"]) <> 1%Z.
Proof. repeat split. vm_compute. discriminate. Qed.

(** C4 (amended): for every allow-listed URL, if the runner exits non-zero
    the dispatcher emits the failure message followed by the runner's error
    output cut to its last 500 characters; whenever the runner completes,
    with zero or non-zero status, the dispatcher itself exits 0. *)
Theorem handler_exit_status
    (subprocess_run : list string -> Handler.run_reply) (prog url : string)
    (rest : list string) (returncode : Z) (stdout stderr : string) :
  Handler.supported url = true ->
  subprocess_run ["python3"; Handler.pipeline; url]
  = Handler.Completed returncode stdout stderr ->
  fst (Handler.main subprocess_run (prog :: url :: rest)) = 0%Z
  /\ (returncode <> 0%Z ->
      snd (Handler.main subprocess_run (prog :: url :: rest))
      = [Handler.Run ["python3"; Handler.pipeline; url] 300;
         Handler.Print Handler.Failed;
         Handler.Print (Handler.ErrorText (PyStr.last_chars 500 stderr))])
  /\ (exists before, stderr = before ++ PyStr.last_chars 500 stderr)
  /\ String.length (PyStr.last_chars 500 stderr) = Nat.min 500 (String.length stderr).
Proof.
  intros Hs Hrun. unfold Handler.main. rewrite Hs, Hrun. cbn [negb].
  destruct (Z.eqb_spec returncode 0) as [->|Hne].
  - split; [reflexivity|]. split; [intros H; contradiction H; reflexivity|].
    apply last_chars_spec.
  - split; [reflexivity|]. split; [intros _; reflexivity|]. apply last_chars_spec.
Qed.

Lemma handler_exit_status_witness :
  fst (Handler.main (fun _ => Handler.Completed 2 "" "no such file")
         ["recipe-handler"; "https://www.instagram.com/reel/abc/"]) = 0%Z
  /\ snd (Handler.main (fun _ => Handler.Completed 2 "" "no such file")
            ["recipe-handler"; "https://www.instagram.com/reel/abc/"])
     = [Handler.Run
          ["python3"; Handler.pipeline; "https://www.instagram.com/reel/abc/"] 300;
        Handler.Print Handler.Failed;
        Handler.Print (Handler.ErrorText (PyStr.last_chars 500 "no such file"))].
Proof.
  destruct (handler_exit_status (fun _ => Handler.Completed 2 "" "no such file")
              "recipe-handler" "https://www.instagram.com/reel/abc/" []
              2 "" "no such file" eq_refl eq_refl) as [H0 [H1 _]].
  split; [exact H0 | apply H1; discriminate].
Defined.

(** ** Colour hues *)

(** C7, as worded, fails: two titles with different hashes can share a hue,
    since the hue keeps only the hash modulo 360. *)
Lemma hue_counterexample :
  "Banana Bread" <> "Tiramisu"
  /\ Pipeline.hash_val "Banana Bread" <> Pipeline.hash_val "Tiramisu"
  /\ Pipeline.hue_of "Banana Bread" = Pipeline.hue_of "Tiramisu".
Proof. repeat split; vm_compute; try discriminate; reflexivity. Qed.

(** C7 (amended): for every pair of titles the hues differ unless the
    titles' hashes are congruent modulo 360 (a hash collision being one
    such case); the hue lies in 0..359, and equal hues give equal schemes. *)
Theorem hue_separation (t1 t2 : string) :
  (Pipeline.hue_of t1 <> Pipeline.hue_of t2
   <-> ~ (360 | Pipeline.hash_val t1 - Pipeline.hash_val t2)%Z)
  /\ (0 <= Pipeline.hue_of t1 < 360)%Z
  /\ (Pipeline.hue_of t1 = Pipeline.hue_of t2 ->
      Pipeline.generate_color_scheme t1 = Pipeline.generate_color_scheme t2).
Proof.
  unfold Pipeline.hue_of. split; [|split].
  - assert (E : ((Pipeline.hash_val t1) mod 360 = (Pipeline.hash_val t2) mod 360
                 <-> (360 | Pipeline.hash_val t1 - Pipeline.hash_val t2))%Z).
    { rewrite <- Z.mod_divide by lia. split; intros H.
      - rewrite Zminus_mod, H, Z.sub_diag. reflexivity.
      - apply Z.mod_divide in H; [|lia]. destruct H as [k Hk].
        replace (Pipeline.hash_val t1) with (Pipeline.hash_val t2 + k * 360)%Z by lia.
        apply Z_mod_plus_full. }
    rewrite E. reflexivity.
  - apply Z.mod_pos_bound. lia.
  - intros H. unfold Pipeline.generate_color_scheme, Pipeline.hue_of. rewrite H.
    reflexivity.
Qed.

Lemma hue_separation_witness :
  Pipeline.generate_color_scheme "Banana Bread" = Pipeline.generate_color_scheme "Tiramisu".
Proof.
  apply (proj2 (proj2 (hue_separation "Banana Bread" "Tiramisu"))).
  vm_compute. reflexivity.
Defined.

(** ** Runs of the pipeline *)

Section RunFacts.

Import Pipeline Observe.

Variable w : world.

Ltac split_cases :=
  repeat (cbn;
          match goal with
          | |- context [if ?b then _ else _] => destruct b
          | |- context [match ?x with _ => _ end] => destruct x
          end);
  cbn.

(** *** The index file is only touched by the publish step *)

Lemma download_attempt_index url api_key work_dir max_retries attempt st :
  index_file (snd (download_attempt w url api_key work_dir max_retries attempt st))
  = index_file st.
Proof. unfold download_attempt, attempt_failed. split_cases; reflexivity. Qed.

Lemma download_loop_index url api_key work_dir max_retries todo :
  forall attempt st,
    index_file (snd (download_loop w url api_key work_dir max_retries attempt todo st))
    = index_file st.
Proof.
  induction todo as [|todo IH]; intros attempt st; [reflexivity|].
  cbn [download_loop].
  pose proof (download_attempt_index url api_key work_dir max_retries attempt st) as H.
  destruct (download_attempt w url api_key work_dir max_retries attempt st)
    as [[result|] st']; cbn [snd] in *.
  - exact H.
  - rewrite IH. exact H.
Qed.

Lemma download_video_index url api_key work_dir max_retries st :
  index_file (snd (download_video w url api_key work_dir max_retries st)) = index_file st.
Proof. unfold download_video. rewrite download_loop_index. reflexivity. Qed.

Lemma extract_audio_index video_path work_dir st :
  index_file (snd (extract_audio w video_path work_dir st)) = index_file st.
Proof. unfold extract_audio. split_cases; reflexivity. Qed.

Lemma extract_thumbnail_index video_path work_dir st :
  index_file (snd (extract_thumbnail w video_path work_dir st)) = index_file st.
Proof. unfold extract_thumbnail. split_cases; reflexivity. Qed.

Lemma transcribe_index audio_path st :
  index_file (snd (transcribe w audio_path st)) = index_file st.
Proof. unfold transcribe. split_cases; reflexivity. Qed.

Lemma extract_recipe_index transcription source_url api_key st :
  index_file (snd (extract_recipe w transcription source_url api_key st)) = index_file st.
Proof. unfold extract_recipe. split_cases; reflexivity. Qed.



(** *** The duplicate check *)

Lemma find_existing_hit (ix : index) (n : string) (e : index_entry) :
  In e ix -> normalize (url (e_source e)) = n ->
  exists existing,
    find_existing ix n = Some existing
    /\ In existing ix /\ normalize (url (e_source existing)) = n.
Proof.
  intros Hin Hn. unfold find_existing.
  destruct (find _ ix) as [existing|] eqn:F.
  - apply find_some in F. destruct F as [Hin' Heq].
    apply String.eqb_eq in Heq. eauto.
  - apply (find_none _ _ F) in Hin. rewrite Hn, String.eqb_refl in Hin. discriminate.
Qed.

Lemma find_existing_miss (ix : index) (n : string) :
  find_existing ix n = None ->
  forall e, In e ix -> normalize (url (e_source e)) <> n.
Proof.
  intros F e Hin Hn. apply (find_none _ _ F) in Hin.
  rewrite Hn, String.eqb_refl in Hin. discriminate.
Qed.

Lemma main_duplicate env prog arg rest st ix existing :
  index_file st = Some ix ->
  find_existing ix (normalize (PyStr.strip arg)) = Some existing ->
  main w env (prog :: arg :: rest) st
  = (Returned None, say SiteLink (say (AlreadyExists (e_title existing)) st)).
Proof. intros Hix Hf. unfold main. rewrite Hix, Hf. reflexivity. Qed.

Lemma main_no_credential env prog arg rest st ix :
  index_file st = Some ix ->
  find_existing ix (normalize (PyStr.strip arg)) = None ->
  truthy (py_or (GEMINI_API_KEY env) (GOOGLE_API_KEY env)) = false ->
  main w env (prog :: arg :: rest) st = (CredentialExit, say MissingKey st).
Proof.
  intros Hix Hf Hk. unfold main. rewrite Hix, Hf.
  destruct (py_or _ _) as [key|]; [|reflexivity].
  cbn in Hk. destruct (PyStr.is_empty key); [reflexivity | discriminate].
Qed.

(** The runs that get past both checks. *)
Lemma main_runs env prog arg rest st ix key :
  index_file st = Some ix ->
  find_existing ix (normalize (PyStr.strip arg)) = None ->
  py_or (GEMINI_API_KEY env) (GOOGLE_API_KEY env) = Some key ->
  PyStr.is_empty key = false ->
  main w env (prog :: arg :: rest) st
  = (fst (run_stages w (PyStr.strip arg) key (mkdtemp w) (emit (Mkdtemp (mkdtemp w)) st)),
     remove_tree (mkdtemp w)
       (emit (Rmtree (mkdtemp w))
          (snd (run_stages w (PyStr.strip arg) key (mkdtemp w)
                  (emit (Mkdtemp (mkdtemp w)) st))))).
Proof.
  intros Hix Hf Hk He. unfold main. rewrite Hix, Hf, Hk, He.
  destruct (run_stages _ _ _ _ _). reflexivity.
Qed.

(** Every way [main] can end, read off its outcome. *)
Lemma main_inversion env argv st o st' :
  main w env argv st = (o, st') ->
  (o = UsageExit /\ (argv = [] \/ exists prog, argv = [prog]))
  \/ exists prog arg rest, argv = prog :: arg :: rest /\
     ((o = Uncaught IndexUnreadable /\ index_file st = None)
      \/ exists ix, index_file st = Some ix /\
         ((o = Returned None /\
           exists existing, find_existing ix (normalize (PyStr.strip arg)) = Some existing)
          \/ (find_existing ix (normalize (PyStr.strip arg)) = None /\
              ((o = CredentialExit
                /\ truthy (py_or (GEMINI_API_KEY env) (GOOGLE_API_KEY env)) = false)
               \/ exists key,
                   py_or (GEMINI_API_KEY env) (GOOGLE_API_KEY env) = Some key
                   /\ PyStr.is_empty key = false
                   /\ o <> CredentialExit /\ o <> UsageExit)))).
Proof.
  intros H. destruct argv as [|prog [|arg rest]].
  - left. cbn in H. inversion H. eauto.
  - left. cbn in H. inversion H. eauto.
  - right. exists prog, arg, rest. split; [reflexivity|].
    unfold main in H. destruct (index_file st) as [ix|] eqn:Hix.
    2:{ left. inversion H. auto. }
    right. exists ix. split; [reflexivity|].
    destruct (find_existing ix _) as [existing|] eqn:Hf.
    { left. inversion H. eauto. }
    right. split; [reflexivity|].
    destruct (py_or _ _) as [key|] eqn:Hk.
    2:{ left. inversion H. auto. }
    destruct (PyStr.is_empty key) eqn:He.
    { left. inversion H. split; [reflexivity|]. cbn. rewrite He. reflexivity. }
    right. exists key. repeat split; try assumption.
    + destruct (run_stages _ _ _ _ _) as [o' s'] eqn:R. inversion H; subst.
      unfold run_stages in R. intros ->.
      repeat match type of R with
             | context [match ?x with _ => _ end] => destruct x; try discriminate
             end.
    + destruct (run_stages _ _ _ _ _) as [o' s'] eqn:R. inversion H; subst.
      unfold run_stages in R. intros ->.
      repeat match type of R with
             | context [match ?x with _ => _ end] => destruct x; try discriminate
             end.
Qed.

(** *** The publish step *)

Local Opaque generate_color_scheme slug_of String.append.




(** *** The download stage against a backend that never reports a tunnel *)

Lemma effects_app (t1 t2 : list event) : effects (t1 ++ t2) = (effects t1 ++ effects t2)%list.
Proof. apply filter_app. Qed.

Lemma download_attempt_non_tunnel url api_key work_dir max_retries attempt st :
  non_tunnel (cobalt w attempt) = true ->
  let p := download_attempt w url api_key work_dir max_retries attempt st in
  files (snd p) = files st
  /\ exists t,
      trace (snd p) = (trace st ++ t)%list
      /\ (forall path', ~ In (UrlRetrieve path' (path_join work_dir "video.mp4")) t)
      /\ ((S attempt < max_retries /\ fst p = None
           /\ effects t = [CobaltPost url api_key; Sleep 5])
          \/ (max_retries <= S attempt /\ fst p = Some None
              /\ effects t = [CobaltPost url api_key])).
Proof.
  intros Hnt. unfold download_attempt.
  destruct (cobalt w attempt) as [msg|status media filename]; [discriminate|].
  assert (Hs : negb (match status with
                     | Some s => String.eqb s "tunnel"
                     | None => false
                     end) = true).
  { destruct status; exact Hnt. }
  rewrite Hs. cbv zeta.
  destruct (Z.ltb_spec (Z.of_nat attempt) (Z.of_nat max_retries - 1)) as [Hlt|Hge];
    cbn [snd fst files trace emit say]; (split; [reflexivity|]).
  - eexists. split; [rewrite <- !app_assoc; reflexivity|]. split.
    + intros path' Hin. cbn in Hin. intuition discriminate.
    + left. repeat split. lia.
  - eexists. split; [rewrite <- !app_assoc; reflexivity|]. split.
    + intros path' Hin. cbn in Hin. intuition discriminate.
    + right. repeat split. lia.
Qed.

Lemma download_loop_non_tunnel url api_key work_dir max_retries :
  (forall n, non_tunnel (cobalt w n) = true) ->
  forall todo attempt st,
    attempt + todo = max_retries ->
    let p := download_loop w url api_key work_dir max_retries attempt todo st in
    fst p = None /\ files (snd p) = files st
    /\ exists t,
        trace (snd p) = (trace st ++ t)%list
        /\ (forall path', ~ In (UrlRetrieve path' (path_join work_dir "video.mp4")) t)
        /\ effects t = retry_schedule url api_key todo.
Proof.
  intros Hw. induction todo as [|todo IH]; intros attempt st Hsum.
  - cbn. repeat split. exists []. rewrite app_nil_r. repeat split. intros ? [].
  - cbn [download_loop].
    destruct (download_attempt_non_tunnel url api_key work_dir max_retries attempt st
                (Hw attempt)) as [Hf [t [Ht [Hno Hcase]]]].
    destruct (download_attempt w url api_key work_dir max_retries attempt st)
      as [result st1]. cbn [fst snd] in *.
    destruct Hcase as [[Hlt [-> He]] | [Hge [-> He]]].
    + destruct (IH (S attempt) st1 ltac:(lia)) as [Hr [Hf2 [t2 [Ht2 [Hno2 He2]]]]].
      cbv zeta in *. split; [exact Hr|]. split; [congruence|].
      exists (t ++ t2)%list. split; [rewrite Ht2, Ht, app_assoc; reflexivity|]. split.
      * intros path' Hin. apply in_app_or in Hin. destruct Hin as [Hin|Hin].
        -- exact (Hno path' Hin).
        -- exact (Hno2 path' Hin).
      * rewrite effects_app, He, He2. destruct todo as [|todo]; [lia|]. reflexivity.
    + cbv zeta. split; [reflexivity|]. split; [exact Hf|].
      exists t. split; [exact Ht|]. split; [exact Hno|].
      rewrite He. replace todo with 0 by lia. reflexivity.
Qed.

Lemma download_video_non_tunnel url api_key work_dir max_retries st :
  (forall n, non_tunnel (cobalt w n) = true) ->
  let p := download_video w url api_key work_dir max_retries st in
  fst p = None /\ files (snd p) = files st
  /\ exists t,
      trace (snd p) = (trace st ++ t)%list
      /\ (forall path', ~ In (UrlRetrieve path' (path_join work_dir "video.mp4")) t)
      /\ effects t = retry_schedule url api_key max_retries.
Proof.
  intros Hw. unfold download_video.
  destruct (download_loop_non_tunnel url api_key work_dir max_retries Hw
              max_retries 0 (say Downloading st) eq_refl)
    as [Hr [Hf [t [Ht [Hno He]]]]].
  cbv zeta in *. split; [exact Hr|]. split; [exact Hf|].
  exists (Print Downloading :: t). split.
  - rewrite Ht. cbn [trace say emit]. rewrite <- app_assoc. reflexivity.
  - split; [|exact He].
    intros path' [Hin|Hin]; [discriminate | exact (Hno path' Hin)].
Qed.

End RunFacts.

(** *** What the publish step writes *)

Section PublishFacts.

Import Pipeline Observe.

Variable w : world.

Local Opaque generate_color_scheme slug_of String.append.

Lemma last_written_snoc (t : list event) (e : event) :
  last_written (t ++ [e])
  = match e with
    | WriteRecipe _ r => Some r
    | _ => last_written t
    end.
Proof. unfold last_written. rewrite fold_left_app. reflexivity. Qed.

Lemma run_command_written cmd st :
  last_written (trace (snd (run_command w cmd st))) = last_written (trace st).
Proof.
  unfold run_command. destruct (git w cmd) as [code out err|];
    [destruct (negb (code =? 0)%Z)|]; cbn [snd trace say emit];
    rewrite ?last_written_snoc; reflexivity.
Qed.

Lemma run_commands_written cmds :
  forall st, last_written (trace (snd (run_commands w cmds st))) = last_written (trace st).
Proof.
  induction cmds as [|cmd rest IH]; intros st; [reflexivity|].
  cbn [run_commands].
  pose proof (run_command_written cmd st) as H.
  destruct (run_command w cmd st) as [[v|e] st']; cbn [snd] in *.
  - rewrite IH. exact H.
  - exact H.
Qed.

(** The recipe file always receives the scheme computed from the title. *)
Lemma save_to_github_written r transcription thumbnail_path st :
  exists written,
    last_written (trace (snd (save_to_github w r transcription thumbnail_path st)))
    = Some written
    /\ title written = title r
    /\ colors written = Some (generate_color_scheme (title r)).
Proof.
  unfold save_to_github.
  destruct (match thumbnail_path with
            | Some p =>
                if path_exists p (say Saving st)
                then _
                else (set_colors (generate_color_scheme (title r)) r, say Saving st)
            | None => (set_colors (generate_color_scheme (title r)) r, say Saving st)
            end) as [written s0] eqn:T.
  assert (W : title written = title r
              /\ colors written = Some (generate_color_scheme (title r))).
  { destruct thumbnail_path as [p|]; [destruct (path_exists p (say Saving st))|];
      inversion T; subst; cbn; auto. }
  exists written. split; [|exact W].
  cbn [index_file add_file emit].
  destruct (index_file s0) as [ix|].
  2:{ cbn [snd trace]. apply last_written_snoc. }
  match goal with
  | |- context [run_commands w ?cmds ?s] =>
      pose proof (run_commands_written cmds s) as R;
      destruct (run_commands w cmds s) as [[u|e] s1]
  end;
    cbn [snd trace say emit] in *; rewrite ?last_written_snoc; rewrite R;
    destruct (existing_entries ix written);
    cbn [trace emit set_index add_file]; rewrite ?last_written_snoc; reflexivity.
Qed.

End PublishFacts.

(** ** The claims about whole runs *)

Section Claims.

Import Pipeline Observe.







(** C10: the duplicate check comes before the credential check.  Whatever
    the environment holds (in particular with neither key set), a URL whose
    normalised form is in the index ends the run with status 0 and the
    "already exists" notice; the missing-credential exit, of status 1,
    happens only when no entry matches, and does happen then when no key
    is set. *)
Theorem duplicate_check_before_credentials
    (w : world) (env : environ) (prog arg : string) (rest : list string)
    (st : state) (ix : index) :
  index_file st = Some ix ->
  (forall e,
      In e ix -> normalize (url (e_source e)) = normalize (PyStr.strip arg) ->
      exit_status (fst (main w env (prog :: arg :: rest) st)) = 0%Z
      /\ fst (main w env (prog :: arg :: rest) st) <> CredentialExit
      /\ exists existing,
          In existing ix
          /\ trace (snd (main w env (prog :: arg :: rest) st))
             = (trace st ++ [Print (AlreadyExists (e_title existing)); Print SiteLink])%list)
  /\ (fst (main w env (prog :: arg :: rest) st) = CredentialExit ->
      exit_status (fst (main w env (prog :: arg :: rest) st)) = 1%Z
      /\ truthy (py_or (GEMINI_API_KEY env) (GOOGLE_API_KEY env)) = false
      /\ forall e, In e ix -> normalize (url (e_source e)) <> normalize (PyStr.strip arg))
  /\ ((forall e, In e ix -> normalize (url (e_source e)) <> normalize (PyStr.strip arg)) ->
      truthy (py_or (GEMINI_API_KEY env) (GOOGLE_API_KEY env)) = false ->
      main w env (prog :: arg :: rest) st = (CredentialExit, say MissingKey st)).
Proof.
  intros Hix. split; [|split].
  - intros e Hin Hn.
    destruct (find_existing_hit ix _ e Hin Hn) as [existing [Hf [Hin' _]]].
    rewrite (main_duplicate w env prog arg rest st ix existing Hix Hf).
    cbn [fst snd exit_status]. split; [reflexivity|]. split; [discriminate|].
    exists existing. split; [exact Hin'|].
    cbn [trace say emit]. rewrite <- app_assoc. reflexivity.
  - intros Ho. destruct (main w env (prog :: arg :: rest) st) as [o st'] eqn:Hrun.
    cbn [fst] in Ho. subst o. split; [reflexivity|].
    destruct (main_inversion w env _ st _ _ Hrun)
      as [[Ho _] | [prog' [arg' [rest' [Hargv Hcases]]]]]; [discriminate|].
    inversion Hargv; subst prog' arg' rest'.
    destruct Hcases as [[Ho _] | [ix' [Hix' Hcases]]]; [discriminate|].
    rewrite Hix in Hix'. inversion Hix'; subst ix'.
    destruct Hcases as [[Ho _] | [Hf Hcases]]; [discriminate|].
    destruct Hcases as [[_ Hk] | [key [_ [_ [Hne _]]]]]; [|contradiction Hne; reflexivity].
    split; [exact Hk|]. exact (find_existing_miss ix _ Hf).
  - intros Hmiss Hk. apply (main_no_credential w env prog arg rest st ix Hix); [|exact Hk].
    destruct (find_existing ix _) as [existing|] eqn:Hf; [|reflexivity].
    unfold find_existing in Hf. apply find_some in Hf. destruct Hf as [Hin Heq].
    apply String.eqb_eq in Heq. contradiction (Hmiss existing Hin Heq).
Qed.

Lemma duplicate_check_before_credentials_witness :
  exit_status (fst (main Scenario.ready Scenario.no_key
                      ["pipeline.py"; "https://tiktok.com/x/"] Scenario.soup_site)) = 0%Z
  /\ main Scenario.ready Scenario.no_key
       ["pipeline.py"; "https://tiktok.com/other"] Scenario.soup_site
     = (CredentialExit, say MissingKey Scenario.soup_site).
Proof.
  split.
  - apply (proj1 (duplicate_check_before_credentials Scenario.ready Scenario.no_key
                    "pipeline.py" "https://tiktok.com/x/" [] Scenario.soup_site
                    [Scenario.soup_entry] eq_refl)
             Scenario.soup_entry).
    + left. reflexivity.
    + vm_compute. reflexivity.
  - apply (proj2 (proj2 (duplicate_check_before_credentials Scenario.ready
                           Scenario.no_key "pipeline.py" "https://tiktok.com/other" []
                           Scenario.soup_site [Scenario.soup_entry] eq_refl))).
    + intros e [<-|[]]. vm_compute. discriminate.
    + reflexivity.
Defined.

(** C5: against a download backend whose every reply carries a status other
    than [tunnel], the download stage makes exactly three requests with a
    five-second sleep between consecutive ones, returns no path and adds no
    file; the run then prints the failure, removes the work directory and
    returns, without touching any later stage or the index. *)
Theorem download_retry_bound
    (w : world) (env : environ) (prog arg : string) (rest : list string)
    (st : state) (ix : index) (key : string) :
  (forall n, non_tunnel (cobalt w n) = true) ->
  index_file st = Some ix ->
  find_existing ix (normalize (PyStr.strip arg)) = None ->
  py_or (GEMINI_API_KEY env) (GOOGLE_API_KEY env) = Some key ->
  PyStr.is_empty key = false ->
  (forall url api_key work_dir st0,
      fst (download_video w url api_key work_dir 3 st0) = None
      /\ files (snd (download_video w url api_key work_dir 3 st0)) = files st0
      /\ exists t,
          trace (snd (download_video w url api_key work_dir 3 st0)) = (trace st0 ++ t)%list
          /\ effects t
             = [CobaltPost url api_key; Sleep 5;
                CobaltPost url api_key; Sleep 5;
                CobaltPost url api_key])
  /\ fst (main w env (prog :: arg :: rest) st) = Returned None
  /\ index_file (snd (main w env (prog :: arg :: rest) st)) = Some ix
  /\ (forall f, In f (files (snd (main w env (prog :: arg :: rest) st))) -> In f (files st))
  /\ exists t,
      trace (snd (main w env (prog :: arg :: rest) st))
      = (trace st ++ Mkdtemp (mkdtemp w) :: t
         ++ [Print FailedDownload; Rmtree (mkdtemp w)])%list
      /\ effects t
         = [CobaltPost (PyStr.strip arg) cobalt_key; Sleep 5;
            CobaltPost (PyStr.strip arg) cobalt_key; Sleep 5;
            CobaltPost (PyStr.strip arg) cobalt_key].
Proof.
  intros Hw Hix Hf Hk He. split.
  - intros url api_key work_dir st0.
    destruct (download_video_non_tunnel w url api_key work_dir 3 st0 Hw)
      as [Hr [Hfiles [t [Ht [_ Heff]]]]].
    split; [exact Hr|]. split; [exact Hfiles|]. exists t. split; assumption.
  - rewrite (main_runs w env prog arg rest st ix key Hix Hf Hk He).
    unfold run_stages.
    set (st0 := say Blank (say (UrlLine (PyStr.strip arg))
                             (say Banner (emit (Mkdtemp (mkdtemp w)) st)))).
    destruct (download_video_non_tunnel w (PyStr.strip arg) cobalt_key (mkdtemp w) 3
                st0 Hw) as [Hr [Hfiles [t [Ht [_ Heff]]]]].
    pose proof (download_video_index w (PyStr.strip arg) cobalt_key (mkdtemp w) 3 st0)
      as Hidx.
    destruct (download_video w (PyStr.strip arg) cobalt_key (mkdtemp w) 3 st0)
      as [result s1].
    cbn [fst snd] in *. subst result. cbn [fst snd].
    split; [reflexivity|]. split; [|split].
    + cbn [index_file remove_tree emit say]. rewrite Hidx. exact Hix.
    + cbn [files remove_tree emit say]. rewrite Hfiles. intros f Hin.
      apply filter_In in Hin. exact (proj1 Hin).
    + exists ([Print Banner; Print (UrlLine (PyStr.strip arg)); Print Blank] ++ t)%list.
      split.
      * cbn [trace remove_tree emit say]. rewrite Ht. subst st0.
        cbn [trace emit say]. rewrite <- !app_assoc. reflexivity.
      * rewrite effects_app. exact Heff.
Qed.

Lemma download_retry_bound_witness :
  fst (download_video Scenario.asleep "https://tiktok.com/y" cobalt_key "/tmp/recipe-k3x9" 3
         Scenario.fresh_site) = None
  /\ fst (main Scenario.asleep Scenario.with_key ["pipeline.py"; "https://tiktok.com/y"]
            Scenario.soup_site) = Returned None.
Proof.
  destruct (download_retry_bound Scenario.asleep Scenario.with_key
              "pipeline.py" "https://tiktok.com/y" [] Scenario.soup_site
              [Scenario.soup_entry] "key")
    as [Hdl [Hmain _]].
  - intros n. reflexivity.
  - vm_compute. reflexivity.
  - vm_compute. reflexivity.
  - reflexivity.
  - reflexivity.
  - split; [|exact Hmain].
    exact (proj1 (Hdl "https://tiktok.com/y" cobalt_key "/tmp/recipe-k3x9"
                    Scenario.fresh_site)).
Defined.

(** C6: the colour scheme is a function of the title alone.  Two publish
    steps on recipes with the same title, under any collaborators, index,
    files, transcriptions and thumbnails, store the same scheme, the one
    [generate_color_scheme] gives for the title; primary, secondary, accent
    and gradient agree. *)
Theorem color_scheme_deterministic
    (t : string) (w1 w2 : world) (r1 r2 : recipe) (tr1 tr2 : string)
    (th1 th2 : option string) (st1 st2 : state) :
  title r1 = t -> title r2 = t ->
  published_colors w1 r1 tr1 th1 st1 = Some (generate_color_scheme t)
  /\ published_colors w2 r2 tr2 th2 st2 = published_colors w1 r1 tr1 th1 st1
  /\ primary (generate_color_scheme (title r1)) = primary (generate_color_scheme (title r2))
  /\ secondary (generate_color_scheme (title r1))
     = secondary (generate_color_scheme (title r2))
  /\ accent (generate_color_scheme (title r1)) = accent (generate_color_scheme (title r2))
  /\ gradient (generate_color_scheme (title r1))
     = gradient (generate_color_scheme (title r2)).
Proof.
  intros H1 H2. unfold published_colors.
  destruct (save_to_github_written w1 r1 tr1 th1 st1) as [x1 [L1 [_ C1]]].
  destruct (save_to_github_written w2 r2 tr2 th2 st2) as [x2 [L2 [_ C2]]].
  rewrite L1, L2, C1, C2, H1, H2. repeat split; reflexivity.
Qed.

Lemma color_scheme_deterministic_witness :
  published_colors Scenario.ready Scenario.soup "boil water" None Scenario.fresh_site
  = Some (generate_color_scheme "Test Soup")
  /\ published_colors Scenario.asleep Scenario.soup_slash "simmer"
       (Some "/tmp/recipe-k3x9/thumbnail.jpg") Scenario.soup_site
     = published_colors Scenario.ready Scenario.soup "boil water" None Scenario.fresh_site.
Proof.
  destruct (color_scheme_deterministic "Test Soup" Scenario.ready Scenario.asleep
              Scenario.soup Scenario.soup_slash "boil water" "simmer"
              None (Some "/tmp/recipe-k3x9/thumbnail.jpg")
              Scenario.fresh_site Scenario.soup_site eq_refl eq_refl)
    as [Ha [Hb _]].
  split; assumption.
Defined.

(** C2, evaluated on the code: the publish step compares source URLs
    exactly.  With the soup filed under [https://tiktok.com/x], publishing
    the same recipe under [https://tiktok.com/x/] appends a second entry,
    directly and through a whole run of [main]. *)
Theorem publish_recheck_is_exact :
  index_file Scenario.soup_site = Some [Scenario.soup_entry]
  /\ (exists second,
         index_file (snd (save_to_github Scenario.ready Scenario.soup_slash
                            "boil water" None Scenario.soup_site))
         = Some [Scenario.soup_entry; second]
         /\ url (e_source Scenario.soup_entry) = "https://tiktok.com/x"
         /\ url (e_source second) = "https://tiktok.com/x/"
         /\ List.length (entries_for "https://tiktok.com/x"
                           [Scenario.soup_entry; second]) = 2)
  /\ (exists second,
         index_file (snd (main Scenario.rewriting Scenario.with_key
                            ["pipeline.py"; "https://vm.tiktok.com/ZMabc/"]
                            Scenario.soup_site))
         = Some [Scenario.soup_entry; second]
         /\ url (e_source second) = "https://tiktok.com/x/"
         /\ normalize (url (e_source second)) = normalize (url (e_source Scenario.soup_entry))).
Proof.
  split; [vm_compute; reflexivity|]. split.
  - eexists. split; [vm_compute; reflexivity|]. repeat split.
  - eexists. split; [vm_compute; reflexivity|]. repeat split.
Qed.

End Claims.

(* ------------------------------------------------------------------ *)
(** * Further properties of the code *)

(** ** URL normalisation and the duplicate check *)

Section NormalizeFacts.

Import PyStr.

Lemma rstrip_by_snoc (p : ascii -> bool) (s : string) (c : ascii) :
  p c = true -> rstrip_by p (s ++ String c "") = rstrip_by p s.
Proof.
  intros Hc. induction s as [|x s IH]; cbn.
  - rewrite Hc. reflexivity.
  - rewrite IH. reflexivity.
Qed.

Lemma rstrip_by_idempotent (p : ascii -> bool) (s : string) :
  rstrip_by p (rstrip_by p s) = rstrip_by p s.
Proof.
  induction s as [|x s IH]; cbn; [reflexivity|].
  destruct (p x && is_empty (rstrip_by p s)) eqn:E; cbn; [reflexivity|].
  rewrite IH, E. reflexivity.
Qed.

Lemma rstrip_by_last (p : ascii -> bool) (s : string) :
  forall a c, rstrip_by p s = a ++ String c "" -> p c = false.
Proof.
  induction s as [|x s IH]; intros a c H; cbn in H.
  - destruct a; discriminate.
  - destruct (p x && is_empty (rstrip_by p s)) eqn:E.
    + destruct a; discriminate.
    + destruct a as [|y a]; cbn in H.
      * inversion H as [[Hx Hr]]. subst x. rewrite Hr in E. cbn in E.
        rewrite andb_true_r in E. exact E.
      * inversion H as [[Hx Hr]]. exact (IH a c Hr).
Qed.

Lemma rstrip_by_split (p : ascii -> bool) (s : string) :
  exists tail, s = rstrip_by p s ++ tail /\ all_chars p tail = true.
Proof.
  induction s as [|x s [tail [Hs Ht]]]; cbn.
  - exists "". split; reflexivity.
  - destruct (p x && is_empty (rstrip_by p s)) eqn:E.
    + apply andb_true_iff in E. destruct E as [Hx He].
      destruct (rstrip_by p s); [|discriminate]. cbn in Hs. subst tail.
      exists (String x s). cbn. rewrite Hx, Ht. split; reflexivity.
    + exists tail. split; [cbn; congruence | exact Ht].
Qed.

Lemma all_chars_app (p : ascii -> bool) (a b : string) :
  all_chars p (a ++ b) = all_chars p a && all_chars p b.
Proof. induction a as [|x a IH]; cbn; [reflexivity|]. rewrite IH, andb_assoc. reflexivity. Qed.

Lemma lstrip_by_fixed (p : ascii -> bool) (s : string) :
  all_chars (fun c => negb (p c)) s = true -> lstrip_by p s = s.
Proof.
  destruct s as [|x s]; cbn; [reflexivity|]. intros H.
  apply andb_true_iff in H. destruct H as [Hx _].
  apply negb_true_iff in Hx. rewrite Hx. reflexivity.
Qed.

Lemma rstrip_by_fixed (p : ascii -> bool) (s : string) :
  all_chars (fun c => negb (p c)) s = true -> rstrip_by p s = s.
Proof.
  induction s as [|x s IH]; cbn; [reflexivity|]. intros H.
  apply andb_true_iff in H. destruct H as [Hx Hs].
  apply negb_true_iff in Hx. rewrite Hx, (IH Hs). reflexivity.
Qed.

Lemma strip_fixed (s : string) :
  all_chars Anatomy.no_space s = true -> strip s = s.
Proof.
  intros H. unfold strip. rewrite (lstrip_by_fixed isspace s H).
  apply rstrip_by_fixed. exact H.
Qed.

End NormalizeFacts.

(** The normalisation of lines 285 and 287 drops exactly the trailing
    slashes: what it removes is a run of slashes, what it returns does not
    end in a slash, it is idempotent, and it absorbs an added slash. *)
Theorem normalize_trailing_slashes (u : string) :
  (exists tail,
      u = Pipeline.normalize u ++ tail /\ PyStr.all_chars PyStr.is_slash tail = true)
  /\ (forall a, Pipeline.normalize u <> a ++ "/")
  /\ Pipeline.normalize (Pipeline.normalize u) = Pipeline.normalize u
  /\ Pipeline.normalize (u ++ "/") = Pipeline.normalize u.
Proof.
  unfold Pipeline.normalize, PyStr.rstrip_slash. split; [|split; [|split]].
  - apply rstrip_by_split.
  - intros a H. apply rstrip_by_last in H. discriminate.
  - apply rstrip_by_idempotent.
  - apply rstrip_by_snoc. reflexivity.
Qed.

Lemma normalize_absorbs_slashes (tail u : string) :
  PyStr.all_chars PyStr.is_slash tail = true ->
  Pipeline.normalize (u ++ tail) = Pipeline.normalize u.
Proof.
  revert u. induction tail as [|c tail IH]; intros u H.
  - rewrite append_empty_r. reflexivity.
  - cbn in H. apply andb_true_iff in H. destruct H as [Hc Ht].
    replace (u ++ String c tail) with ((u ++ String c "") ++ tail)
      by (rewrite append_assoc; reflexivity).
    rewrite (IH _ Ht). unfold Pipeline.normalize, PyStr.rstrip_slash.
    apply rstrip_by_snoc. exact Hc.
Qed.

Lemma slashes_are_not_spaces (tail : string) :
  PyStr.all_chars PyStr.is_slash tail = true ->
  PyStr.all_chars Anatomy.no_space tail = true.
Proof.
  induction tail as [|c tail IH]; cbn; [reflexivity|]. intros H.
  apply andb_true_iff in H. destruct H as [Hc Ht].
  unfold PyStr.is_slash in Hc. apply Ascii.eqb_eq in Hc. subst c.
  rewrite (IH Ht). reflexivity.
Qed.

(** A URL without white space that is already in the index is recognised
    with any number of slashes added to it: the run is the same run. *)
Theorem duplicate_hit_with_extra_slashes
    (w : Pipeline.world) (env : Pipeline.environ) (prog u tail : string)
    (rest : list string) (st : Pipeline.state) (ix : Pipeline.index)
    (existing : Pipeline.index_entry) :
  PyStr.all_chars Anatomy.no_space u = true ->
  PyStr.all_chars PyStr.is_slash tail = true ->
  Pipeline.index_file st = Some ix ->
  Pipeline.find_existing ix (Pipeline.normalize u) = Some existing ->
  Pipeline.main w env (prog :: (u ++ tail) :: rest) st
  = Pipeline.main w env (prog :: u :: rest) st
  /\ fst (Pipeline.main w env (prog :: (u ++ tail) :: rest) st) = Pipeline.Returned None
  /\ Pipeline.index_file (snd (Pipeline.main w env (prog :: (u ++ tail) :: rest) st))
     = Some ix.
Proof.
  intros Hu Ht Hix Hf.
  assert (Hs : PyStr.strip (u ++ tail) = u ++ tail).
  { apply strip_fixed. rewrite all_chars_app, Hu, (slashes_are_not_spaces tail Ht).
    reflexivity. }
  assert (E1 : Pipeline.main w env (prog :: (u ++ tail) :: rest) st
               = (Pipeline.Returned None,
                  Pipeline.say Pipeline.SiteLink
                    (Pipeline.say (Pipeline.AlreadyExists (Pipeline.e_title existing)) st))).
  { apply (main_duplicate w env prog (u ++ tail) rest st ix existing Hix).
    rewrite Hs, (normalize_absorbs_slashes tail u Ht). exact Hf. }
  assert (E2 : Pipeline.main w env (prog :: u :: rest) st
               = (Pipeline.Returned None,
                  Pipeline.say Pipeline.SiteLink
                    (Pipeline.say (Pipeline.AlreadyExists (Pipeline.e_title existing)) st))).
  { apply (main_duplicate w env prog u rest st ix existing Hix).
    rewrite (strip_fixed u Hu). exact Hf. }
  rewrite E1, E2. repeat split. exact Hix.
Qed.

Lemma duplicate_hit_with_extra_slashes_witness :
  Pipeline.main Scenario.ready Scenario.no_key
    ["pipeline.py"; "https://tiktok.com/x" ++ "///"] Scenario.soup_site
  = Pipeline.main Scenario.ready Scenario.no_key
      ["pipeline.py"; "https://tiktok.com/x"] Scenario.soup_site.
Proof.
  apply (duplicate_hit_with_extra_slashes Scenario.ready Scenario.no_key
           "pipeline.py" "https://tiktok.com/x" "///" [] Scenario.soup_site
           [Scenario.soup_entry] Scenario.soup_entry).
  - reflexivity.
  - reflexivity.
  - vm_compute. reflexivity.
  - vm_compute. reflexivity.
Defined.

(** ** More on slugs *)

Ltac each_char_if c :=
  destruct c as [[] [] [] [] [] [] [] []]; vm_compute;
  first [reflexivity | intros; first [reflexivity | discriminate]].

Lemma slug_of_steps (title : string) :
  Pipeline.slug_of title
  = PyStr.filter_chars Pipeline.slug_char (PyStr.map_chars Anatomy.slug_step title).
Proof. apply slug_of_pointwise. Qed.

Lemma slug_step_stable (c : ascii) :
  Pipeline.slug_char (Anatomy.slug_step c) = true ->
  Anatomy.slug_step (Anatomy.slug_step c) = Anatomy.slug_step c.
Proof. each_char_if c. Qed.

Lemma slug_step_lower (c : ascii) :
  Anatomy.slug_step (PyStr.lower_char c) = Anatomy.slug_step c.
Proof. each_char_if c. Qed.

Lemma filter_map_idempotent (p : ascii -> bool) (f : ascii -> ascii) (s : string) :
  (forall c, p (f c) = true -> f (f c) = f c) ->
  PyStr.filter_chars p (PyStr.map_chars f (PyStr.filter_chars p (PyStr.map_chars f s)))
  = PyStr.filter_chars p (PyStr.map_chars f s).
Proof.
  intros H. induction s as [|c s IH]; cbn; [reflexivity|].
  destruct (p (f c)) eqn:E; [|exact IH].
  cbn. rewrite (H c E), E, IH. reflexivity.
Qed.

Lemma all_chars_contains (p : ascii -> bool) (s : string) (c : ascii) (more : string) :
  PyStr.all_chars p s = true -> PyStr.contains (String c more) s = true -> p c = true.
Proof.
  intros Hall Hc. apply contains_split in Hc. destruct Hc as [pre [post ->]].
  rewrite all_chars_app in Hall. apply andb_true_iff in Hall. destruct Hall as [_ H].
  cbn in H. apply andb_true_iff in H. exact (proj1 H).
Qed.

Lemma slug_excludes (title : string) (c : ascii) :
  Pipeline.slug_char c = false -> PyStr.contains (String c "") (Pipeline.slug_of title) = false.
Proof.
  intros Hc. destruct (PyStr.contains _ _) eqn:E; [|reflexivity].
  apply (all_chars_contains Pipeline.slug_char) in E; [congruence|].
  unfold Pipeline.slug_of. apply all_filter_chars.
Qed.

(** The slug is stable and safe as a file name: the slug of a slug is the
    slug itself, the letter case of the title does not matter, and a slug
    holds no slash, dot, space or backslash, so that the recipe file and the
    thumbnail stay directly inside the [recipes] directory. *)
Theorem slug_is_stable_and_safe (title : string) :
  Pipeline.slug_of (Pipeline.slug_of title) = Pipeline.slug_of title
  /\ Pipeline.slug_of (PyStr.lower title) = Pipeline.slug_of title
  /\ PyStr.contains "/" (Pipeline.slug_of title) = false
  /\ PyStr.contains "." (Pipeline.slug_of title) = false
  /\ PyStr.contains " " (Pipeline.slug_of title) = false
  /\ PyStr.contains "\" (Pipeline.slug_of title) = false.
Proof.
  split; [|split; [|repeat split; apply slug_excludes; reflexivity]].
  - rewrite (slug_of_steps (Pipeline.slug_of title)), (slug_of_steps title).
    apply filter_map_idempotent. exact slug_step_stable.
  - rewrite !slug_of_steps. unfold PyStr.lower. f_equal.
    induction title as [|c r IH]; cbn; [reflexivity|].
    rewrite slug_step_lower, IH. reflexivity.
Qed.

(** ** More on platform labels *)

Lemma supported_when_contains (p url : string) :
  In p Handler.valid_platforms -> PyStr.lower p = p ->
  PyStr.contains p url = true -> Handler.supported url = true.
Proof.
  intros Hin Hp H. apply contains_lower in H. rewrite Hp in H.
  unfold Handler.supported. apply existsb_exists. exists p. split; assumption.
Qed.

(** The label follows the order of the tests: [tiktok] wins over
    [instagram], which wins over [youtube]; and whatever the runner labels
    with a platform, on the URL as it trims it, the dispatcher lets through. *)
Theorem platform_label_priority (url : string) :
  (Pipeline.detect_platform url = "tiktok" <-> PyStr.contains "tiktok" url = true)
  /\ (Pipeline.detect_platform url = "instagram"
      <-> PyStr.contains "tiktok" url = false /\ PyStr.contains "instagram" url = true)
  /\ (Pipeline.detect_platform url = "youtube"
      <-> PyStr.contains "tiktok" url = false /\ PyStr.contains "instagram" url = false
          /\ PyStr.contains "youtube" url = true)
  /\ (Pipeline.detect_platform (PyStr.strip url) <> "unknown" ->
      Handler.supported url = true).
Proof.
  unfold Pipeline.detect_platform. split; [|split; [|split]].
  - destruct (PyStr.contains "tiktok" url); [tauto|].
    destruct (PyStr.contains "instagram" url); [split; discriminate|].
    destruct (PyStr.contains "youtube" url); split; discriminate.
  - destruct (PyStr.contains "tiktok" url); [split; [discriminate | intros [H _]; discriminate]|].
    destruct (PyStr.contains "instagram" url); [tauto|].
    destruct (PyStr.contains "youtube" url); split;
      first [discriminate | intros [_ H]; discriminate].
  - destruct (PyStr.contains "tiktok" url);
      [split; [discriminate | intros [H _]; discriminate]|].
    destruct (PyStr.contains "instagram" url);
      [split; [discriminate | intros [_ [H _]]; discriminate]|].
    destruct (PyStr.contains "youtube" url); [tauto|].
    split; [discriminate | intros [_ [_ H]]; discriminate].
  - intros H.
    destruct (PyStr.contains "tiktok" (PyStr.strip url)) eqn:E1.
    { apply contains_strip in E1.
      apply (supported_when_contains "tiktok"); [cbn; tauto | reflexivity | exact E1]. }
    destruct (PyStr.contains "instagram" (PyStr.strip url)) eqn:E2.
    { apply contains_strip in E2.
      apply (supported_when_contains "instagram"); [cbn; tauto | reflexivity | exact E2]. }
    destruct (PyStr.contains "youtube" (PyStr.strip url)) eqn:E3.
    { apply contains_strip in E3.
      apply (supported_when_contains "youtube"); [cbn; tauto | reflexivity | exact E3]. }
    contradiction H. reflexivity.
Qed.

Lemma platform_label_priority_witness :
  Pipeline.detect_platform "https://www.tiktok.com/@a/video/1?from=instagram" = "tiktok"
  /\ Handler.supported " https://www.youtube.com/shorts/abc " = true.
Proof.
  split.
  - apply (proj1 (platform_label_priority
                    "https://www.tiktok.com/@a/video/1?from=instagram")).
    reflexivity.
  - apply (proj2 (proj2 (proj2 (platform_label_priority
                                  " https://www.youtube.com/shorts/abc ")))).
    vm_compute. discriminate.
Defined.

(** ** More on the dispatcher *)

(** The dispatcher ends with status 0 exactly when it was given a URL of a
    supported platform and the runner's process completed; in every other
    case the status is 1.  The runner is started exactly for the supported
    URLs, once, on the URL as given and with the 300-second limit. *)
Theorem handler_status_and_start
    (subprocess_run : list string -> Handler.run_reply) (argv : list string) :
  (fst (Handler.main subprocess_run argv) = 0%Z
   <-> exists prog url rest returncode stdout stderr,
        argv = prog :: url :: rest /\ Handler.supported url = true
        /\ subprocess_run ["python3"; Handler.pipeline; url]
           = Handler.Completed returncode stdout stderr)
  /\ (fst (Handler.main subprocess_run argv) = 0%Z
      \/ fst (Handler.main subprocess_run argv) = 1%Z)
  /\ (forall cmd limit,
         In (Handler.Run cmd limit) (snd (Handler.main subprocess_run argv)) ->
         exists prog url rest,
           argv = prog :: url :: rest /\ Handler.supported url = true
           /\ cmd = ["python3"; Handler.pipeline; url] /\ limit = 300%Z)
  /\ (forall prog url rest,
         argv = prog :: url :: rest -> Handler.supported url = true ->
         exists later,
           snd (Handler.main subprocess_run argv)
           = Handler.Run ["python3"; Handler.pipeline; url] 300 :: later
           /\ forall cmd limit, ~ In (Handler.Run cmd limit) later).
Proof.
  assert (Hreport : forall lines cmd limit, ~ In (Handler.Run cmd limit) (Handler.report lines)).
  { induction lines as [|l lines IH]; intros cmd limit; cbn; [tauto|].
    destruct (PyStr.startswith "Recipe:" l); [|apply IH].
    cbn. intros [H|[H|[]]]; discriminate. }
  destruct argv as [|prog [|url rest]].
  - cbn. split; [split; [discriminate | intros (?&?&?&?&?&?&H&_); discriminate]|].
    split; [right; reflexivity|]. split.
    + intros cmd limit [H|[]]. discriminate.
    + intros ? ? ? H. discriminate.
  - cbn. split; [split; [discriminate | intros (?&?&?&?&?&?&H&_); discriminate]|].
    split; [right; reflexivity|]. split.
    + intros cmd limit [H|[]]. discriminate.
    + intros ? ? ? H. discriminate.
  - unfold Handler.main. destruct (Handler.supported url) eqn:Hs; cbn [negb].
    2:{ split; [split; [discriminate|]|].
        { intros (p'&u'&r'&rc&out&err&Ha&Hs'&_). inversion Ha; subst. congruence. }
        split; [right; reflexivity|]. split.
        - intros cmd limit [H|[]]. discriminate.
        - intros p' u' r' Ha Hs'. inversion Ha; subst. congruence. }
    destruct (subprocess_run _) as [rc out err|] eqn:Hrun.
    + assert (Hst : fst (if (rc =? 0)%Z
                         then (0%Z, Handler.Run ["python3"; Handler.pipeline; url] 300
                                    :: Handler.report (PyStr.split_lines out))
                         else (0%Z, [Handler.Run ["python3"; Handler.pipeline; url] 300;
                                     Handler.Print Handler.Failed;
                                     Handler.Print
                                       (Handler.ErrorText (PyStr.last_chars 500 err))]))
                    = 0%Z) by (destruct (rc =? 0)%Z; reflexivity).
      split; [split; [intros _; exists prog, url, rest, rc, out, err; auto
                     | intros _; exact Hst]|].
      split; [left; exact Hst|]. split.
      * intros cmd limit Hin. exists prog, url, rest.
        destruct (rc =? 0)%Z; cbn [snd] in Hin.
        -- destruct Hin as [H|H]; [inversion H; auto | contradiction (Hreport _ _ _ H)].
        -- destruct Hin as [H|[H|[H|[]]]]; try discriminate. inversion H; auto.
      * intros p' u' r' Ha _. inversion Ha; subst p' u' r'.
        destruct (rc =? 0)%Z; cbn [snd]; eexists; (split; [reflexivity|]).
        -- apply Hreport.
        -- intros cmd limit [H|[H|[]]]; discriminate.
    + cbn. split; [split; [discriminate|]|].
      { intros (p'&u'&r'&rc&out&err&Ha&_&Hc). inversion Ha; subst. congruence. }
      split; [right; reflexivity|]. split.
      * intros cmd limit [H|[]]. inversion H. exists prog, url, rest. auto.
      * intros p' u' r' Ha _. inversion Ha; subst. eexists. split; [reflexivity|].
        intros cmd limit [].
Qed.

Section ReportFacts.

Import PyStr Anatomy.

Lemma replace_from_absent (old new s : string) :
  contains old s = false -> replace_from old new 0 s = s.
Proof.
  induction s as [|c s IH]; [reflexivity|].
  cbn [contains replace_from]. intros H. apply orb_false_iff in H.
  destruct H as [Hp Hc]. rewrite Hp, (IH Hc). reflexivity.
Qed.

Lemma split_lines_plain (l : string) :
  all_chars no_newline l = true -> split_lines l = [l].
Proof.
  induction l as [|c l IH]; [reflexivity|]. cbn [all_chars split_lines]. intros H.
  apply andb_true_iff in H. destruct H as [Hc Hl].
  unfold no_newline in Hc. apply negb_true_iff in Hc. rewrite Hc, (IH Hl). reflexivity.
Qed.

Lemma split_lines_line (l s : string) :
  all_chars no_newline l = true ->
  split_lines (l ++ newline ++ s) = l :: split_lines s.
Proof.
  induction l as [|c l IH]; [reflexivity|]. cbn [all_chars]. intros H.
  apply andb_true_iff in H. destruct H as [Hc Hl].
  unfold no_newline in Hc. apply negb_true_iff in Hc.
  change (String c l ++ newline ++ s) with (String c (l ++ newline ++ s)).
  cbn [split_lines]. rewrite Hc, (IH Hl). reflexivity.
Qed.

(** Splitting what was printed gives back the lines. *)
Lemma split_lines_printed (lines : list string) :
  lines <> [] ->
  Forall (fun l => all_chars no_newline l = true) lines ->
  split_lines (printed lines) = lines.
Proof.
  induction lines as [|l lines IH]; [congruence|]. intros _ H.
  inversion H as [|? ? Hl Hrest]; subst.
  destruct lines as [|l' lines'].
  - cbn. apply split_lines_plain. exact Hl.
  - change (printed (l :: l' :: lines')) with (l ++ newline ++ printed (l' :: lines')).
    rewrite (split_lines_line _ _ Hl), IH; [reflexivity | discriminate | exact Hrest].
Qed.

Lemma report_skips (before rest : list string) :
  Forall (fun l => startswith "Recipe:" l = false) before ->
  Handler.report (before ++ rest) = Handler.report rest.
Proof.
  induction before as [|l before IH]; intros H; [reflexivity|].
  inversion H as [|? ? Hl Hb]; subst. cbn [app Handler.report].
  rewrite Hl. exact (IH Hb).
Qed.

Lemma report_recipe_line (title : string) (rest : list string) :
  contains "Recipe:" title = false ->
  Handler.report (recipe_line title :: rest)
  = [Handler.Print (Handler.Added (strip title)); Handler.Print Handler.SiteLink].
Proof.
  intros H. unfold recipe_line. cbn [Handler.report].
  change (startswith "Recipe:" ("Recipe: " ++ title)) with true. cbv iota.
  change (replace "Recipe:" "" ("Recipe: " ++ title))
    with (String " " (replace_from "Recipe:" "" 0 title)).
  rewrite (replace_from_absent _ _ _ H). reflexivity.
Qed.

End ReportFacts.

(** The dispatcher recovers the title the runner printed.  When the runner
    exits 0 and the first line of its output that starts with [Recipe:] is
    the line of line 339 for a title that does not itself contain
    [Recipe:], the dispatcher announces that title, trimmed, and the site
    link, and exits 0. *)
Theorem handler_recovers_title
    (subprocess_run : list string -> Handler.run_reply) (prog url : string)
    (rest : list string) (before after : list string) (title stderr : string) :
  Handler.supported url = true ->
  Forall (fun l => PyStr.all_chars Anatomy.no_newline l = true) before ->
  Forall (fun l => PyStr.startswith "Recipe:" l = false) before ->
  Forall (fun l => PyStr.all_chars Anatomy.no_newline l = true) after ->
  PyStr.all_chars Anatomy.no_newline title = true ->
  PyStr.contains "Recipe:" title = false ->
  subprocess_run ["python3"; Handler.pipeline; url]
  = Handler.Completed 0
      (Anatomy.printed (before ++ Anatomy.recipe_line title :: after)) stderr ->
  Handler.main subprocess_run (prog :: url :: rest)
  = (0%Z,
     [Handler.Run ["python3"; Handler.pipeline; url] 300;
      Handler.Print (Handler.Added (PyStr.strip title));
      Handler.Print Handler.SiteLink]).
Proof.
  intros Hs Hb1 Hb2 Ha Ht Hc Hrun. unfold Handler.main.
  rewrite Hs, Hrun. cbn [negb Z.eqb].
  rewrite split_lines_printed.
  - rewrite (report_skips _ _ Hb2), (report_recipe_line _ _ Hc). reflexivity.
  - destruct before; discriminate.
  - apply Forall_app. split; [exact Hb1|]. constructor; [|exact Ha].
    unfold Anatomy.recipe_line. exact Ht.
Qed.

Lemma handler_recovers_title_witness :
  Handler.main
    (fun _ => Handler.Completed 0
                (Anatomy.printed (["=== Done! ==="]
                                  ++ Anatomy.recipe_line "Test Soup "
                                  :: ["Site: https://jonahenk.github.io/recipes/"; ""]))
                "")
    ["recipe-handler"; "https://youtu.be/abc"]
  = (0%Z,
     [Handler.Run ["python3"; Handler.pipeline; "https://youtu.be/abc"] 300;
      Handler.Print (Handler.Added (PyStr.strip "Test Soup "));
      Handler.Print Handler.SiteLink]).
Proof.
  apply (handler_recovers_title _ "recipe-handler" "https://youtu.be/abc" []
           ["=== Done! ==="] ["Site: https://jonahenk.github.io/recipes/"; ""]
           "Test Soup " "").
  - reflexivity.
  - repeat constructor.
  - repeat constructor.
  - repeat constructor.
  - reflexivity.
  - reflexivity.
  - reflexivity.
Defined.

(** ** Stage by stage *)

Section StageFrames.

Import Pipeline Observe Anatomy.

Variable w : world.

Lemma frame_refl s d st : frame s d st st.
Proof.
  unfold frame. repeat split; auto. exists []. rewrite app_nil_r. split; reflexivity.
Qed.

Lemma frame_trans s d a b c : frame s d a b -> frame s d b c -> frame s d a c.
Proof.
  intros [I1 [F1 [G1 [t1 [T1 W1]]]]] [I2 [F2 [G2 [t2 [T2 W2]]]]].
  unfold frame. split; [congruence|]. split; [|split].
  - intros f Hf. destruct (F2 f Hf) as [H|H]; [exact (F1 f H) | right; exact H].
  - intros f Hf. exact (G2 f (G1 f Hf)).
  - exists (t1 ++ t2)%list. split.
    + rewrite T2, T1, app_assoc. reflexivity.
    + rewrite forallb_app, W1, W2. reflexivity.
Qed.

Lemma frame_emit s d e st : within s e = true -> frame s d st (emit e st).
Proof.
  intros H. unfold frame. cbn [index_file files trace emit]. repeat split; auto.
  exists [e]. split; [reflexivity|]. cbn. rewrite H. reflexivity.
Qed.

Lemma frame_say s d n st : frame s d st (say n st).
Proof. apply frame_emit. reflexivity. Qed.

Lemma frame_add_file s d name st : frame s d st (add_file (path_join d name) st).
Proof.
  unfold frame. cbn [index_file files trace add_file]. split; [reflexivity|].
  split; [|split].
  - intros f [<-|H]; [right | left; exact H].
    apply prefix_split. exists name. unfold path_join.
    rewrite append_assoc. reflexivity.
  - intros f H. right. exact H.
  - exists []. rewrite app_nil_r. split; reflexivity.
Qed.

(** Peels the state transformers off the final state, innermost last. *)
Ltac frame_steps :=
  repeat lazymatch goal with
         | |- frame _ _ ?a ?a => apply frame_refl
         | |- frame _ _ _ (say _ _) => eapply frame_trans; [|apply frame_say]
         | |- frame _ _ _ (emit _ _) =>
             eapply frame_trans; [|apply frame_emit; reflexivity]
         | |- frame _ _ _ (add_file (path_join _ _) _) =>
             eapply frame_trans; [|apply frame_add_file]
         end.

Ltac open_cases :=
  cbv zeta;
  repeat match goal with
         | |- context [if ?b then _ else _] => destruct b
         | |- context [match ?x with _ => _ end] => destruct x
         end;
  cbn [fst snd].

Lemma download_attempt_frame url api_key work_dir max_retries attempt st :
  frame Download work_dir st
    (snd (download_attempt w url api_key work_dir max_retries attempt st)).
Proof. unfold download_attempt, attempt_failed. open_cases; frame_steps. Qed.

Lemma download_loop_frame url api_key work_dir max_retries todo :
  forall attempt st,
    frame Download work_dir st
      (snd (download_loop w url api_key work_dir max_retries attempt todo st)).
Proof.
  induction todo as [|todo IH]; intros attempt st; [apply frame_refl|].
  cbn [download_loop].
  pose proof (download_attempt_frame url api_key work_dir max_retries attempt st) as H.
  destruct (download_attempt w url api_key work_dir max_retries attempt st)
    as [[result|] st']; cbn [snd] in *.
  - exact H.
  - exact (frame_trans _ _ _ _ _ H (IH _ _)).
Qed.

Lemma download_video_frame url api_key work_dir max_retries st :
  frame Download work_dir st
    (snd (download_video w url api_key work_dir max_retries st)).
Proof.
  unfold download_video.
  exact (frame_trans _ _ _ _ _ (frame_say _ _ Downloading st) (download_loop_frame _ _ _ _ _ _ _)).
Qed.

Lemma extract_audio_frame video_path work_dir st :
  frame Audio work_dir st (snd (extract_audio w video_path work_dir st)).
Proof. unfold extract_audio. open_cases; frame_steps. Qed.

Lemma extract_thumbnail_frame video_path work_dir st :
  frame Thumbnail work_dir st (snd (extract_thumbnail w video_path work_dir st)).
Proof. unfold extract_thumbnail. open_cases; frame_steps. Qed.

Lemma transcribe_frame audio_path work_dir st :
  frame Transcription work_dir st (snd (transcribe w audio_path st)).
Proof. unfold transcribe. open_cases; frame_steps. Qed.

Lemma extract_recipe_frame transcription source_url api_key work_dir st :
  frame Extraction work_dir st
    (snd (extract_recipe w transcription source_url api_key st)).
Proof. unfold extract_recipe. open_cases; frame_steps. Qed.

End StageFrames.

(** ** The publish step, case by case *)

Section PublishAnatomy.

Import Pipeline Observe Anatomy.

Variable w : world.

Local Opaque generate_color_scheme slug_of String.append.

Lemma git_commands_app (t1 t2 : list event) :
  git_commands (t1 ++ t2) = (git_commands t1 ++ git_commands t2)%list.
Proof. apply flat_map_app. Qed.

Lemma commands_commit (t : list event) :
  forallb command_event t = true -> forallb commit_event t = true.
Proof.
  induction t as [|e t IH]; cbn; [reflexivity|]. intros H.
  apply andb_true_iff in H. destruct H as [He Ht]. rewrite (IH Ht).
  destruct e; try discriminate; reflexivity.
Qed.

Lemma commit_within (t : list event) :
  forallb commit_event t = true -> forallb (within Publish) t = true.
Proof.
  induction t as [|e t IH]; cbn; [reflexivity|]. intros H.
  apply andb_true_iff in H. destruct H as [He Ht]. rewrite (IH Ht).
  destruct e; try discriminate; reflexivity.
Qed.

Lemma run_command_anatomy cmd st :
  index_file (snd (run_command w cmd st)) = index_file st
  /\ files (snd (run_command w cmd st)) = files st
  /\ (fst (run_command w cmd st) = Exc CommandTimeout <-> git w cmd = GitTimeout)
  /\ (git w cmd <> GitTimeout -> exists out, fst (run_command w cmd st) = Val out)
  /\ exists t,
      trace (snd (run_command w cmd st)) = (trace st ++ t)%list
      /\ forallb command_event t = true
      /\ git_commands t = [cmd].
Proof.
  unfold run_command. destruct (git w cmd) as [code out err|] eqn:G.
  - destruct (negb (code =? 0)%Z); cbn [fst snd index_file files trace say emit];
      (split; [reflexivity|]); (split; [reflexivity|]);
      (split; [split; discriminate|]); (split; [eauto|]);
      eexists; (split; [rewrite <- ?app_assoc; reflexivity|]); split; reflexivity.
  - cbn [fst snd index_file files trace say emit].
    split; [reflexivity|]. split; [reflexivity|]. split; [tauto|].
    split; [intros H; contradiction H; reflexivity|].
    eexists. split; [reflexivity|]. split; reflexivity.
Qed.

(** The commands run in order until one does not return; a command that
    fails does not stop the next. *)
Lemma run_commands_anatomy cmds :
  forall st,
    index_file (snd (run_commands w cmds st)) = index_file st
    /\ files (snd (run_commands w cmds st)) = files st
    /\ (fst (run_commands w cmds st) = Val tt
        \/ fst (run_commands w cmds st) = Exc CommandTimeout)
    /\ exists t,
        trace (snd (run_commands w cmds st)) = (trace st ++ t)%list
        /\ forallb command_event t = true
        /\ (fst (run_commands w cmds st) = Val tt -> git_commands t = cmds)
        /\ ((forall cmd, In cmd cmds -> git w cmd <> GitTimeout) ->
            fst (run_commands w cmds st) = Val tt).
Proof.
  induction cmds as [|cmd rest IH]; intros st.
  - cbn. repeat split; auto. exists []. rewrite app_nil_r. repeat split.
  - cbn [run_commands].
    destruct (run_command_anatomy cmd st) as [I [F [Hto [Hret [t [T [W G]]]]]]].
    destruct (run_command w cmd st) as [[v|e] st1] eqn:R; cbn [fst snd] in *.
    + destruct (IH st1) as [I2 [F2 [O2 [t2 [T2 [W2 [G2 N2]]]]]]].
      split; [congruence|]. split; [congruence|]. split; [exact O2|].
      exists (t ++ t2)%list. split; [rewrite T2, T, app_assoc; reflexivity|].
      split; [rewrite forallb_app, W, W2; reflexivity|]. split.
      * intros Hv. rewrite git_commands_app, G, (G2 Hv). reflexivity.
      * intros Hall. apply N2. intros c Hc. apply Hall. right. exact Hc.
    + split; [exact I|]. split; [exact F|].
      assert (He : e = CommandTimeout).
      { destruct (git w cmd) eqn:Gc.
        - destruct (Hret ltac:(discriminate)) as [o' Ho]. discriminate.
        - pose proof (proj2 Hto eq_refl) as Hx. congruence. }
      subst e. split; [right; reflexivity|].
      exists t. split; [exact T|]. split; [exact W|]. split; [discriminate|].
      intros Hall. exfalso. apply (Hall cmd (or_introl eq_refl)).
      apply (proj1 Hto). reflexivity.
Qed.

Lemma save_to_github_anatomy r transcription thumbnail_path st :
  exists t,
    trace (snd (save_to_github w r transcription thumbnail_path st))
    = (trace st ++ Print Saving
         :: copy_events r thumbnail_path st
         ++ WriteRecipe (recipe_path r) (published r thumbnail_path st) :: t)%list
    /\ forallb commit_event t = true
    /\ files (snd (save_to_github w r transcription thumbnail_path st))
       = (recipe_path r :: copy_files r thumbnail_path st ++ files st)%list
    /\ match index_file st with
       | None =>
           fst (save_to_github w r transcription thumbnail_path st) = Exc IndexUnreadable
           /\ index_file (snd (save_to_github w r transcription thumbnail_path st)) = None
           /\ t = []
       | Some ix =>
           index_file (snd (save_to_github w r transcription thumbnail_path st))
           = Some (index_after ix (published r thumbnail_path st))
           /\ (fst (save_to_github w r transcription thumbnail_path st)
               = Val (site_url, published r thumbnail_path st)
               \/ fst (save_to_github w r transcription thumbnail_path st)
                  = Exc CommandTimeout)
           /\ (fst (save_to_github w r transcription thumbnail_path st)
               = Val (site_url, published r thumbnail_path st) ->
               git_commands t = publish_commands (published r thumbnail_path st))
           /\ (git_returns w ->
               fst (save_to_github w r transcription thumbnail_path st)
               = Val (site_url, published r thumbnail_path st))
       end.
Proof.
  unfold save_to_github.
  set (coloured := set_colors (generate_color_scheme (title r)) r).
  assert (T : match thumbnail_path with
              | Some p =>
                  if path_exists p (say Saving st)
                  then (set_thumbnail ("recipes/" ++ slug_of (title r) ++ ".jpg") coloured,
                        add_file (path_join (path_join repo_dir "recipes")
                                    (slug_of (title r) ++ ".jpg"))
                          (emit (CopyFile p (path_join (path_join repo_dir "recipes")
                                               (slug_of (title r) ++ ".jpg")))
                             (say Saving st)))
                  else (coloured, say Saving st)
              | None => (coloured, say Saving st)
              end
              = (published r thumbnail_path st,
                 {| index_file := index_file st;
                    files := (copy_files r thumbnail_path st ++ files st)%list;
                    trace := (trace st ++ Print Saving :: copy_events r thumbnail_path st)%list |})).
  { unfold published, copy_files, copy_events, copies. fold coloured.
    destruct thumbnail_path as [p|].
    - change (path_exists p (say Saving st)) with (path_exists p st).
      destruct (path_exists p st); unfold say, emit, add_file; cbn [index_file files trace];
        rewrite <- ?app_assoc; reflexivity.
    - unfold say, emit. cbn [index_file files trace]. reflexivity. }
  cbv zeta. rewrite T. clear T.
  set (written := published r thumbnail_path st).
  cbn [index_file add_file emit files trace].
  destruct (index_file st) as [ix|].
  2:{ exists []. cbn [fst snd trace files index_file add_file emit].
      rewrite <- ?app_assoc. repeat split. }
  match goal with
  | |- context [run_commands w ?cmds ?s] =>
      destruct (run_commands_anatomy cmds s) as [I [F [O [t [Tr [W [G N]]]]]]];
      destruct (run_commands w cmds s) as [[u|e] s1] eqn:R
  end; cbn [fst snd] in *.
  - destruct u. cbn [fst snd trace files index_file add_file emit say set_index].
    exists ((match existing_entries ix written with
             | [] => [WriteIndex (ix ++ [index_entry_of written])%list]
             | _ :: _ => []
             end) ++ Chdir repo_dir :: t ++ [Print (Committed (slug_of (title r)))])%list.
    cbn [trace files index_file say emit].
    rewrite Tr, F, I. unfold index_after.
    destruct (existing_entries ix written);
      cbn [trace files index_file say emit set_index add_file app];
      (split; [rewrite <- ?app_assoc; reflexivity|]);
      (split; [cbn; rewrite forallb_app, (commands_commit t W); reflexivity|]);
      (split; [reflexivity|]); (split; [reflexivity|]);
      (split; [left; reflexivity|]);
      (split; [intros _; cbn; rewrite git_commands_app, (G eq_refl), app_nil_r;
               reflexivity|]);
      intros _; reflexivity.
  - destruct O as [O|O]; [discriminate|]. inversion O; subst e.
    cbn [fst snd trace files index_file add_file emit say set_index].
    exists ((match existing_entries ix written with
             | [] => [WriteIndex (ix ++ [index_entry_of written])%list]
             | _ :: _ => []
             end) ++ Chdir repo_dir :: t)%list.
    rewrite Tr, F, I. unfold index_after.
    destruct (existing_entries ix written);
      cbn [trace files index_file say emit set_index add_file app];
      (split; [rewrite <- ?app_assoc; reflexivity|]);
      (split; [cbn; exact (commands_commit t W)|]);
      (split; [reflexivity|]); (split; [reflexivity|]);
      (split; [right; reflexivity|]);
      (split; [discriminate|]);
      intros Hg; exfalso; discriminate (N (fun c _ => Hg c)).
Qed.

End PublishAnatomy.

Section PublishTheorems.

Import Pipeline Observe Anatomy.

Lemma git_commands_copy r thumbnail_path st :
  git_commands (copy_events r thumbnail_path st) = [].
Proof.
  unfold copy_events. destruct thumbnail_path as [p|]; [|reflexivity].
  destruct (path_exists p st); reflexivity.
Qed.

(** A failing version-control command does not fail the publish step, and
    does not stop the commands after it: as long as every command returns
    (with whatever status), the step returns the site URL, has run
    [git add], [git commit] and [git push] in this order, and has brought
    the index up to date. *)
Theorem publish_survives_failed_commands
    (w : world) (r : recipe) (transcription : string) (thumbnail_path : option string)
    (st : state) (ix : index) :
  index_file st = Some ix ->
  git_returns w ->
  fst (save_to_github w r transcription thumbnail_path st)
  = Val (site_url, published r thumbnail_path st)
  /\ index_file (snd (save_to_github w r transcription thumbnail_path st))
     = Some (index_after ix (published r thumbnail_path st))
  /\ exists t,
      trace (snd (save_to_github w r transcription thumbnail_path st)) = (trace st ++ t)%list
      /\ git_commands t
         = ["git add -A"; commit_command (published r thumbnail_path st);
            "git push origin main"].
Proof.
  intros Hix Hg.
  destruct (save_to_github_anatomy w r transcription thumbnail_path st)
    as [t [T [_ [_ H]]]].
  rewrite Hix in H. destruct H as [I [_ [G V]]].
  split; [exact (V Hg)|]. split; [exact I|].
  eexists. split; [exact T|].
  change (Print Saving :: ?a ++ ?b) with ([Print Saving] ++ a ++ b)%list.
  rewrite !git_commands_app, git_commands_copy. cbn [app git_commands flat_map].
  exact (G (V Hg)).
Qed.

Lemma publish_survives_failed_commands_witness :
  fst (save_to_github Worlds.offline Scenario.soup "boil water" None Scenario.fresh_site)
  = Val (site_url, published Scenario.soup None Scenario.fresh_site).
Proof.
  apply (publish_survives_failed_commands Worlds.offline Scenario.soup "boil water" None
           Scenario.fresh_site [] eq_refl).
  intros cmd. discriminate.
Defined.

(** The index is rewritten before anything is committed.  With a readable
    index the step ends either normally or with the time-out of a command;
    in both cases the index already holds the new state, and a time-out
    needs one of the three commands not to return. *)
Theorem publish_updates_index_before_commit
    (w : world) (r : recipe) (transcription : string) (thumbnail_path : option string)
    (st : state) (ix : index) :
  index_file st = Some ix ->
  index_file (snd (save_to_github w r transcription thumbnail_path st))
  = Some (index_after ix (published r thumbnail_path st))
  /\ (fst (save_to_github w r transcription thumbnail_path st)
      = Val (site_url, published r thumbnail_path st)
      \/ fst (save_to_github w r transcription thumbnail_path st) = Exc CommandTimeout)
  /\ (fst (save_to_github w r transcription thumbnail_path st) = Exc CommandTimeout ->
      exists cmd, git w cmd = GitTimeout).
Proof.
  intros Hix.
  destruct (save_to_github_anatomy w r transcription thumbnail_path st)
    as [t [_ [_ [_ H]]]].
  rewrite Hix in H. destruct H as [I [O [_ V]]].
  split; [exact I|]. split; [exact O|]. intros Hexc.
  set (written := published r thumbnail_path st) in *.
  destruct (git w "git add -A") eqn:G1; [|eauto].
  destruct (git w (commit_command written)) eqn:G2; [|eauto].
  destruct (git w "git push origin main") eqn:G3; [|eauto].
  exfalso.
  assert (Hall : forall s0, fst (run_commands w (publish_commands written) s0) = Val tt).
  { intros s0.
    destruct (run_commands_anatomy w (publish_commands written) s0)
      as [_ [_ [_ [t' [_ [_ [_ N]]]]]]].
    apply N. intros cmd [<-|[<-|[<-|[]]]]; congruence. }
  unfold save_to_github in Hexc. cbv zeta in Hexc.
  destruct (match thumbnail_path with
            | Some p => _
            | None => _
            end) as [wr s0] eqn:T in Hexc.
  assert (Hwr : wr = written /\ index_file s0 = Some ix).
  { unfold written, published, copies.
    destruct thumbnail_path as [p|].
    - change (path_exists p (say Saving st)) with (path_exists p st) in T.
      destruct (path_exists p st); inversion T; subst; split; auto.
    - inversion T; subst. split; auto. }
  destruct Hwr as [-> Hi]. cbn [index_file add_file emit] in Hexc. rewrite Hi in Hexc.
  match type of Hexc with
  | context [run_commands w ?cmds ?s] =>
      pose proof (Hall s) as Hv; unfold publish_commands in Hv;
      destruct (run_commands w cmds s) as [[u|e] s1]
  end; cbn [fst] in *; discriminate.
Qed.

Lemma publish_updates_index_before_commit_witness :
  index_file (snd (save_to_github Worlds.hanging Scenario.soup "boil water" None
                     Scenario.fresh_site))
  = Some (index_after [] (published Scenario.soup None Scenario.fresh_site))
  /\ fst (save_to_github Worlds.hanging Scenario.soup "boil water" None Scenario.fresh_site)
     = Exc CommandTimeout.
Proof.
  destruct (publish_updates_index_before_commit Worlds.hanging Scenario.soup "boil water"
              None Scenario.fresh_site [] eq_refl) as [H _].
  split; [exact H | vm_compute; reflexivity].
Defined.

(** The recipe file is written before the index is opened: with an index
    that cannot be read, the step raises, the recipe file (and the copied
    thumbnail) are there all the same, and nothing else has been done. *)
Theorem publish_with_unreadable_index
    (w : world) (r : recipe) (transcription : string) (thumbnail_path : option string)
    (st : state) :
  index_file st = None ->
  fst (save_to_github w r transcription thumbnail_path st) = Exc IndexUnreadable
  /\ trace (snd (save_to_github w r transcription thumbnail_path st))
     = (trace st ++ Print Saving
          :: copy_events r thumbnail_path st
          ++ [WriteRecipe (recipe_path r) (published r thumbnail_path st)])%list
  /\ files (snd (save_to_github w r transcription thumbnail_path st))
     = (recipe_path r :: copy_files r thumbnail_path st ++ files st)%list
  /\ index_file (snd (save_to_github w r transcription thumbnail_path st)) = None.
Proof.
  intros Hix.
  destruct (save_to_github_anatomy w r transcription thumbnail_path st)
    as [t [T [_ [F H]]]].
  rewrite Hix in H. destruct H as [E [I ->]]. auto.
Qed.

Lemma publish_with_unreadable_index_witness :
  fst (save_to_github Scenario.ready Scenario.soup "boil water" None Worlds.broken_site)
  = Exc IndexUnreadable.
Proof.
  apply (publish_with_unreadable_index Scenario.ready Scenario.soup "boil water" None
           Worlds.broken_site eq_refl).
Defined.

End PublishTheorems.

(** ** Whole runs, stage after stage *)

Section RunAnatomy.

Import Pipeline Observe Anatomy.

Variable w : world.

Lemma ranks_app (t1 t2 : list event) : ranks (t1 ++ t2) = (ranks t1 ++ ranks t2)%list.
Proof. apply flat_map_app. Qed.

Lemma ranks_within (s : stage) (t : list event) :
  forallb (within s) t = true -> Forall (fun r => r = rank s) (ranks t).
Proof.
  induction t as [|e t IH]; cbn; [constructor|]. intros H.
  apply andb_true_iff in H. destruct H as [He Ht]. unfold within in He.
  destruct (owner e) as [s'|]; cbn.
  - constructor; [apply Nat.eqb_eq; exact He | exact (IH Ht)].
  - exact (IH Ht).
Qed.

Lemma sorted_constant (k : nat) (l : list nat) :
  Forall (fun r => r = k) l -> StronglySorted le l.
Proof.
  induction 1 as [|x l Hx Hl IH]; constructor; [exact IH|].
  subst x. eapply Forall_impl; [|exact Hl]. cbn. intros a ->. reflexivity.
Qed.

Lemma sorted_app (l1 l2 : list nat) (k : nat) :
  StronglySorted le l1 -> Forall (fun r => r <= k) l1 ->
  StronglySorted le l2 -> Forall (fun r => k <= r) l2 ->
  StronglySorted le (l1 ++ l2).
Proof.
  intros S1 B1 S2 B2. induction S1 as [|x l1 S1 IH Hx]; cbn; [exact S2|].
  inversion B1 as [|? ? Bx Bl]; subst. constructor; [exact (IH Bl)|].
  apply Forall_app. split; [exact Hx|].
  eapply Forall_impl; [|exact B2]. cbn. intros a Ha. lia.
Qed.

Lemma within_no_gemini (s : stage) (t : list event) :
  forallb (within s) t = true -> rank s <> 5 ->
  forall transcription u label key, ~ In (Gemini transcription u label key) t.
Proof.
  intros H Hs tr u l k Hin. rewrite forallb_forall in H. specialize (H _ Hin).
  unfold within in H. cbn [owner] in H. apply Nat.eqb_eq in H. cbn [rank] in H.
  congruence.
Qed.

Lemma reached_start source_url api_key work_dir st :
  reached 1 source_url api_key work_dir st st.
Proof.
  unfold reached. split; [reflexivity|]. split; [auto|]. split; [auto|].
  exists []. rewrite app_nil_r.
  split; [reflexivity|]. split; [constructor|]. split; [constructor|].
  intros ? ? ? ? [].
Qed.

(** One more stage, other than the extraction. *)
Lemma reached_step (k : nat) (s : stage) source_url api_key work_dir st a b :
  reached k source_url api_key work_dir st a ->
  frame s work_dir a b -> k <= rank s -> 1 <= rank s -> rank s <> 5 ->
  reached (rank s) source_url api_key work_dir st b.
Proof.
  intros [I [F [G [t [T [S [B A]]]]]]] [I2 [F2 [G2 [t2 [T2 W2]]]]] Hk H1 H5.
  unfold reached. split; [congruence|]. split; [|split].
  - intros f Hf. destruct (F2 f Hf) as [H|H]; [exact (F f H) | right; exact H].
  - intros f Hf. exact (G2 f (G f Hf)).
  - exists (t ++ t2)%list. pose proof (ranks_within s t2 W2) as R2.
    split; [rewrite T2, T, app_assoc; reflexivity|]. rewrite ranks_app.
    split; [|split].
    + apply (sorted_app _ _ k);
        [exact S
        | eapply Forall_impl; [|exact B]; cbn; intros; lia
        | exact (sorted_constant _ _ R2)
        | eapply Forall_impl; [|exact R2]; cbn; intros; lia].
    + apply Forall_app. split.
      * eapply Forall_impl; [|exact B]. cbn. intros; lia.
      * eapply Forall_impl; [|exact R2]. cbn. intros; lia.
    + intros tr u l key Hin. apply in_app_or in Hin. destruct Hin as [Hin|Hin].
      * exact (A _ _ _ _ Hin).
      * contradiction (within_no_gemini s t2 W2 H5 _ _ _ _ Hin).
Qed.

Lemma reached_say (k : nat) source_url api_key work_dir st a n :
  reached k source_url api_key work_dir st a ->
  reached k source_url api_key work_dir st (say n a).
Proof.
  intros [I [F [G [t [T [S [B A]]]]]]]. unfold reached.
  cbn [index_file files trace say emit]. split; [exact I|]. split; [exact F|].
  split; [exact G|].
  exists (t ++ [Print n])%list. rewrite T, app_assoc, ranks_app. cbn [ranks flat_map owner app].
  rewrite app_nil_r. split; [reflexivity|]. split; [exact S|]. split; [exact B|].
  intros tr u l key Hin. apply in_app_or in Hin. destruct Hin as [Hin|[Hin|[]]].
  - exact (A _ _ _ _ Hin).
  - discriminate.
Qed.

Lemma reached_mono (k k' : nat) source_url api_key work_dir st a :
  reached k source_url api_key work_dir st a -> k <= k' ->
  reached k' source_url api_key work_dir st a.
Proof.
  intros [I [F [G [t [T [S [B A]]]]]]] Hk. unfold reached.
  split; [exact I|]. split; [exact F|]. split; [exact G|].
  exists t. split; [exact T|]. split; [exact S|]. split; [|exact A].
  eapply Forall_impl; [|exact B]. cbn. intros; lia.
Qed.

(** The extraction stage asks once, for the URL it was given. *)
Lemma reached_extract (k : nat) transcription source_url api_key work_dir st a :
  reached k source_url api_key work_dir st a -> k <= 5 ->
  transcription <> "" ->
  reached 5 source_url api_key work_dir st
    (snd (extract_recipe w transcription source_url api_key a)).
Proof.
  intros [I [F [G [t [T [S [B A]]]]]]] Hk Hne. unfold extract_recipe. cbv zeta.
  set (ask := Gemini transcription source_url (detect_platform source_url) api_key).
  assert (H : forall tail,
             Forall (fun e => owner e = None) tail ->
             forall b, index_file b = index_file a -> files b = files a ->
                       trace b = (trace a ++ Print ExtractingRecipe :: ask :: tail)%list ->
                       reached 5 source_url api_key work_dir st b).
  { intros tail Ht b Ib Fb Tb. unfold reached. split; [congruence|].
    rewrite Fb. split; [exact F|]. split; [exact G|].
    exists (t ++ Print ExtractingRecipe :: ask :: tail)%list.
    split; [rewrite Tb, T, app_assoc; reflexivity|].
    assert (Rt : ranks tail = []).
    { clear -Ht. induction Ht as [|e tail He _ IH]; cbn; [reflexivity|].
      rewrite He. exact IH. }
    rewrite ranks_app. cbn [ranks flat_map owner app ask]. fold (ranks tail).
    rewrite Rt. cbn [rank app]. split; [|split].
    - apply (sorted_app _ _ k);
        [exact S
        | eapply Forall_impl; [|exact B]; cbn; intros; lia
        | constructor; constructor
        | constructor; [lia | constructor]].
    - apply Forall_app. split.
      + eapply Forall_impl; [|exact B]. cbn. intros; lia.
      + constructor; [lia | constructor].
    - intros tr u l key Hin. apply in_app_or in Hin. destruct Hin as [Hin|Hin].
      + exact (A _ _ _ _ Hin).
      + destruct Hin as [Hin|[Hin|Hin]]; [discriminate| |].
        * unfold ask in Hin. inversion Hin; subst. auto.
        * rewrite Forall_forall in Ht. specialize (Ht _ Hin). discriminate. }
  destruct (gemini w transcription source_url (detect_platform source_url));
    cbn [snd].
  - apply (H []); [constructor | reflexivity | reflexivity |].
    cbn [trace emit say]. rewrite <- !app_assoc. reflexivity.
  - apply (H [Print (Extracted "Unknown")]); [repeat constructor | reflexivity | reflexivity |].
    cbn [trace emit say]. rewrite <- !app_assoc. reflexivity.
  - apply (H [Print (Extracted (title r))]); [repeat constructor | reflexivity | reflexivity |].
    cbn [trace emit say]. rewrite <- !app_assoc. reflexivity.
Qed.

Ltac open_result H :=
  cbv zeta in H;
  repeat match type of H with
         | context [if ?b then _ else _] => destruct b eqn:?
         | context [match ?x with _ => _ end] => destruct x eqn:?
         end;
  cbn [fst snd] in H.

Lemma path_exists_mono (a b : state) (p : string) :
  (forall f, In f (files a) -> In f (files b)) ->
  path_exists p a = true -> path_exists p b = true.
Proof.
  unfold path_exists. intros H Hp. apply existsb_exists in Hp.
  destruct Hp as [f [Hin Heq]]. apply existsb_exists. exists f. split; [exact (H f Hin) | exact Heq].
Qed.

Lemma extract_audio_raises video_path work_dir st e :
  fst (extract_audio w video_path work_dir st) = Exc e -> e = AudioMissing.
Proof. unfold extract_audio. intros H. open_result H; congruence. Qed.

Lemma extract_thumbnail_raises video_path work_dir st e :
  fst (extract_thumbnail w video_path work_dir st) = Exc e -> e = ThumbnailMissing.
Proof. unfold extract_thumbnail. intros H. open_result H; congruence. Qed.

Lemma extract_thumbnail_returns video_path work_dir st thumbnail_path :
  fst (extract_thumbnail w video_path work_dir st) = Val thumbnail_path ->
  (thumbnail_path = None /\ returncode (ffmpeg_thumb w) <> 0%Z)
  \/ (thumbnail_path = Some (path_join work_dir "thumbnail.jpg")
      /\ returncode (ffmpeg_thumb w) = 0%Z
      /\ path_exists (path_join work_dir "thumbnail.jpg")
           (snd (extract_thumbnail w video_path work_dir st)) = true).
Proof.
  unfold extract_thumbnail. cbv zeta.
  destruct (Z.eqb_spec (returncode (ffmpeg_thumb w)) 0) as [E|E]; cbn [negb].
  - destruct (produced (ffmpeg_thumb w)); cbn [fst snd]; intros H; [|discriminate].
    inversion H. right. split; [reflexivity|]. split; [exact E|].
    unfold path_exists. cbn [files say emit add_file existsb].
    rewrite String.eqb_refl. reflexivity.
  - cbn [fst]. intros H. inversion H. left. auto.
Qed.

Lemma transcribe_raises audio_path st e :
  fst (transcribe w audio_path st) = Exc e -> e = TranscriptUnreadable.
Proof. unfold transcribe. intros H. open_result H; congruence. Qed.

Lemma extract_recipe_raises transcription source_url api_key st e :
  fst (extract_recipe w transcription source_url api_key st) = Exc e -> e = GeminiFailed.
Proof. unfold extract_recipe. intros H. open_result H; congruence. Qed.

Lemma extract_recipe_returns transcription source_url api_key st r :
  fst (extract_recipe w transcription source_url api_key st) = Val (Some r) ->
  gemini w transcription source_url (detect_platform source_url) = GeminiRecipe r.
Proof. unfold extract_recipe. intros H. open_result H; congruence. Qed.

(** The shape of every run of the stages: a part before the publish step,
    which leaves the repository alone, then either the end of the run or the
    publish step on the recipe the language model returned. *)
Lemma run_stages_anatomy video_url gemini_key work_dir st :
  exists s5,
    reached 5 video_url gemini_key work_dir st s5
    /\ ((snd (run_stages w video_url gemini_key work_dir st) = s5
         /\ (fst (run_stages w video_url gemini_key work_dir st) = Returned None
             \/ exists e,
                 fst (run_stages w video_url gemini_key work_dir st) = Uncaught e
                 /\ e <> CommandTimeout /\ e <> IndexUnreadable))
        \/ exists r transcription thumbnail_path,
            gemini w transcription video_url (detect_platform video_url) = GeminiRecipe r
            /\ ((thumbnail_path = None /\ returncode (ffmpeg_thumb w) <> 0%Z)
                \/ (thumbnail_path = Some (path_join work_dir "thumbnail.jpg")
                    /\ returncode (ffmpeg_thumb w) = 0%Z
                    /\ path_exists (path_join work_dir "thumbnail.jpg") s5 = true))
            /\ run_stages w video_url gemini_key work_dir st
               = match save_to_github w r transcription thumbnail_path s5 with
                 | (Val (site, written), s6) =>
                     (Returned (Some written),
                      say (SiteLine site)
                        (say (RecipeLine (title written)) (say Done (say Blank s6))))
                 | (Exc e, s6) => (Uncaught e, s6)
                 end).
Proof.
  unfold run_stages. cbv zeta.
  set (st0 := say Blank (say (UrlLine video_url) (say Banner st))).
  assert (R0 : reached 1 video_url gemini_key work_dir st st0).
  { unfold st0. repeat apply reached_say. apply reached_start. }
  pose proof (reached_step 1 Download _ _ _ _ _ _ R0
                (download_video_frame w video_url cobalt_key work_dir 3 st0)
                ltac:(cbn; lia) ltac:(cbn; lia) ltac:(cbn; lia)) as R1.
  destruct (download_video w video_url cobalt_key work_dir 3 st0)
    as [[video_path|] s1]; cbn [snd rank] in R1.
  2:{ exists (say FailedDownload s1). split.
      - apply reached_say. apply (reached_mono 1); [exact R1 | lia].
      - left. split; [reflexivity | left; reflexivity]. }
  pose proof (reached_step 1 Audio _ _ _ _ _ _ R1
                (extract_audio_frame w video_path work_dir s1)
                ltac:(cbn; lia) ltac:(cbn; lia) ltac:(cbn; lia)) as R2.
  pose proof (extract_audio_raises video_path work_dir s1) as X2.
  destruct (extract_audio w video_path work_dir s1)
    as [[[audio_path|]|e2] s2]; cbn [fst snd rank] in R2, X2.
  2:{ exists (say FailedAudio s2). split.
      - apply reached_say. apply (reached_mono 2); [exact R2 | lia].
      - left. split; [reflexivity | left; reflexivity]. }
  2:{ exists s2. split; [apply (reached_mono 2); [exact R2 | lia]|].
      left. split; [reflexivity|]. right. exists e2.
      rewrite (X2 e2 eq_refl). repeat split; discriminate. }
  pose proof (reached_step 2 Thumbnail _ _ _ _ _ _ R2
                (extract_thumbnail_frame w video_path work_dir s2)
                ltac:(cbn; lia) ltac:(cbn; lia) ltac:(cbn; lia)) as R3.
  pose proof (extract_thumbnail_raises video_path work_dir s2) as X3.
  pose proof (extract_thumbnail_returns video_path work_dir s2) as V3.
  destruct (extract_thumbnail w video_path work_dir s2)
    as [[thumbnail_path|e3] s3]; cbn [fst snd rank] in R3, X3, V3.
  2:{ exists s3. split; [apply (reached_mono 3); [exact R3 | lia]|].
      left. split; [reflexivity|]. right. exists e3.
      rewrite (X3 e3 eq_refl). repeat split; discriminate. }
  pose proof (transcribe_frame w audio_path work_dir s3) as F4.
  pose proof (reached_step 3 Transcription _ _ _ _ _ _ R3
                (transcribe_frame w audio_path work_dir s3)
                ltac:(cbn; lia) ltac:(cbn; lia) ltac:(cbn; lia)) as R4.
  pose proof (transcribe_raises audio_path s3) as X4.
  destruct (transcribe w audio_path s3)
    as [[[transcription|]|e4] s4]; cbn [fst snd rank] in R4, X4, F4.
  2:{ exists (say FailedTranscribe s4). split.
      - apply reached_say. apply (reached_mono 4); [exact R4 | lia].
      - left. split; [reflexivity | left; reflexivity]. }
  2:{ exists s4. split; [apply (reached_mono 4); [exact R4 | lia]|].
      left. split; [reflexivity|]. right. exists e4.
      rewrite (X4 e4 eq_refl). repeat split; discriminate. }
  destruct (PyStr.is_empty transcription) eqn:Hempty.
  { exists (say FailedTranscribe s4). split.
    - apply reached_say. apply (reached_mono 4); [exact R4 | lia].
    - left. split; [reflexivity | left; reflexivity]. }
  assert (Hne : transcription <> "") by (intros ->; discriminate).
  pose proof (extract_recipe_frame w transcription video_url gemini_key work_dir s4) as F5.
  pose proof (reached_extract 4 transcription _ _ _ _ _ R4 ltac:(lia) Hne) as R5.
  pose proof (extract_recipe_raises transcription video_url gemini_key s4) as X5.
  pose proof (extract_recipe_returns transcription video_url gemini_key s4) as V5.
  destruct (extract_recipe w transcription video_url gemini_key s4)
    as [[[r|]|e5] s5]; cbn [fst snd] in R5, X5, V5, F5.
  2:{ exists (say FailedExtract s5). split.
      - apply reached_say. exact R5.
      - left. split; [reflexivity | left; reflexivity]. }
  2:{ exists s5. split; [exact R5|].
      left. split; [reflexivity|]. right. exists e5.
      rewrite (X5 e5 eq_refl). repeat split; discriminate. }
  exists s5. split; [exact R5|]. right.
  exists r, transcription, thumbnail_path.
  split; [exact (V5 r eq_refl)|]. split.
  - destruct (V3 thumbnail_path eq_refl) as [H|[H1 [H2 H3]]]; [left; exact H|].
    right. split; [exact H1|]. split; [exact H2|].
    apply (path_exists_mono s4 s5); [exact (proj1 (proj2 (proj2 F5)))|].
    apply (path_exists_mono s3 s4); [exact (proj1 (proj2 (proj2 F4)))|].
    exact H3.
  - destruct (save_to_github w r transcription thumbnail_path s5) as [[[site written]|e6] s6];
      reflexivity.
Qed.

End RunAnatomy.

(** ** Whole runs of [main] *)

Section MainTheorems.

Import Pipeline Observe Anatomy.

(** How [main] ends without starting the stages, or else which stages run
    it wraps. *)
Lemma main_anatomy (w : world) (env : environ) (argv : list string) (st : state) :
  (exists notices,
      snd (main w env argv st)
      = {| index_file := index_file st; files := files st;
           trace := (trace st ++ map Print notices)%list |}
      /\ (forall r, fst (main w env argv st) <> Returned (Some r))
      /\ fst (main w env argv st) <> Uncaught CommandTimeout)
  \/ exists prog arg rest ix key,
      argv = prog :: arg :: rest
      /\ index_file st = Some ix
      /\ find_existing ix (normalize (PyStr.strip arg)) = None
      /\ py_or (GEMINI_API_KEY env) (GOOGLE_API_KEY env) = Some key
      /\ PyStr.is_empty key = false
      /\ main w env argv st
         = (fst (run_stages w (PyStr.strip arg) key (mkdtemp w)
                   (emit (Mkdtemp (mkdtemp w)) st)),
            remove_tree (mkdtemp w)
              (emit (Rmtree (mkdtemp w))
                 (snd (run_stages w (PyStr.strip arg) key (mkdtemp w)
                         (emit (Mkdtemp (mkdtemp w)) st))))).
Proof.
  assert (Same : forall s : state,
             s = {| index_file := index_file s; files := files s;
                    trace := (trace s ++ map Print [])%list |}).
  { intros [i f t]. cbn. rewrite app_nil_r. reflexivity. }
  destruct argv as [|prog [|arg rest]].
  - left. exists [Usage]. cbn. repeat split; discriminate.
  - left. exists [Usage]. cbn. repeat split; discriminate.
  - destruct (index_file st) as [ix|] eqn:Hix.
    2:{ left. exists []. unfold main. rewrite Hix. cbn [fst snd].
        split; [rewrite <- Hix; apply Same|]. split; discriminate. }
    destruct (find_existing ix (normalize (PyStr.strip arg))) as [existing|] eqn:Hf.
    { left. exists [AlreadyExists (e_title existing); SiteLink].
      rewrite (main_duplicate w env prog arg rest st ix existing Hix Hf).
      cbn [fst snd map]. unfold say, emit. cbn [index_file files trace].
      rewrite <- ?app_assoc, ?Hix. repeat split; discriminate. }
    destruct (truthy (py_or (GEMINI_API_KEY env) (GOOGLE_API_KEY env))) eqn:Hk.
    2:{ left. exists [MissingKey].
        rewrite (main_no_credential w env prog arg rest st ix Hix Hf Hk).
        cbn [fst snd map]. unfold say, emit. cbn [index_file files trace].
        rewrite ?Hix. repeat split; discriminate. }
    right. destruct (py_or _ _) as [key|] eqn:Hp; [|discriminate].
    cbn in Hk. apply negb_true_iff in Hk.
    exists prog, arg, rest, ix, key. repeat split; try assumption; try reflexivity.
    apply (main_runs w env prog arg rest st ix key Hix Hf Hp Hk).
Qed.

Lemma ranks_no_repo (t : list event) :
  Forall (fun r => 1 <= r <= 5) (ranks t) ->
  forall e, In e t -> touches_repo e = false.
Proof.
  induction t as [|x t IH]; intros H e Hin; [contradiction|].
  unfold ranks in H. cbn [flat_map] in H. apply Forall_app in H. destruct H as [Hx Ht].
  destruct Hin as [<-|Hin]; [|exact (IH Ht e Hin)].
  unfold touches_repo. destruct (owner x) as [[]|]; try reflexivity.
  inversion Hx as [|? ? H6 _]. cbn in H6. lia.
Qed.

Lemma prints_no_repo (notices : list notice) :
  forall e, In e (map Print notices) -> touches_repo e = false.
Proof. intros e H. apply in_map_iff in H. destruct H as [n [<- _]]. reflexivity. Qed.

(** A run that ends before the publish step has left the repository
    alone: the index is what it was, no file has been added, and nothing of
    the publish step has happened.  Such are the runs that find the index
    unreadable at the start, the usage and credential exits, the runs that
    return no recipe (the duplicate and every stage that reports failure)
    and the runs in which a stage before the publish step raises.  A run
    that raises inside the publish step is not among them. *)
Theorem failed_run_leaves_repository_alone
    (w : world) (env : environ) (argv : list string) (st : state) :
  index_file st = None \/ ends_before_publish (fst (main w env argv st)) = true ->
  index_file (snd (main w env argv st)) = index_file st
  /\ (forall f, In f (files (snd (main w env argv st))) -> In f (files st))
  /\ exists t,
      trace (snd (main w env argv st)) = (trace st ++ t)%list
      /\ forall e, In e t -> touches_repo e = false.
Proof.
  intros Hend.
  destruct (main_anatomy w env argv st)
    as [[notices [Hs _]] | [prog [arg [rest [ix [key [-> [Hix [Hf [Hk [He Hm]]]]]]]]]]].
  - rewrite Hs. cbn [index_file files trace]. split; [reflexivity|]. split; [auto|].
    exists (map Print notices). split; [reflexivity | apply prints_no_repo].
  - rewrite Hm in *. cbn [fst snd] in *.
    destruct (run_stages_anatomy w (PyStr.strip arg) key (mkdtemp w)
                (emit (Mkdtemp (mkdtemp w)) st))
      as [s5 [[I [F [G [t [T [S [B A]]]]]]] [[Hs5 _] | [r [tr [th [_ [_ Hpub]]]]]]]].
    + rewrite Hs5. cbn [index_file files trace remove_tree emit] in *.
      split; [exact I|]. split.
      * intros f Hin. apply filter_In in Hin. destruct Hin as [Hin Hp].
        destruct (F f Hin) as [H|H]; [exact H|]. rewrite H in Hp. discriminate.
      * exists (Mkdtemp (mkdtemp w) :: t ++ [Rmtree (mkdtemp w)])%list.
        split; [rewrite T, <- !app_assoc; reflexivity|].
        intros e [<-|Hin]; [reflexivity|]. apply in_app_or in Hin.
        destruct Hin as [Hin|[<-|[]]]; [exact (ranks_no_repo t B e Hin) | reflexivity].
    + exfalso. destruct Hend as [Hend|Hend]; [rewrite Hix in Hend; discriminate|].
      rewrite Hpub in Hend.
      destruct (save_to_github_anatomy w r tr th s5) as [t' [_ [_ [_ H]]]].
      rewrite I in H. cbn [index_file emit] in H. rewrite Hix in H.
      destruct H as [_ [[O|O] _]];
        destruct (save_to_github w r tr th s5) as [[[site written]|e6] s6];
        cbn [fst] in *; try discriminate.
      inversion O; subst e6. discriminate.
Qed.

Lemma failed_run_leaves_repository_alone_witness :
  index_file (snd (main Worlds.silent Scenario.with_key
                     ["pipeline.py"; "https://tiktok.com/z"] Scenario.soup_site))
  = index_file Scenario.soup_site.
Proof.
  assert (H : ends_before_publish
                (fst (main Worlds.silent Scenario.with_key
                        ["pipeline.py"; "https://tiktok.com/z"] Scenario.soup_site))
              = true)
    by (vm_compute; reflexivity).
  exact (proj1 (failed_run_leaves_repository_alone Worlds.silent Scenario.with_key
                  ["pipeline.py"; "https://tiktok.com/z"] Scenario.soup_site
                  (or_intror H))).
Defined.

Lemma published_source r thumbnail_path st :
  r_source (published r thumbnail_path st) = r_source r
  /\ title (published r thumbnail_path st) = title r.
Proof. unfold published. destruct (copies thumbnail_path st); split; reflexivity. Qed.

(** What a run can have done to the index: nothing, or one entry added at
    the end, for the recipe it returns (or was about to return when a
    version-control command hung). *)
Lemma main_index (w : world) (env : environ) (argv : list string) (st : state) (ix : index) :
  index_file st = Some ix ->
  index_file (snd (main w env argv st)) = Some ix
  \/ exists prog arg rest r transcription written,
      argv = prog :: arg :: rest
      /\ find_existing ix (normalize (PyStr.strip arg)) = None
      /\ gemini w transcription (PyStr.strip arg) (detect_platform (PyStr.strip arg))
         = GeminiRecipe r
      /\ r_source written = r_source r /\ title written = title r
      /\ colors written = Some (generate_color_scheme (title written))
      /\ existing_entries ix written = []
      /\ index_file (snd (main w env argv st)) = Some (ix ++ [index_entry_of written])%list
      /\ (fst (main w env argv st) = Returned (Some written)
          \/ fst (main w env argv st) = Uncaught CommandTimeout).
Proof.
  intros Hix.
  destruct (main_anatomy w env argv st)
    as [[notices [Hs _]] | [prog [arg [rest [ix' [key [-> [Hix' [Hf [Hk [He Hm]]]]]]]]]]].
  - left. rewrite Hs. exact Hix.
  - rewrite Hix in Hix'. inversion Hix'; subst ix'. rewrite Hm. cbn [fst snd].
    destruct (run_stages_anatomy w (PyStr.strip arg) key (mkdtemp w)
                (emit (Mkdtemp (mkdtemp w)) st))
      as [s5 [[I _] [[Hs5 _] | [r [tr [th [Hg [_ Hpub]]]]]]]].
    + left. rewrite Hs5. cbn [index_file remove_tree emit] in *. congruence.
    + rewrite Hpub.
      destruct (save_to_github_anatomy w r tr th s5) as [t' [_ [_ [_ H]]]].
      rewrite I in H. cbn [index_file emit] in H. rewrite Hix in H.
      destruct H as [Hi [O _]].
      destruct (published_source r th s5) as [Hsrc Htitle].
      unfold index_after in Hi.
      destruct (existing_entries ix (published r th s5)) eqn:X.
      * right. exists prog, arg, rest, r, tr, (published r th s5).
        do 5 (split; [assumption || reflexivity|]).
        split; [unfold published; destruct (copies th s5); reflexivity|].
        split; [exact X|].
        destruct (save_to_github w r tr th s5) as [[[site written]|e6] s6];
          cbn [fst snd index_file remove_tree emit say] in *;
          (split; [exact Hi|]); destruct O as [O|O]; try discriminate.
        -- inversion O. left. reflexivity.
        -- inversion O. right. reflexivity.
      * left.
        destruct (save_to_github w r tr th s5) as [[[site written]|e6] s6];
          cbn [fst snd index_file remove_tree emit say] in *; exact Hi.
Qed.

(** The index only grows, and by at most one entry a run: after any run it
    is the old index, or the old index with one entry appended for a recipe
    the language model returned for the submitted URL; an unreadable index
    stays unreadable.  Entries are never removed, changed or reordered. *)
Theorem index_is_append_only
    (w : world) (env : environ) (argv : list string) (st : state) :
  match index_file st with
  | None => index_file (snd (main w env argv st)) = None
  | Some ix =>
      index_file (snd (main w env argv st)) = Some ix
      \/ exists written,
          index_file (snd (main w env argv st)) = Some (ix ++ [index_entry_of written])%list
          /\ existing_entries ix written = []
          /\ colors written = Some (generate_color_scheme (title written))
          /\ (fst (main w env argv st) = Returned (Some written)
              \/ fst (main w env argv st) = Uncaught CommandTimeout)
  end.
Proof.
  destruct (index_file st) as [ix|] eqn:Hix.
  - destruct (main_index w env argv st ix Hix)
      as [H | [prog [arg [rest [r [tr [written [_ [_ [_ [_ [_ [Hc [Hx [Hi Ho]]]]]]]]]]]]]]];
      [left; exact H|].
    right. exists written. auto.
  - destruct (main_anatomy w env argv st)
      as [[notices [Hs _]] | [prog [arg [rest [ix' [key [_ [Hix' _]]]]]]]].
    + rewrite Hs. exact Hix.
    + congruence.
Qed.

Lemma copy_events_within r thumbnail_path st :
  forallb (within Publish) (copy_events r thumbnail_path st) = true.
Proof.
  unfold copy_events. destruct thumbnail_path as [p|]; [|reflexivity].
  destruct (path_exists p st); reflexivity.
Qed.

(** The trace of the publish step and of the closing lines of [main]. *)
Lemma publish_tail (w : world) r transcription thumbnail_path s5 :
  exists tp,
    trace (snd (match save_to_github w r transcription thumbnail_path s5 with
                | (Val (site, written), s6) =>
                    (Returned (Some written),
                     say (SiteLine site)
                       (say (RecipeLine (title written)) (say Done (say Blank s6))))
                | (Exc e, s6) => (Uncaught e, s6)
                end))
    = (trace s5 ++ tp)%list
    /\ forallb (within Publish) tp = true.
Proof.
  destruct (save_to_github_anatomy w r transcription thumbnail_path s5)
    as [t [T [C _]]].
  assert (W : forallb (within Publish)
                (Print Saving :: copy_events r thumbnail_path s5
                 ++ WriteRecipe (recipe_path r) (published r thumbnail_path s5) :: t)
              = true).
  { cbn [forallb]. rewrite forallb_app, copy_events_within. cbn [forallb].
    rewrite (commit_within t C). reflexivity. }
  destruct (save_to_github w r transcription thumbnail_path s5) as [[[site written]|e] s6];
    cbn [snd] in *.
  - exists ((Print Saving :: copy_events r thumbnail_path s5
              ++ WriteRecipe (recipe_path r) (published r thumbnail_path s5) :: t)
             ++ [Print Blank; Print Done; Print (RecipeLine (title written));
                 Print (SiteLine site)])%list.
    cbn [trace say emit]. rewrite T. split.
    + rewrite <- !app_assoc. reflexivity.
    + rewrite forallb_app, W. reflexivity.
  - eexists. split; [exact T | exact W].
Qed.

(** The trace of the stages: in stage order, the language model asked as
    [asks] says. *)
Lemma stages_trace (w : world) video_url gemini_key work_dir st :
  exists t,
    trace (snd (run_stages w video_url gemini_key work_dir st)) = (trace st ++ t)%list
    /\ StronglySorted le (ranks t)
    /\ Forall (fun r => 1 <= r <= 6) (ranks t)
    /\ asks video_url gemini_key t.
Proof.
  destruct (run_stages_anatomy w video_url gemini_key work_dir st)
    as [s5 [[_ [_ [_ [t [T [S [B A]]]]]]] [[Hs5 _] | [r [tr [th [_ [_ Hpub]]]]]]]].
  - exists t. rewrite Hs5. split; [exact T|]. split; [exact S|]. split; [|exact A].
    eapply Forall_impl; [|exact B]. cbn. intros; lia.
  - rewrite Hpub. destruct (publish_tail w r tr th s5) as [tp [Tp Wp]].
    exists (t ++ tp)%list. pose proof (ranks_within Publish tp Wp) as Rp.
    split; [rewrite Tp, T, app_assoc; reflexivity|]. rewrite ranks_app.
    split; [|split].
    + apply (sorted_app _ _ 5);
        [exact S
        | eapply Forall_impl; [|exact B]; cbn; intros; lia
        | exact (sorted_constant _ _ Rp)
        | eapply Forall_impl; [|exact Rp]; cbn; intros; lia].
    + apply Forall_app. split.
      * eapply Forall_impl; [|exact B]. cbn. intros; lia.
      * eapply Forall_impl; [|exact Rp]. cbn. intros; lia.
    + intros x u l k Hin. apply in_app_or in Hin. destruct Hin as [Hin|Hin].
      * exact (A _ _ _ _ Hin).
      * contradiction (within_no_gemini Publish tp Wp ltac:(cbn; lia) _ _ _ _ Hin).
Qed.

(** The stages run one after the other.  In the trace a run adds, the
    effects come in the order of the stages: those of the download before
    those of the audio extraction, then the thumbnail, the transcription,
    the extraction, the publish step; creating the work directory comes
    before all and removing it after all.  No effect of an earlier stage
    follows one of a later stage. *)
Theorem stages_run_in_order
    (w : world) (env : environ) (argv : list string) (st : state) :
  exists t,
    trace (snd (main w env argv st)) = (trace st ++ t)%list
    /\ StronglySorted le (ranks t).
Proof.
  destruct (main_anatomy w env argv st)
    as [[notices [Hs _]] | [prog [arg [rest [ix [key [-> [Hix [Hf [Hk [He Hm]]]]]]]]]]].
  - exists (map Print notices). rewrite Hs. split; [reflexivity|].
    replace (ranks (map Print notices)) with (@nil nat); [constructor|].
    clear Hs. induction notices as [|n l IH]; [reflexivity | exact IH].
  - rewrite Hm. cbn [snd].
    destruct (stages_trace w (PyStr.strip arg) key (mkdtemp w)
                (emit (Mkdtemp (mkdtemp w)) st)) as [t [T [S [B _]]]].
    exists (Mkdtemp (mkdtemp w) :: t ++ [Rmtree (mkdtemp w)])%list.
    cbn [trace remove_tree emit] in *. split; [rewrite T, <- !app_assoc; reflexivity|].
    change (ranks (Mkdtemp (mkdtemp w) :: t ++ [Rmtree (mkdtemp w)]))
      with (0 :: ranks (t ++ [Rmtree (mkdtemp w)])).
    rewrite ranks_app. constructor.
    + apply (sorted_app _ _ 6);
        [exact S
        | eapply Forall_impl; [|exact B]; cbn; intros; lia
        | repeat constructor
        | repeat constructor].
    + apply Forall_forall. intros; lia.
Qed.

Lemma stages_files (w : world) video_url gemini_key work_dir st :
  forall f, In f (files st) ->
            In f (files (snd (run_stages w video_url gemini_key work_dir st))).
Proof.
  intros f Hf.
  destruct (run_stages_anatomy w video_url gemini_key work_dir st)
    as [s5 [[_ [_ [G _]]] [[Hs5 _] | [r [tr [th [_ [_ Hpub]]]]]]]].
  - rewrite Hs5. exact (G f Hf).
  - rewrite Hpub.
    destruct (save_to_github_anatomy w r tr th s5) as [t [_ [_ [F _]]]].
    destruct (save_to_github w r tr th s5) as [[[site written]|e] s6];
      cbn [snd files say emit] in *; rewrite F; right; apply in_or_app; right;
      exact (G f Hf).
Qed.

(** The work directory never outlives the run.  Once [main] is past its
    checks it creates the work directory first and removes it last, on
    every way out (a stage failing, an exception, or success); no path under
    it is left, and the other files are kept. *)
Theorem work_directory_is_always_removed
    (w : world) (env : environ) (prog arg : string) (rest : list string)
    (st : state) (ix : index) (key : string) :
  index_file st = Some ix ->
  find_existing ix (normalize (PyStr.strip arg)) = None ->
  py_or (GEMINI_API_KEY env) (GOOGLE_API_KEY env) = Some key ->
  PyStr.is_empty key = false ->
  (exists t,
      trace (snd (main w env (prog :: arg :: rest) st))
      = (trace st ++ Mkdtemp (mkdtemp w) :: t ++ [Rmtree (mkdtemp w)])%list
      /\ Forall (fun r => 1 <= r <= 6) (ranks t))
  /\ (forall f, In f (files (snd (main w env (prog :: arg :: rest) st))) ->
                prefix (mkdtemp w ++ "/") f = false)
  /\ (forall f, In f (files st) -> prefix (mkdtemp w ++ "/") f = false ->
                In f (files (snd (main w env (prog :: arg :: rest) st)))).
Proof.
  intros Hix Hf Hk He.
  rewrite (main_runs w env prog arg rest st ix key Hix Hf Hk He). cbn [snd].
  destruct (stages_trace w (PyStr.strip arg) key (mkdtemp w)
              (emit (Mkdtemp (mkdtemp w)) st)) as [t [T [_ [B _]]]].
  split; [|split].
  - exists t. cbn [trace remove_tree emit] in *. split; [|exact B].
    rewrite T, <- !app_assoc. reflexivity.
  - cbn [files remove_tree emit]. intros f Hin. apply filter_In in Hin.
    apply negb_true_iff. exact (proj2 Hin).
  - cbn [files remove_tree emit]. intros f Hin Hp. apply filter_In. split.
    + apply stages_files. exact Hin.
    + rewrite Hp. reflexivity.
Qed.

Lemma work_directory_is_always_removed_witness :
  exists t,
    trace (snd (main Worlds.hanging Scenario.with_key
                  ["pipeline.py"; "https://tiktok.com/y"] Scenario.soup_site))
    = (trace Scenario.soup_site
       ++ Mkdtemp (mkdtemp Worlds.hanging) :: t ++ [Rmtree (mkdtemp Worlds.hanging)])%list
    /\ Forall (fun r => 1 <= r <= 6) (ranks t).
Proof.
  assert (H1 : index_file Scenario.soup_site = Some [Scenario.soup_entry])
    by (vm_compute; reflexivity).
  assert (H2 : find_existing [Scenario.soup_entry]
                 (normalize (PyStr.strip "https://tiktok.com/y")) = None)
    by (vm_compute; reflexivity).
  exact (proj1 (work_directory_is_always_removed Worlds.hanging Scenario.with_key
                  "pipeline.py" "https://tiktok.com/y" [] Scenario.soup_site
                  [Scenario.soup_entry] "key" H1 H2 eq_refl eq_refl)).
Defined.

Lemma NoDup_snoc {A : Type} (l : list A) (x : A) :
  NoDup l -> ~ In x l -> NoDup (l ++ [x]).
Proof.
  induction 1 as [|a l Ha Hl IH]; intros Hx; cbn.
  - constructor; [intros [] | constructor].
  - constructor.
    + intros Hin. apply in_app_or in Hin. destruct Hin as [Hin|[<-|[]]].
      * exact (Ha Hin).
      * apply Hx. left. reflexivity.
    + apply IH. intros Hin. apply Hx. right. exact Hin.
Qed.

(** With a language model that answers with the URL it was given (up to
    trailing slashes), the index keeps at most one entry for a normalised
    source URL: if no two entries share one before a run, none do after it,
    whatever the outcome of the run. *)
Theorem index_stays_free_of_duplicates
    (w : world) (env : environ) (argv : list string) (st : state) (ix : index) :
  echoes w ->
  index_file st = Some ix ->
  NoDup (keys ix) ->
  exists ix',
    index_file (snd (main w env argv st)) = Some ix' /\ NoDup (keys ix').
Proof.
  intros Hecho Hix Hnd.
  destruct (main_index w env argv st ix Hix)
    as [H | [prog [arg [rest [r [tr [written [-> [Hf [Hg [Hs [_ [_ [_ [Hi _]]]]]]]]]]]]]]].
  - exists ix. split; assumption.
  - exists (ix ++ [index_entry_of written])%list. split; [exact Hi|].
    unfold keys. rewrite map_app. cbn [map index_entry_of e_source].
    apply NoDup_snoc; [exact Hnd|].
    rewrite Hs, (Hecho _ _ _ _ Hg). intros Hin.
    apply in_map_iff in Hin. destruct Hin as [e [He Hin]].
    exact (find_existing_miss ix _ Hf e Hin He).
Qed.

Lemma index_stays_free_of_duplicates_witness :
  exists ix',
    index_file (snd (main Worlds.faithful Scenario.with_key
                       ["pipeline.py"; "https://www.instagram.com/reel/abc/"]
                       Scenario.soup_site)) = Some ix'
    /\ NoDup (keys ix').
Proof.
  apply (index_stays_free_of_duplicates Worlds.faithful Scenario.with_key
           ["pipeline.py"; "https://www.instagram.com/reel/abc/"] Scenario.soup_site
           [Scenario.soup_entry]).
  - intros tr u l r H. inversion H. reflexivity.
  - vm_compute. reflexivity.
  - constructor; [intros [] | constructor].
Defined.

(** What the language model is asked, and when.  Every request of a run is
    for the trimmed URL of the command line and the platform detected from
    it, carries a transcript that is not empty, and uses
    [GEMINI_API_KEY] when that is set and not empty, [GOOGLE_API_KEY]
    otherwise, the key being non-empty; no request is made for a URL the
    index already has. *)
Theorem language_model_requests
    (w : world) (env : environ) (argv : list string) (st : state) :
  exists t,
    trace (snd (main w env argv st)) = (trace st ++ t)%list
    /\ forall transcription u label key,
        In (Gemini transcription u label key) t ->
        transcription <> "" /\ key <> ""
        /\ ((truthy (GEMINI_API_KEY env) = true /\ GEMINI_API_KEY env = Some key)
            \/ (truthy (GEMINI_API_KEY env) = false /\ GOOGLE_API_KEY env = Some key))
        /\ exists prog arg rest ix,
            argv = prog :: arg :: rest
            /\ u = PyStr.strip arg /\ label = detect_platform (PyStr.strip arg)
            /\ index_file st = Some ix
            /\ forall e, In e ix -> normalize (url (e_source e)) <> normalize u.
Proof.
  destruct (main_anatomy w env argv st)
    as [[notices [Hs _]] | [prog [arg [rest [ix [key [-> [Hix [Hf [Hk [He Hm]]]]]]]]]]].
  - exists (map Print notices). rewrite Hs. split; [reflexivity|].
    intros tr u l k Hin. apply in_map_iff in Hin. destruct Hin as [n [Hn _]].
    discriminate.
  - rewrite Hm. cbn [snd].
    destruct (stages_trace w (PyStr.strip arg) key (mkdtemp w)
                (emit (Mkdtemp (mkdtemp w)) st)) as [t [T [_ [_ A]]]].
    exists (Mkdtemp (mkdtemp w) :: t ++ [Rmtree (mkdtemp w)])%list.
    cbn [trace remove_tree emit] in *. split; [rewrite T, <- !app_assoc; reflexivity|].
    intros tr u l k [Hin|Hin]; [discriminate|].
    apply in_app_or in Hin. destruct Hin as [Hin|[Hin|[]]]; [|discriminate].
    destruct (A _ _ _ _ Hin) as [-> [-> [-> Hne]]].
    split; [exact Hne|]. split; [intros ->; discriminate|]. split.
    + unfold py_or in Hk. destruct (truthy (GEMINI_API_KEY env)); auto.
    + exists prog, arg, rest, ix. repeat split; try assumption.
      exact (find_existing_miss ix _ Hf).
Qed.

End MainTheorems.

(** ** The download stage in general *)

Section DownloadTheorems.

Import Pipeline Observe Anatomy.

Variable w : world.

Lemma requests_app (t1 t2 : list event) : requests (t1 ++ t2) = requests t1 + requests t2.
Proof. unfold requests. rewrite filter_app, length_app. reflexivity. Qed.

Lemma sleeps_app (t1 t2 : list event) : sleeps (t1 ++ t2) = sleeps t1 + sleeps t2.
Proof. unfold sleeps. rewrite filter_app, length_app. reflexivity. Qed.

(** One attempt: one request; a failed attempt sleeps five seconds when
    another attempt is left; a successful one has fetched the video. *)
Lemma download_attempt_outcome url api_key work_dir max_retries attempt st :
  exists t,
    trace (snd (download_attempt w url api_key work_dir max_retries attempt st))
    = (trace st ++ t)%list
    /\ requests t = 1
    /\ (forall s, In (Sleep s) t -> s = 5%Z)
    /\ if attempt_fails w attempt
       then if (S attempt <? max_retries)%nat
            then fst (download_attempt w url api_key work_dir max_retries attempt st) = None
                 /\ sleeps t = 1
            else fst (download_attempt w url api_key work_dir max_retries attempt st)
                 = Some None
                 /\ sleeps t = 0
       else fst (download_attempt w url api_key work_dir max_retries attempt st)
            = Some (Some (path_join work_dir "video.mp4"))
            /\ sleeps t = 0
            /\ path_exists (path_join work_dir "video.mp4")
                 (snd (download_attempt w url api_key work_dir max_retries attempt st))
               = true.
Proof.
  assert (Hcmp : (Z.of_nat attempt <? Z.of_nat max_retries - 1)%Z
                 = (S attempt <? max_retries)%nat).
  { destruct (Z.ltb_spec (Z.of_nat attempt) (Z.of_nat max_retries - 1)),
             (Nat.ltb_spec (S attempt) max_retries); try reflexivity; lia. }
  assert (Hfail : forall msg s0 t0,
             trace s0 = (trace st ++ t0)%list -> requests t0 = 1 -> sleeps t0 = 0 ->
             (forall s, In (Sleep s) t0 -> s = 5%Z) ->
             exists t,
               trace (snd (attempt_failed attempt max_retries msg s0)) = (trace st ++ t)%list
               /\ requests t = 1
               /\ (forall s, In (Sleep s) t -> s = 5%Z)
               /\ if (S attempt <? max_retries)%nat
                  then fst (attempt_failed attempt max_retries msg s0) = None /\ sleeps t = 1
                  else fst (attempt_failed attempt max_retries msg s0) = Some None
                       /\ sleeps t = 0).
  { intros msg s0 t0 T0 R0 S0 F0. unfold attempt_failed. cbv zeta. rewrite Hcmp.
    destruct (S attempt <? max_retries)%nat; cbn [fst snd trace say emit];
      rewrite T0, <- !app_assoc; eexists; (split; [reflexivity|]);
      rewrite ?requests_app, ?sleeps_app, R0, S0;
      (split; [reflexivity|]); (split; [|split; reflexivity]);
      intros s Hin; apply in_app_or in Hin; destruct Hin as [Hin|Hin];
      try exact (F0 s Hin); cbn in Hin;
      repeat (destruct Hin as [Hin|Hin]; [inversion Hin; reflexivity|]);
      contradiction. }
  unfold download_attempt, attempt_fails. cbv zeta.
  assert (T1 : trace (emit (CobaltPost url api_key) st)
               = (trace st ++ [CobaltPost url api_key])%list) by reflexivity.
  assert (N1 : forall s, In (Sleep s) [CobaltPost url api_key] -> s = 5%Z)
    by (intros s [H|[]]; discriminate).
  destruct (cobalt w attempt) as [msg|status media filename].
  { exact (Hfail msg _ _ T1 eq_refl eq_refl N1). }
  destruct status as [status|]; [destruct (String.eqb status "tunnel")|]; cbn [negb].
  - destruct media as [video_url|].
    + assert (T2 : trace (emit (UrlRetrieve video_url (path_join work_dir "video.mp4"))
                            (emit (CobaltPost url api_key) st))
                   = (trace st ++ [CobaltPost url api_key;
                                   UrlRetrieve video_url (path_join work_dir "video.mp4")])%list).
      { cbn [trace emit]. rewrite <- app_assoc. reflexivity. }
      assert (N2 : forall s,
                 In (Sleep s) [CobaltPost url api_key;
                               UrlRetrieve video_url (path_join work_dir "video.mp4")] ->
                 s = 5%Z)
        by (intros s [H|[H|[]]]; discriminate).
      destruct (retrieve w video_url) as [msg|size].
      * exact (Hfail msg _ _ T2 eq_refl eq_refl N2).
      * cbn [fst snd trace say emit add_file]. rewrite <- !app_assoc. eexists.
        split; [reflexivity|]. split; [reflexivity|]. split.
        { intros s Hin. cbn in Hin.
          repeat (destruct Hin as [Hin|Hin]; [discriminate|]). contradiction. }
        split; [reflexivity|]. split; [reflexivity|].
        unfold path_exists, say, emit, add_file. cbn [files existsb].
        rewrite String.eqb_refl. reflexivity.
    + exact (Hfail "'url'" _ _ T1 eq_refl eq_refl N1).
  - rewrite Hcmp. destruct (S attempt <? max_retries)%nat;
      cbn [fst snd trace say emit]; rewrite <- !app_assoc; eexists;
      (split; [reflexivity|]); (split; [reflexivity|]); (split; [|split; reflexivity]);
      intros s Hin; cbn in Hin;
      repeat (destruct Hin as [Hin|Hin]; [inversion Hin; reflexivity|]); contradiction.
  - rewrite Hcmp. destruct (S attempt <? max_retries)%nat;
      cbn [fst snd trace say emit]; rewrite <- !app_assoc; eexists;
      (split; [reflexivity|]); (split; [reflexivity|]); (split; [|split; reflexivity]);
      intros s Hin; cbn in Hin;
      repeat (destruct Hin as [Hin|Hin]; [inversion Hin; reflexivity|]); contradiction.
Qed.

(** Every attempt from [attempt] on fails: the loop uses them all. *)
Lemma download_loop_exhausts url api_key work_dir max_retries :
  forall todo attempt st,
    attempt + todo = max_retries ->
    (forall n, attempt <= n < max_retries -> attempt_fails w n = true) ->
    exists t,
      trace (snd (download_loop w url api_key work_dir max_retries attempt todo st))
      = (trace st ++ t)%list
      /\ fst (download_loop w url api_key work_dir max_retries attempt todo st) = None
      /\ requests t = todo /\ sleeps t = todo - 1
      /\ (forall s, In (Sleep s) t -> s = 5%Z).
Proof.
  induction todo as [|todo IH]; intros attempt st Hsum Hall.
  - exists []. cbn. rewrite app_nil_r. repeat split. intros s [].
  - cbn [download_loop].
    destruct (download_attempt_outcome url api_key work_dir max_retries attempt st)
      as [t [T [R [F O]]]].
    rewrite (Hall attempt ltac:(lia)) in O.
    destruct (download_attempt w url api_key work_dir max_retries attempt st)
      as [result s1]. cbn [fst snd] in *.
    destruct (Nat.ltb_spec (S attempt) max_retries) as [Hlt|Hge];
      destruct O as [-> Sl].
    + destruct (IH (S attempt) s1 ltac:(lia) ltac:(intros; apply Hall; lia))
        as [t2 [T2 [O2 [R2 [S2 F2]]]]].
      exists (t ++ t2)%list. rewrite T2, T, app_assoc, requests_app, sleeps_app.
      split; [reflexivity|]. split; [exact O2|]. split; [lia|]. split; [lia|].
      intros s Hin. apply in_app_or in Hin. destruct Hin; auto.
    + exists t. split; [exact T|]. split; [reflexivity|]. split; [lia|]. split; [lia|].
      exact F.
Qed.

(** The attempts before [k] fail and attempt [k] does not: the loop stops
    there with the video. *)
Lemma download_loop_stops url api_key work_dir max_retries k :
  k < max_retries -> attempt_fails w k = false ->
  forall todo attempt st,
    attempt + todo = max_retries -> attempt <= k ->
    (forall n, attempt <= n < k -> attempt_fails w n = true) ->
    exists t,
      trace (snd (download_loop w url api_key work_dir max_retries attempt todo st))
      = (trace st ++ t)%list
      /\ fst (download_loop w url api_key work_dir max_retries attempt todo st)
         = Some (path_join work_dir "video.mp4")
      /\ path_exists (path_join work_dir "video.mp4")
           (snd (download_loop w url api_key work_dir max_retries attempt todo st)) = true
      /\ requests t = S (k - attempt) /\ sleeps t = k - attempt
      /\ (forall s, In (Sleep s) t -> s = 5%Z).
Proof.
  intros Hk Hok. induction todo as [|todo IH]; intros attempt st Hsum Hle Hall; [lia|].
  cbn [download_loop].
  destruct (download_attempt_outcome url api_key work_dir max_retries attempt st)
    as [t [T [R [F O]]]].
  destruct (download_attempt w url api_key work_dir max_retries attempt st)
    as [result s1]. cbn [fst snd] in *.
  destruct (Nat.eq_dec attempt k) as [->|Hne].
  - rewrite Hok in O. destruct O as [-> [Sl Hp]].
    exists t. split; [exact T|]. split; [reflexivity|]. split; [exact Hp|].
    split; [lia|]. split; [lia | exact F].
  - rewrite (Hall attempt ltac:(lia)) in O.
    destruct (Nat.ltb_spec (S attempt) max_retries) as [Hlt|Hge]; [|lia].
    destruct O as [-> Sl].
    destruct (IH (S attempt) s1 ltac:(lia) ltac:(lia) ltac:(intros; apply Hall; lia))
      as [t2 [T2 [O2 [P2 [R2 [S2 F2]]]]]].
    exists (t ++ t2)%list. rewrite T2, T, app_assoc, requests_app, sleeps_app.
    split; [reflexivity|]. split; [exact O2|]. split; [exact P2|].
    split; [lia|]. split; [lia|].
    intros s Hin. apply in_app_or in Hin. destruct Hin; auto.
Qed.

(** Either all of the first [n] attempts fail, or there is a first one
    that does not. *)
Lemma first_ready_attempt (n : nat) :
  (forall i, i < n -> attempt_fails w i = true)
  \/ exists k, k < n /\ attempt_fails w k = false
               /\ forall i, i < k -> attempt_fails w i = true.
Proof.
  induction n as [|n [IH | [k [Hk [Hok Hbefore]]]]].
  - left. intros i Hi. lia.
  - destruct (attempt_fails w n) eqn:E.
    + left. intros i Hi. destruct (Nat.eq_dec i n) as [->|Hne]; [exact E|].
      apply IH. lia.
    + right. exists n. split; [lia|]. split; [exact E | exact IH].
  - right. exists k. split; [lia|]. split; assumption.
Qed.

End DownloadTheorems.

(** The download stops at the first attempt that works.  When the attempts
    before the [k]-th fail (raising, a status other than [tunnel], a reply
    without URL, a fetch that raises) and the [k]-th does not, with [k]
    below the limit, the stage returns the path of the video, which then
    exists, after [k + 1] requests and [k] sleeps of five seconds. *)
Theorem download_stops_at_first_success
    (w : Pipeline.world) (url api_key work_dir : string) (max_retries k : nat)
    (st : Pipeline.state) :
  k < max_retries ->
  (forall n, n < k -> Anatomy.attempt_fails w n = true) ->
  Anatomy.attempt_fails w k = false ->
  fst (Pipeline.download_video w url api_key work_dir max_retries st)
  = Some (Pipeline.path_join work_dir "video.mp4")
  /\ Pipeline.path_exists (Pipeline.path_join work_dir "video.mp4")
       (snd (Pipeline.download_video w url api_key work_dir max_retries st)) = true
  /\ exists t,
      Pipeline.trace (snd (Pipeline.download_video w url api_key work_dir max_retries st))
      = (Pipeline.trace st ++ t)%list
      /\ Anatomy.requests t = S k /\ Anatomy.sleeps t = k
      /\ forall s, In (Pipeline.Sleep s) t -> s = 5%Z.
Proof.
  intros Hk Hbefore Hok. unfold Pipeline.download_video.
  destruct (download_loop_stops w url api_key work_dir max_retries k Hk Hok
              max_retries 0 (Pipeline.say Pipeline.Downloading st) eq_refl
              ltac:(lia) ltac:(intros; apply Hbefore; lia))
    as [t [T [O [P [R [S F]]]]]].
  split; [exact O|]. split; [exact P|].
  exists (Pipeline.Print Pipeline.Downloading :: t). split.
  - rewrite T. cbn [Pipeline.trace Pipeline.say Pipeline.emit].
    rewrite <- app_assoc. reflexivity.
  - change (Anatomy.requests (Pipeline.Print Pipeline.Downloading :: t))
      with (Anatomy.requests t).
    change (Anatomy.sleeps (Pipeline.Print Pipeline.Downloading :: t))
      with (Anatomy.sleeps t).
    split; [lia|]. split; [lia|].
    intros s [Hin|Hin]; [discriminate | exact (F s Hin)].
Qed.

Lemma download_stops_at_first_success_witness :
  fst (Pipeline.download_video Worlds.waking "https://tiktok.com/y" Pipeline.cobalt_key
         "/tmp/recipe-k3x9" 3 Scenario.fresh_site)
  = Some (Pipeline.path_join "/tmp/recipe-k3x9" "video.mp4").
Proof.
  apply (download_stops_at_first_success Worlds.waking "https://tiktok.com/y"
           Pipeline.cobalt_key "/tmp/recipe-k3x9" 3 2 Scenario.fresh_site).
  - lia.
  - intros [|[|n]] Hn; [reflexivity | reflexivity | lia].
  - reflexivity.
Defined.

(** The download gives up exactly when every attempt fails, and never
    tries more often than allowed: the stage returns no path if and only if
    all [max_retries] attempts fail; in every case it makes at most
    [max_retries] requests, sleeps exactly between consecutive requests,
    five seconds each time, and a returned path is that of the video. *)
Theorem download_gives_up_when_all_attempts_fail
    (w : Pipeline.world) (url api_key work_dir : string) (max_retries : nat)
    (st : Pipeline.state) :
  (fst (Pipeline.download_video w url api_key work_dir max_retries st) = None
   <-> forall n, n < max_retries -> Anatomy.attempt_fails w n = true)
  /\ (forall path,
         fst (Pipeline.download_video w url api_key work_dir max_retries st) = Some path ->
         path = Pipeline.path_join work_dir "video.mp4")
  /\ exists t,
      Pipeline.trace (snd (Pipeline.download_video w url api_key work_dir max_retries st))
      = (Pipeline.trace st ++ t)%list
      /\ Anatomy.requests t <= max_retries
      /\ Anatomy.sleeps t = Anatomy.requests t - 1
      /\ forall s, In (Pipeline.Sleep s) t -> s = 5%Z.
Proof.
  unfold Pipeline.download_video.
  destruct (first_ready_attempt w max_retries) as [Hall | [k [Hk [Hok Hbefore]]]].
  - destruct (download_loop_exhausts w url api_key work_dir max_retries
                max_retries 0 (Pipeline.say Pipeline.Downloading st) eq_refl
                ltac:(intros; apply Hall; lia))
      as [t [T [O [R [S F]]]]].
    split; [split; [intros _; exact Hall | intros _; exact O]|].
    split; [intros path H; rewrite O in H; discriminate|].
    exists (Pipeline.Print Pipeline.Downloading :: t). split.
    + rewrite T. cbn [Pipeline.trace Pipeline.say Pipeline.emit].
      rewrite <- app_assoc. reflexivity.
    + change (Anatomy.requests (Pipeline.Print Pipeline.Downloading :: t))
        with (Anatomy.requests t).
      change (Anatomy.sleeps (Pipeline.Print Pipeline.Downloading :: t))
        with (Anatomy.sleeps t).
      split; [lia|]. split; [lia|].
      intros s [Hin|Hin]; [discriminate | exact (F s Hin)].
  - destruct (download_loop_stops w url api_key work_dir max_retries k Hk Hok
                max_retries 0 (Pipeline.say Pipeline.Downloading st) eq_refl
                ltac:(lia) ltac:(intros; apply Hbefore; lia))
      as [t [T [O [P [R [S F]]]]]].
    split; [split|].
    + intros H. rewrite O in H. discriminate.
    + intros Hall. rewrite (Hall k Hk) in Hok. discriminate.
    + split; [intros path H; rewrite O in H; inversion H; reflexivity|].
      exists (Pipeline.Print Pipeline.Downloading :: t). split.
      * rewrite T. cbn [Pipeline.trace Pipeline.say Pipeline.emit].
        rewrite <- app_assoc. reflexivity.
      * change (Anatomy.requests (Pipeline.Print Pipeline.Downloading :: t))
          with (Anatomy.requests t).
        change (Anatomy.sleeps (Pipeline.Print Pipeline.Downloading :: t))
          with (Anatomy.sleeps t).
        split; [lia|]. split; [lia|].
        intros s [Hin|Hin]; [discriminate | exact (F s Hin)].
Qed.

(** ** The thumbnail, from extraction to publication *)

Section ThumbnailTheorems.

Import Pipeline Observe Anatomy.

Lemma commit_no_copy (t : list event) :
  forallb commit_event t = true -> forall src dst, ~ In (CopyFile src dst) t.
Proof.
  intros H src dst Hin. rewrite forallb_forall in H. specialize (H _ Hin). discriminate.
Qed.

(** In the publish step the thumbnail is optional.  Without a thumbnail
    file, what [save_to_github] writes to the recipe file, and returns when
    it returns, is a record with the thumbnail field the recipe came with;
    nothing is copied and only the recipe file is added.  With one, the file
    is copied to [recipes/<slug>.jpg] before the recipe file is written, and
    the record written and returned, and the index entry made of it, point
    to [recipes/<slug>.jpg].  Either way the index, when it can be read, is
    left as it was or extended by the entry of the record written. *)
Theorem publish_thumbnail_is_optional
    (w : world) (r : recipe) (transcription : string) (thumbnail_path : option string)
    (st : state) :
  (copies thumbnail_path st = false ->
   exists written t,
     trace (snd (save_to_github w r transcription thumbnail_path st))
     = (trace st ++ Print Saving :: WriteRecipe (recipe_path r) written :: t)%list
     /\ (forall src dst, ~ In (CopyFile src dst) t)
     /\ (forall path other, ~ In (WriteRecipe path other) t)
     /\ thumbnail written = thumbnail r
     /\ (forall site returned,
            fst (save_to_github w r transcription thumbnail_path st) = Val (site, returned) ->
            returned = written)
     /\ (forall ix,
            index_file st = Some ix ->
            index_file (snd (save_to_github w r transcription thumbnail_path st)) = Some ix
            \/ index_file (snd (save_to_github w r transcription thumbnail_path st))
               = Some (ix ++ [index_entry_of written])%list)
     /\ files (snd (save_to_github w r transcription thumbnail_path st))
        = recipe_path r :: files st)
  /\ (forall p,
         thumbnail_path = Some p -> path_exists p st = true ->
         exists written t,
           trace (snd (save_to_github w r transcription thumbnail_path st))
           = (trace st ++ Print Saving :: CopyFile p (thumb_dest r)
                :: WriteRecipe (recipe_path r) written :: t)%list
           /\ (forall src dst, ~ In (CopyFile src dst) t)
           /\ (forall path other, ~ In (WriteRecipe path other) t)
           /\ thumbnail written = Some ("recipes/" ++ slug_of (title r) ++ ".jpg")
           /\ e_thumbnail (index_entry_of written)
              = Some ("recipes/" ++ slug_of (title r) ++ ".jpg")
           /\ (forall site returned,
                  fst (save_to_github w r transcription thumbnail_path st)
                  = Val (site, returned) ->
                  returned = written)
           /\ (forall ix,
                  index_file st = Some ix ->
                  index_file (snd (save_to_github w r transcription thumbnail_path st))
                  = Some ix
                  \/ index_file (snd (save_to_github w r transcription thumbnail_path st))
                     = Some (ix ++ [index_entry_of written])%list)
           /\ files (snd (save_to_github w r transcription thumbnail_path st))
              = recipe_path r :: thumb_dest r :: files st).
Proof.
  destruct (save_to_github_anatomy w r transcription thumbnail_path st)
    as [t [T [C [F H]]]].
  assert (Hret : forall site returned,
             fst (save_to_github w r transcription thumbnail_path st) = Val (site, returned) ->
             returned = published r thumbnail_path st).
  { intros site returned V. destruct (index_file st) as [ix|].
    - destruct H as [_ [[O|O] _]]; rewrite O in V; [|discriminate].
      inversion V. reflexivity.
    - destruct H as [O _]. rewrite O in V. discriminate. }
  assert (Hidx : forall ix,
             index_file st = Some ix ->
             index_file (snd (save_to_github w r transcription thumbnail_path st)) = Some ix
             \/ index_file (snd (save_to_github w r transcription thumbnail_path st))
                = Some (ix ++ [index_entry_of (published r thumbnail_path st)])%list).
  { intros ix Hix. rewrite Hix in H. destruct H as [I _]. rewrite I. unfold index_after.
    destruct (existing_entries ix (published r thumbnail_path st)); [right | left]; reflexivity. }
  assert (Hwr : forall path other, ~ In (WriteRecipe path other) t).
  { intros path other Hin. rewrite forallb_forall in C. specialize (C _ Hin). discriminate. }
  split.
  - intros Hc. exists (published r thumbnail_path st), t.
    assert (E : copy_events r thumbnail_path st = []).
    { unfold copy_events. unfold copies in Hc.
      destruct thumbnail_path; [rewrite Hc|]; reflexivity. }
    rewrite E in T. split; [exact T|].
    split; [exact (commit_no_copy t C)|]. split; [exact Hwr|].
    split; [unfold published; rewrite Hc; reflexivity|].
    split; [exact Hret|]. split; [exact Hidx|].
    unfold copy_files in F. rewrite Hc in F. exact F.
  - intros p -> Hp. exists (published r (Some p) st), t.
    assert (Hc : copies (Some p) st = true) by exact Hp.
    unfold copy_events in T. rewrite Hp in T. split; [exact T|].
    split; [exact (commit_no_copy t C)|]. split; [exact Hwr|].
    split; [unfold published; rewrite Hc; reflexivity|].
    split; [unfold published; rewrite Hc; reflexivity|].
    split; [exact Hret|]. split; [exact Hidx|].
    unfold copy_files in F. rewrite Hc in F. exact F.
Qed.

Lemma publish_thumbnail_is_optional_witness :
  (exists written t,
      trace (snd (save_to_github Scenario.ready Scenario.soup "boil water" None
                    Scenario.fresh_site))
      = (trace Scenario.fresh_site
           ++ Print Saving :: WriteRecipe (recipe_path Scenario.soup) written :: t)%list
      /\ thumbnail written = thumbnail Scenario.soup)
  /\ (exists written t,
         trace (snd (save_to_github Scenario.ready Scenario.soup "boil water"
                       (Some "/tmp/recipe-k3x9/thumbnail.jpg") Worlds.thumb_site))
         = (trace Worlds.thumb_site
              ++ Print Saving
              :: CopyFile "/tmp/recipe-k3x9/thumbnail.jpg" (thumb_dest Scenario.soup)
              :: WriteRecipe (recipe_path Scenario.soup) written :: t)%list
         /\ thumbnail written = Some ("recipes/" ++ slug_of (title Scenario.soup) ++ ".jpg")).
Proof.
  split.
  - assert (Hc : copies None Scenario.fresh_site = false) by reflexivity.
    destruct (proj1 (publish_thumbnail_is_optional Scenario.ready Scenario.soup "boil water"
                       None Scenario.fresh_site) Hc)
      as [written [t [T [_ [_ [Th _]]]]]].
    exists written, t. split; [exact T | exact Th].
  - assert (Hp : path_exists "/tmp/recipe-k3x9/thumbnail.jpg" Worlds.thumb_site = true)
      by reflexivity.
    destruct (proj2 (publish_thumbnail_is_optional Scenario.ready Scenario.soup "boil water"
                       (Some "/tmp/recipe-k3x9/thumbnail.jpg") Worlds.thumb_site)
                "/tmp/recipe-k3x9/thumbnail.jpg" eq_refl Hp)
      as [written [t [T [_ [_ [Th _]]]]]].
    exists written, t. split; [exact T | exact Th].
Defined.



End ThumbnailTheorems.

(** ** A run in which every collaborator answers *)

Section SuccessfulRun.

Import Pipeline Observe Anatomy.

Variable w : world.

Lemma extract_audio_succeeds video_path work_dir st size :
  returncode (ffmpeg_audio w) = 0%Z -> produced (ffmpeg_audio w) = Some size ->
  fst (extract_audio w video_path work_dir st) = Val (Some (path_join work_dir "audio.wav")).
Proof. intros Hr Hp. unfold extract_audio. cbv zeta. rewrite Hr, Hp. reflexivity. Qed.

Lemma extract_thumbnail_does_not_raise video_path work_dir st :
  returncode (ffmpeg_thumb w) <> 0%Z \/ produced (ffmpeg_thumb w) <> None ->
  exists thumbnail_path,
    fst (extract_thumbnail w video_path work_dir st) = Val thumbnail_path.
Proof.
  intros H. unfold extract_thumbnail. cbv zeta.
  destruct (Z.eqb_spec (returncode (ffmpeg_thumb w)) 0) as [E|E]; cbn [negb].
  - destruct (produced (ffmpeg_thumb w)); [eexists; reflexivity|].
    destruct H as [H|H]; contradiction.
  - eexists. reflexivity.
Qed.

Lemma transcribe_succeeds audio_path st text :
  w_returncode (whisper w) = 0%Z -> w_transcript (whisper w) = Some text ->
  fst (transcribe w audio_path st) = Val (Some (PyStr.strip text)).
Proof. intros Hr Ht. unfold transcribe. cbv zeta. rewrite Hr, Ht. reflexivity. Qed.

Lemma extract_recipe_succeeds transcription source_url api_key st r :
  gemini w transcription source_url (detect_platform source_url) = GeminiRecipe r ->
  fst (extract_recipe w transcription source_url api_key st) = Val (Some r).
Proof. intros H. unfold extract_recipe. cbv zeta. rewrite H. reflexivity. Qed.

Lemma first_attempt_ready media filename size :
  cobalt w 0 = CobaltJson (Some "tunnel") (Some media) filename ->
  retrieve w media = inr size ->
  attempt_fails w 0 = false.
Proof. intros Hc Hr. unfold attempt_fails. rewrite Hc. cbn. rewrite Hr. reflexivity. Qed.

Lemma git_commands_prints (notices : list notice) (t : list event) :
  git_commands (map Print notices ++ t) = git_commands t.
Proof. induction notices as [|n l IH]; [reflexivity | exact IH]. Qed.

(** A stretch of a run without shell commands. *)
Lemma quiet_frame (s : stage) (work_dir : string) (a b c : state) :
  (exists t, trace b = (trace a ++ t)%list /\ git_commands t = []) ->
  frame s work_dir b c -> rank s <> 6 ->
  exists t, trace c = (trace a ++ t)%list /\ git_commands t = [].
Proof.
  intros [t [T G]] [_ [_ [_ [t2 [T2 W2]]]]] Hs.
  exists (t ++ t2)%list. split; [rewrite T2, T, app_assoc; reflexivity|].
  rewrite git_commands_app, G. cbn [app].
  clear -W2 Hs. induction t2 as [|e t2 IH]; [reflexivity|].
  cbn [forallb] in W2. apply andb_true_iff in W2. destruct W2 as [We Wt].
  cbn [git_commands flat_map]. fold (git_commands t2). rewrite (IH Wt).
  destruct e; try reflexivity. unfold within in We. cbn [owner] in We.
  apply Nat.eqb_eq in We. cbn [rank] in We. congruence.
Qed.

(** When the video is ready at the first request, the transcoder produces
    the audio, the thumbnail command does not leave the run without a file
    it claims to have written, whisper gives a transcript that is not blank,
    the language model returns a recipe and every version-control command
    returns, the run returns that recipe with its colour scheme and with its
    thumbnail field as the thumbnail command decides (kept when the command
    failed, [recipes/<slug>.jpg] when it succeeded), the other fields being
    those of the language model; it files the recipe in the index unless an
    entry with exactly its source URL is there, has written the recipe file
    and has run the three commands, in order. *)
Theorem successful_run
    (env : environ) (prog arg : string) (rest : list string) (st : state) (ix : index)
    (key media text : string) (filename : option string) (size audio_size : Z)
    (r : recipe) :
  index_file st = Some ix ->
  find_existing ix (normalize (PyStr.strip arg)) = None ->
  py_or (GEMINI_API_KEY env) (GOOGLE_API_KEY env) = Some key ->
  PyStr.is_empty key = false ->
  cobalt w 0 = CobaltJson (Some "tunnel") (Some media) filename ->
  retrieve w media = inr size ->
  returncode (ffmpeg_audio w) = 0%Z ->
  produced (ffmpeg_audio w) = Some audio_size ->
  returncode (ffmpeg_thumb w) <> 0%Z \/ produced (ffmpeg_thumb w) <> None ->
  w_returncode (whisper w) = 0%Z ->
  w_transcript (whisper w) = Some text ->
  PyStr.is_empty (PyStr.strip text) = false ->
  gemini w (PyStr.strip text) (PyStr.strip arg) (detect_platform (PyStr.strip arg))
  = GeminiRecipe r ->
  git_returns w ->
  exists written,
    fst (main w env (prog :: arg :: rest) st) = Returned (Some written)
    /\ title written = title r /\ r_source written = r_source r
    /\ r_metadata written = r_metadata r /\ ingredients written = ingredients r
    /\ instructions written = instructions r /\ notes written = notes r
    /\ colors written = Some (generate_color_scheme (title r))
    /\ (returncode (ffmpeg_thumb w) <> 0%Z -> thumbnail written = thumbnail r)
    /\ (returncode (ffmpeg_thumb w) = 0%Z ->
        thumbnail written = Some ("recipes/" ++ slug_of (title r) ++ ".jpg"))
    /\ index_file (snd (main w env (prog :: arg :: rest) st))
       = Some (index_after ix written)
    /\ exists t,
        trace (snd (main w env (prog :: arg :: rest) st)) = (trace st ++ t)%list
        /\ In (WriteRecipe (recipe_path r) written) t
        /\ git_commands t = publish_commands written.
Proof.
  intros Hix Hf Hk He Hc Hr Har Hap Hth Hwr Hwt Hne Hg Hgit.
  rewrite (main_runs w env prog arg rest st ix key Hix Hf Hk He). cbn [fst snd].
  set (d := mkdtemp w). set (u := PyStr.strip arg).
  set (s00 := emit (Mkdtemp d) st).
  unfold run_stages. cbv zeta.
  set (s0 := say Blank (say (UrlLine u) (say Banner s00))).
  (* download *)
  destruct (download_loop_stops w u cobalt_key d 3 0 ltac:(lia)
              (first_attempt_ready media filename size Hc Hr)
              3 0 (say Downloading s0) eq_refl ltac:(lia) ltac:(intros; lia))
    as [t1 [T1 [O1 [_ [_ _]]]]].
  pose proof (download_video_frame w u cobalt_key d 3 s0) as F1.
  pose proof (download_video_index w u cobalt_key d 3 s0) as I1.
  unfold download_video in *.
  destruct (download_loop w u cobalt_key d 3 0 3 (say Downloading s0)) as [r1 s1].
  cbn [fst snd] in *. subst r1. cbv beta iota.
  (* audio *)
  pose proof (extract_audio_succeeds (path_join d "video.mp4") d s1 audio_size Har Hap) as O2.
  pose proof (extract_audio_frame w (path_join d "video.mp4") d s1) as F2.
  pose proof (extract_audio_index w (path_join d "video.mp4") d s1) as I2.
  destruct (extract_audio w (path_join d "video.mp4") d s1) as [r2 s2].
  cbn [fst snd] in *. subst r2. cbv beta iota.
  (* thumbnail *)
  destruct (extract_thumbnail_does_not_raise (path_join d "video.mp4") d s2 Hth)
    as [th O3].
  pose proof (extract_thumbnail_returns w (path_join d "video.mp4") d s2 th O3) as R3.
  pose proof (extract_thumbnail_frame w (path_join d "video.mp4") d s2) as F3.
  pose proof (extract_thumbnail_index w (path_join d "video.mp4") d s2) as I3.
  destruct (extract_thumbnail w (path_join d "video.mp4") d s2) as [r3 s3].
  cbn [fst snd] in *. subst r3. cbv beta iota.
  (* whisper *)
  pose proof (transcribe_succeeds (path_join d "audio.wav") s3 text Hwr Hwt) as O4.
  pose proof (transcribe_frame w (path_join d "audio.wav") d s3) as F4.
  pose proof (transcribe_index w (path_join d "audio.wav") s3) as I4.
  destruct (transcribe w (path_join d "audio.wav") s3) as [r4 s4].
  cbn [fst snd] in *. subst r4. cbv beta iota. rewrite Hne.
  (* gemini *)
  pose proof (extract_recipe_succeeds (PyStr.strip text) u key s4 r Hg) as O5.
  pose proof (extract_recipe_frame w (PyStr.strip text) u key d s4) as F5.
  pose proof (extract_recipe_index w (PyStr.strip text) u key s4) as I5.
  destruct (extract_recipe w (PyStr.strip text) u key s4) as [r5 s5].
  cbn [fst snd] in *. subst r5. cbv beta iota.
  (* publish *)
  assert (Hix5 : index_file s5 = Some ix).
  { rewrite I5, I4, I3, I2, I1. exact Hix. }
  destruct (save_to_github_anatomy w r (PyStr.strip text) th s5)
    as [t6 [T6 [C6 [Fi6 H6]]]].
  rewrite Hix5 in H6. destruct H6 as [Idx [_ [G6 V6]]].
  specialize (V6 Hgit). specialize (G6 V6).
  destruct (save_to_github w r (PyStr.strip text) th s5) as [r6 s6].
  cbn [fst snd] in *. subst r6. cbv beta iota. cbn [fst snd].
  exists (published r th s5).
  split; [reflexivity|].
  assert (Hfields : title (published r th s5) = title r
                    /\ r_source (published r th s5) = r_source r
                    /\ r_metadata (published r th s5) = r_metadata r
                    /\ ingredients (published r th s5) = ingredients r
                    /\ instructions (published r th s5) = instructions r
                    /\ notes (published r th s5) = notes r
                    /\ colors (published r th s5) = Some (generate_color_scheme (title r))).
  { unfold published. destruct (copies th s5); repeat split. }
  destruct Hfields as [H1 [H2 [H3 [H4 [H5 [H6 H7]]]]]].
  do 7 (split; [assumption|]).
  split.
  { intros Hrc. destruct R3 as [[-> _] | [_ [E _]]]; [reflexivity | contradiction]. }
  split.
  { intros Hrc. destruct R3 as [[_ E] | [-> [_ P3]]]; [contradiction|].
    assert (P5 : path_exists (path_join d "thumbnail.jpg") s5 = true).
    { apply (path_exists_mono s4 s5); [exact (proj1 (proj2 (proj2 F5)))|].
      apply (path_exists_mono s3 s4); [exact (proj1 (proj2 (proj2 F4))) | exact P3]. }
    unfold published, copies. rewrite P5. reflexivity. }
  split; [cbn [index_file remove_tree emit say]; exact Idx|].
  assert (Q0 : exists t, trace s0 = (trace st ++ t)%list /\ git_commands t = []).
  { eexists. unfold s0, s00. cbn [trace say emit]. rewrite <- !app_assoc.
    split; reflexivity. }
  assert (Q5 : exists t, trace s5 = (trace st ++ t)%list /\ git_commands t = []).
  { apply (quiet_frame Extraction d st s4 s5); [|exact F5 | cbn; lia].
    apply (quiet_frame Transcription d st s3 s4); [|exact F4 | cbn; lia].
    apply (quiet_frame Thumbnail d st s2 s3); [|exact F3 | cbn; lia].
    apply (quiet_frame Audio d st s1 s2); [|exact F2 | cbn; lia].
    apply (quiet_frame Download d st s0 s1); [exact Q0 | exact F1 | cbn; lia]. }
  destruct Q5 as [t5 [T5 G5]].
  exists (t5 ++ (Print Saving :: copy_events r th s5
                 ++ WriteRecipe (recipe_path r) (published r th s5) :: t6)
          ++ [Print Blank; Print Done; Print (RecipeLine (title (published r th s5)));
              Print (SiteLine site_url); Rmtree d])%list.
  split.
  - cbn [trace remove_tree emit say]. rewrite T6, T5, <- !app_assoc. reflexivity.
  - split.
    { apply in_or_app. right. apply in_or_app. left. right.
      apply in_or_app. right. left. reflexivity. }
    rewrite !git_commands_app, G5.
    change (git_commands (Print Saving :: ?x)) with (git_commands x).
    rewrite git_commands_app, git_commands_copy.
    change (git_commands (WriteRecipe ?a ?b :: t6)) with (git_commands t6).
    rewrite G6. cbn [app git_commands flat_map]. rewrite app_nil_r. reflexivity.
Qed.

End SuccessfulRun.

Lemma successful_run_witness :
  exists written,
    fst (Pipeline.main Scenario.ready Scenario.with_key
           ["pipeline.py"; "https://tiktok.com/x"] Scenario.fresh_site)
    = Pipeline.Returned (Some written)
    /\ Pipeline.title written = "Test Soup".
Proof.
  assert (Hgit : Anatomy.git_returns Scenario.ready) by (intros cmd; discriminate).
  assert (Hth : Pipeline.returncode (Pipeline.ffmpeg_thumb Scenario.ready) <> 0%Z
                \/ Pipeline.produced (Pipeline.ffmpeg_thumb Scenario.ready) <> None)
    by (left; discriminate).
  destruct (successful_run Scenario.ready Scenario.with_key "pipeline.py"
              "https://tiktok.com/x" [] Scenario.fresh_site [] "key"
              "https://cdn.example/v.mp4" (String.append "boil water" Anatomy.newline)
              (Some "v.mp4") 3145728 65536 Scenario.soup
              eq_refl eq_refl eq_refl eq_refl eq_refl eq_refl eq_refl eq_refl
              Hth eq_refl eq_refl eq_refl eq_refl Hgit)
    as [written [H1 [H2 _]]].
  exists written. split; [exact H1 | exact H2].
Defined.

(** ** Stages whose failure ends the run *)

Section FatalStages.

Import Pipeline Observe Anatomy.

Variable w : world.

Lemma ranks_bounded (k : nat) (t : list event) :
  Forall (fun r => 1 <= r <= k) (ranks t) ->
  forall e s, In e t -> owner e = Some s -> 1 <= rank s <= k.
Proof.
  induction t as [|x t IH]; intros H e s Hin Ho; [contradiction|].
  unfold ranks in H. cbn [flat_map] in H. apply Forall_app in H. destruct H as [Hx Ht].
  destruct Hin as [<-|Hin]; [|exact (IH Ht e s Hin Ho)].
  rewrite Ho in Hx. inversion Hx. assumption.
Qed.

(** With a failing audio extraction the stages end at rank 2 at the
    latest, with a failing transcription at rank 4, and no recipe comes
    back. *)
Lemma run_stages_cut_short video_url gemini_key work_dir st :
  (returncode (ffmpeg_audio w) <> 0%Z ->
   reached 2 video_url gemini_key work_dir st
     (snd (run_stages w video_url gemini_key work_dir st))
   /\ fst (run_stages w video_url gemini_key work_dir st) = Returned None)
  /\ (w_returncode (whisper w) <> 0%Z ->
      reached 4 video_url gemini_key work_dir st
        (snd (run_stages w video_url gemini_key work_dir st))
      /\ forall r, fst (run_stages w video_url gemini_key work_dir st)
                   <> Returned (Some r)).
Proof.
  unfold run_stages. cbv zeta.
  set (st0 := say Blank (say (UrlLine video_url) (say Banner st))).
  assert (R0 : reached 1 video_url gemini_key work_dir st st0).
  { unfold st0. repeat apply reached_say. apply reached_start. }
  pose proof (reached_step 1 Download _ _ _ _ _ _ R0
                (download_video_frame w video_url cobalt_key work_dir 3 st0)
                ltac:(cbn; lia) ltac:(cbn; lia) ltac:(cbn; lia)) as R1.
  destruct (download_video w video_url cobalt_key work_dir 3 st0)
    as [[video_path|] s1]; cbn [snd rank] in R1.
  2:{ split; intros _; cbn [fst snd];
        (split; [apply reached_say; eapply reached_mono; [exact R1 | lia]|]);
        [reflexivity | discriminate]. }
  pose proof (reached_step 1 Audio _ _ _ _ _ _ R1
                (extract_audio_frame w video_path work_dir s1)
                ltac:(cbn; lia) ltac:(cbn; lia) ltac:(cbn; lia)) as R2.
  split.
  - intros Hrc. unfold extract_audio in *. cbv zeta in *.
    destruct (Z.eqb_spec (returncode (ffmpeg_audio w)) 0) as [E|E]; [contradiction|].
    cbn [negb fst snd] in *. split; [apply reached_say; exact R2 | reflexivity].
  - intros Hrc.
    destruct (extract_audio w video_path work_dir s1)
      as [[[audio_path|]|e2] s2]; cbn [fst snd rank] in R2.
    2:{ cbn [fst snd]. split; [|discriminate].
        apply reached_say. eapply reached_mono; [exact R2 | lia]. }
    2:{ cbn [fst snd]. split; [|discriminate].
        eapply reached_mono; [exact R2 | lia]. }
    pose proof (reached_step 2 Thumbnail _ _ _ _ _ _ R2
                  (extract_thumbnail_frame w video_path work_dir s2)
                  ltac:(cbn; lia) ltac:(cbn; lia) ltac:(cbn; lia)) as R3.
    destruct (extract_thumbnail w video_path work_dir s2)
      as [[thumbnail_path|e3] s3]; cbn [fst snd rank] in R3.
    2:{ cbn [fst snd]. split; [|discriminate].
        eapply reached_mono; [exact R3 | lia]. }
    pose proof (reached_step 3 Transcription _ _ _ _ _ _ R3
                  (transcribe_frame w audio_path work_dir s3)
                  ltac:(cbn; lia) ltac:(cbn; lia) ltac:(cbn; lia)) as R4.
    unfold transcribe in *. cbv zeta in *.
    destruct (Z.eqb_spec (w_returncode (whisper w)) 0) as [E|E]; [contradiction|].
    cbn [negb fst snd rank] in *. split; [apply reached_say; exact R4 | discriminate].
Qed.

End FatalStages.

(** A failing audio extraction or transcription ends the run.  When the
    audio command exits non-zero, no run takes a thumbnail, transcribes,
    asks the language model or publishes; when whisper exits non-zero, no
    run asks the language model or publishes; in both cases no recipe is
    returned. *)
Theorem failed_stage_ends_run
    (w : Pipeline.world) (env : Pipeline.environ) (argv : list string)
    (st : Pipeline.state) :
  exists t,
    Pipeline.trace (snd (Pipeline.main w env argv st)) = (Pipeline.trace st ++ t)%list
    /\ (Pipeline.returncode (Pipeline.ffmpeg_audio w) <> 0%Z ->
        (forall r, fst (Pipeline.main w env argv st) <> Pipeline.Returned (Some r))
        /\ forall e s, In e t -> Anatomy.owner e = Some s ->
                       s <> Anatomy.Thumbnail /\ s <> Anatomy.Transcription
                       /\ s <> Anatomy.Extraction /\ s <> Anatomy.Publish)
    /\ (Pipeline.w_returncode (Pipeline.whisper w) <> 0%Z ->
        (forall r, fst (Pipeline.main w env argv st) <> Pipeline.Returned (Some r))
        /\ forall e s, In e t -> Anatomy.owner e = Some s ->
                       s <> Anatomy.Extraction /\ s <> Anatomy.Publish).
Proof.
  destruct (main_anatomy w env argv st)
    as [[notices [Hs [Hno _]]] | [prog [arg [rest [ix [key [-> [Hix [Hf [Hk [He Hm]]]]]]]]]]].
  - exists (map Pipeline.Print notices). rewrite Hs. split; [reflexivity|].
    split; intros _; (split; [exact Hno|]); intros e s Hin Ho;
      apply in_map_iff in Hin; destruct Hin as [n [<- _]]; discriminate.
  - rewrite Hm. cbn [fst snd].
    destruct (stages_trace w (PyStr.strip arg) key (Pipeline.mkdtemp w)
                (Pipeline.emit (Pipeline.Mkdtemp (Pipeline.mkdtemp w)) st))
      as [t [T _]].
    exists (Pipeline.Mkdtemp (Pipeline.mkdtemp w) :: t
            ++ [Pipeline.Rmtree (Pipeline.mkdtemp w)])%list.
    cbn [Pipeline.trace Pipeline.remove_tree Pipeline.emit] in *.
    split; [rewrite T, <- !app_assoc; reflexivity|].
    destruct (run_stages_cut_short w (PyStr.strip arg) key (Pipeline.mkdtemp w)
                (Pipeline.emit (Pipeline.Mkdtemp (Pipeline.mkdtemp w)) st))
      as [Ha Hw].
    split; intros Hrc.
    + destruct (Ha Hrc) as [[_ [_ [_ [t' [T' [_ [B _]]]]]]] Ho].
      cbn [Pipeline.trace Pipeline.emit] in T'. rewrite T in T'.
      rewrite <- !app_assoc in T'. apply app_inv_head in T'.
      cbn [app] in T'. inversion T'; subst t'.
      split; [rewrite Ho; discriminate|].
      intros e s [<-|Hin] Ho'; [inversion Ho'; repeat split; discriminate|].
      apply in_app_or in Hin. destruct Hin as [Hin|[<-|[]]];
        [|inversion Ho'; repeat split; discriminate].
      pose proof (ranks_bounded 2 t B e s Hin Ho') as Hr.
      repeat split; intros ->; cbn in Hr; lia.
    + destruct (Hw Hrc) as [[_ [_ [_ [t' [T' [_ [B _]]]]]]] Ho].
      cbn [Pipeline.trace Pipeline.emit] in T'. rewrite T in T'.
      rewrite <- !app_assoc in T'. apply app_inv_head in T'.
      cbn [app] in T'. inversion T'; subst t'.
      split; [exact Ho|].
      intros e s [<-|Hin] Ho'; [inversion Ho'; repeat split; discriminate|].
      apply in_app_or in Hin. destruct Hin as [Hin|[<-|[]]];
        [|inversion Ho'; repeat split; discriminate].
      pose proof (ranks_bounded 4 t B e s Hin Ho') as Hr.
      repeat split; intros ->; cbn in Hr; lia.
Qed.

Lemma failed_stage_ends_run_witness :
  fst (Pipeline.main Worlds.corrupt Scenario.with_key
         ["pipeline.py"; "https://tiktok.com/y"] Scenario.soup_site)
  <> Pipeline.Returned (Some Scenario.soup).
Proof.
  destruct (failed_stage_ends_run Worlds.corrupt Scenario.with_key
              ["pipeline.py"; "https://tiktok.com/y"] Scenario.soup_site)
    as [t [_ [Ha _]]].
  apply Ha. discriminate.
Defined.

(** A run of the runner that exits 0 without a [Recipe:] line (a duplicate,
    or a stage that failed and made the runner return early) leaves the
    dispatcher silent: it has started the runner, prints nothing, and
    exits 0. *)
Theorem handler_silent_without_recipe_line
    (subprocess_run : list string -> Handler.run_reply) (prog url : string)
    (rest : list string) (stdout stderr : string) :
  Handler.supported url = true ->
  subprocess_run ["python3"; Handler.pipeline; url] = Handler.Completed 0 stdout stderr ->
  Forall (fun l => PyStr.startswith "Recipe:" l = false) (PyStr.split_lines stdout) ->
  Handler.main subprocess_run (prog :: url :: rest)
  = (0%Z, [Handler.Run ["python3"; Handler.pipeline; url] 300]).
Proof.
  intros Hs Hrun Hlines. unfold Handler.main. rewrite Hs, Hrun. cbn [negb Z.eqb].
  rewrite <- (app_nil_r (PyStr.split_lines stdout)), (report_skips _ _ Hlines).
  reflexivity.
Qed.

Lemma handler_silent_without_recipe_line_witness :
  Handler.main (fun _ => Handler.Completed 0 "Failed to download video" "")
    ["recipe-handler"; "https://www.tiktok.com/@chef/video/1"]
  = (0%Z,
     [Handler.Run ["python3"; Handler.pipeline; "https://www.tiktok.com/@chef/video/1"]
        300]).
Proof.
  apply (handler_silent_without_recipe_line _ "recipe-handler"
           "https://www.tiktok.com/@chef/video/1" [] "Failed to download video" "").
  - reflexivity.
  - reflexivity.
  - repeat constructor.
Defined.

Lemma handler_status_and_start_witness :
  fst (Handler.main (fun _ => Handler.Completed 7 "" "boom")
         ["recipe-handler"; "https://www.instagram.com/reel/abc/"]) = 0%Z
  /\ exists later,
      snd (Handler.main (fun _ => Handler.Completed 7 "" "boom")
             ["recipe-handler"; "https://www.instagram.com/reel/abc/"])
      = Handler.Run ["python3"; Handler.pipeline; "https://www.instagram.com/reel/abc/"] 300
        :: later
      /\ forall cmd limit, ~ In (Handler.Run cmd limit) later.
Proof.
  destruct (handler_status_and_start (fun _ => Handler.Completed 7 "" "boom")
              ["recipe-handler"; "https://www.instagram.com/reel/abc/"])
    as [H0 [_ [_ Hstart]]].
  split.
  - apply (proj2 H0).
    exists "recipe-handler", "https://www.instagram.com/reel/abc/", [], 7%Z, "", "boom".
    repeat split.
  - apply (Hstart "recipe-handler" "https://www.instagram.com/reel/abc/" []); reflexivity.
Defined.

Lemma download_gives_up_when_all_attempts_fail_witness :
  fst (Pipeline.download_video Scenario.asleep "https://tiktok.com/y" Pipeline.cobalt_key
         "/tmp/recipe-k3x9" 3 Scenario.fresh_site) = None.
Proof.
  apply (proj2 (proj1 (download_gives_up_when_all_attempts_fail Scenario.asleep
                         "https://tiktok.com/y" Pipeline.cobalt_key "/tmp/recipe-k3x9" 3
                         Scenario.fresh_site))).
  intros n Hn. reflexivity.
Defined.

Lemma language_model_requests_witness :
  "boil water" <> "" /\ "google-key" <> ""
  /\ ((Pipeline.truthy (Pipeline.GEMINI_API_KEY Worlds.both_keys) = true
       /\ Pipeline.GEMINI_API_KEY Worlds.both_keys = Some "google-key")
      \/ (Pipeline.truthy (Pipeline.GEMINI_API_KEY Worlds.both_keys) = false
          /\ Pipeline.GOOGLE_API_KEY Worlds.both_keys = Some "google-key")).
Proof.
  destruct (language_model_requests Scenario.ready Worlds.both_keys
              ["pipeline.py"; " https://tiktok.com/x "] Scenario.fresh_site)
    as [t [T H]].
  assert (Hin : In (Pipeline.Gemini "boil water" "https://tiktok.com/x" "tiktok"
                      "google-key") t).
  { change (Pipeline.trace Scenario.fresh_site ++ t)%list with t in T.
    rewrite <- T. vm_compute. repeat first [left; reflexivity | right]. }
  destruct (H _ _ _ _ Hin) as [H1 [H2 [H3 _]]].
  split; [exact H1|]. split; [exact H2 | exact H3].
Defined.
